(** * IITS - Industrial IoT Threat Simulator: a shallow embedding of [iits.py]

    The simulator is a Python program built from four classes: [IoTDevice],
    [BruteForceAttack], [DDoSAttack] and [SimulationManager].  Each class is
    embedded as a module holding a record for the object's fields and one
    function per method.  Everything the program obtains from outside (the
    broker's answers, the random generator, the wall clock, calls made by
    other threads) is read from an explicit [World] oracle, and everything
    it does to the outside (log lines, client calls, sleeps) is recorded in a
    trace of [event]s.

    A Python float is the rational number it stands for.  The float
    operations whose rounding shows in what the program does, the quotient
    [1 / rate], [random.uniform] and [round], round their exact result to
    the nearest double ([Py.float]).  Wall-clock time is counted in seconds
    as a rational number: the readings of the clock and what is computed
    from them are taken as exact, and so are the products [duration * 0.25]
    and [duration * 0.5], which are exact in floats for every duration
    below [2 ** 53]. *)

From Stdlib Require Import ZArith QArith Qround Qpower Lia Lqa.
From Stdlib Require Import List String Bool Arith.
From Stdlib Require Import DecimalString.
Import ListNotations.

Set Implicit Arguments.

(* ===================================================================== *)
(** ** Python primitives used by the program *)
(* ===================================================================== *)

Module Py.

(** Exceptions that the modelled code can meet. *)
Inductive exn :=
| ZeroDivisionError
| ValueError
| ConnectionError
| KeyboardInterrupt.

(** A statement either completes or raises. *)
Inductive completion (A : Type) :=
| Normal (a : A)
| Raised (e : exn) (a : A).
Arguments Normal {A} a.
Arguments Raised {A} e a.

(** [dict.get(key, default)] for a key that may be absent. *)
Definition get {A : Type} (entry : option A) (default : A) : A :=
  match entry with
  | Some v => v
  | None => default
  end.

(** [range(n)]: empty when [n <= 0]. *)
Definition range (n : Z) : list nat := seq 0 (Z.to_nat n).

(** [random.randint(a, b)]: [a + randbelow(b - a + 1)]; [r] is the raw
    draw of the generator. *)
Definition randint (a b : Z) (r : Z) : Z := (a + r mod (b - a + 1))%Z.

(** [random.choice(seq)]. *)
Definition choice {A : Type} (l : list A) (d : A) (r : Z) : A :=
  nth (Z.to_nat (r mod Z.of_nat (List.length l))) l d.

(** Round to the nearest integer, ties to the even neighbour. *)
Definition round_half_even (x : Q) : Z :=
  let f := Qfloor x in
  let frac := (x - inject_Z f)%Q in
  match (frac ?= 1 # 2)%Q with
  | Lt => f
  | Gt => (f + 1)%Z
  | Eq => if Z.even f then f else (f + 1)%Z
  end.

(** [floor(log2(q))] for a positive [q]. *)
Definition exponent (q : Q) : Z :=
  let e := (Z.log2 (Qnum q) - Z.log2 (Z.pos (Qden q)))%Z in
  if Qle_bool (2 ^ e) q then e else (e - 1)%Z.

(** The weight of the last binary place that a double near [q] holds: a
    double has 53 significant bits and no place below [2 ** -1074]. *)
Definition last_place (q : Q) : Z := Z.max (exponent q - 52) (-1074).

(** The double nearest to a positive [q], ties to the even significand. *)
Definition nearest (q : Q) : Q :=
  let g := last_place q in
  (inject_Z (round_half_even (q * 2 ^ (- g))) * 2 ^ g)%Q.

(** The float that an operation with the exact result [q] returns: IEEE
    754 binary64, round to nearest.  Results too large for a double do not
    occur in the program and are not modelled. *)
Definition float (q : Q) : Q :=
  match (q ?= 0)%Q with
  | Eq => 0
  | Gt => nearest q
  | Lt => - nearest (- q)
  end.

(** [a / b] on two integers, [b] not zero: the quotient, correctly
    rounded. *)
Definition truediv (a b : Z) : Q := float (inject_Z a / inject_Z b).

(** [random.random()]: a 53-bit fraction in [0, 1). *)
Definition random (r : Z) : Q := ((r mod 2 ^ 53)%Z # (2 ^ 53))%Q.

(** [random.uniform(a, b)]: [a + (b - a) * random()], in floats. *)
Definition uniform (a b : Q) (r : Z) : Q :=
  float (float a + float (float (b - a) * random r)).

(** [round(x, ndigits)] of a float, for [ndigits >= 0]: the double nearest
    to the decimal that is nearest to [x]. *)
Definition round (x : Q) (ndigits : Z) : Q :=
  float (inject_Z (round_half_even (x * inject_Z (10 ^ ndigits)))
         / inject_Z (10 ^ ndigits)).

(** [a < b] on clock readings. *)
Definition Qltb (a b : Q) : bool := negb (Qle_bool b a).

Definition ascii_lowercase : list Ascii.ascii :=
  list_ascii_of_string "abcdefghijklmnopqrstuvwxyz".
Definition ascii_uppercase : list Ascii.ascii :=
  list_ascii_of_string "ABCDEFGHIJKLMNOPQRSTUVWXYZ".
Definition ascii_letters : list Ascii.ascii :=
  ascii_lowercase ++ ascii_uppercase.
Definition digits : list Ascii.ascii :=
  list_ascii_of_string "0123456789".

(** [int(x)]: truncation towards zero. *)
Definition int (x : Q) : Z := Z.quot (Qnum x) (Z.pos (Qden x)).

(** [str(n)] for a non-negative integer, as an f-string prints it. *)
Definition str (n : nat) : string :=
  DecimalString.NilZero.string_of_uint (Nat.to_uint n).

End Py.

(* ===================================================================== *)
(** ** Values, log lines and observable events *)
(* ===================================================================== *)

(** A number as Python holds it: a float or an int. *)
Inductive number :=
| Float (q : Q)
| Int (z : Z).

(** The dictionary built by [IoTDevice.generate_data]. *)
Record reading := mkReading {
  r_device : string;
  r_type : string;
  r_hardware : string;
  r_value : number;
  r_unit : string;
  r_timestamp : Q
}.

(** What is handed to [client.publish]: a string of characters, or the
    [json.dumps] of a reading. *)
Inductive payload :=
| Text (s : string)
| Json (r : reading).

(** Identifier handed to [mqtt.Client(client_id=...)]. *)
Inductive client_id :=
| DeviceClient (device_type device_id : string) (suffix : Z)
| BruteforceClient (suffix : Z)
| DdosClient (suffix : Z)
| DdosPubClient (index : nat) (suffix : Z).

Inductive level := INFO | WARNING | ERROR.

(** One constructor per [logger] call site of the program. *)
Inductive message :=
| DevicePublished (device_id : string)
| DevicePublishFailed (device_id : string)
| DeviceError (device_id : string)
| BruteStarting
| BruteSuccess (password : string)
| BruteProgress (attempts : Z)
| BruteError
| BruteFinished (attempts : Z)
| ConnFloodProgress (operations : Z)
| PubFloodNoConnections
| PubFloodProgress (operations : Z)
| PubFloodError
| DDoSStarting (attack_type : string)
| DDoSUnknownType (attack_type : string)
| DDoSFinished (operations : Z)
| SimStarting (duration : Z)
| SimCreating (devices : Z)
| SimCreated (devices : nat)
| SimStartingDevices
| SimSchedulingBrute (delay : Z)
| SimSchedulingDDoS (delay : Z)
| SimStatus (elapsed remaining : Z)
| SimInterrupted
| SimStopping
| SimStopped
| SimConfiguringBrute
| SimConfiguringDDoS (attack_type : string).

(** What the program does to the outside world. *)
Inductive event :=
| Log (l : level) (m : message)
| Connect (c : client_id) (ok : bool)
| Disconnect (c : client_id) (ok : bool)
| LoopStart (c : client_id)
| LoopStop (c : client_id) (ok : bool)
| Publish (c : client_id) (topic : string) (data : payload) (ok : bool)
| Sleep (seconds : Q).

Definition trace := list event.

(* ===================================================================== *)
(** ** The world outside the program *)
(* ===================================================================== *)

(** How a [client.publish] call ends: acknowledged, refused with a return
    code, or with an exception. *)
Inductive publish_outcome := Acked | Refused | Raises.

(** Everything a worker reads from outside.  Loops are counted in cycles:
    cycle [n] starts with the [n]-th evaluation of the loop test. *)
Record World := mkWorld {
  (** another thread calls [stop()] on the actor just before test [n] *)
  stop_req : nat -> bool;
  (** Ctrl-C arrives while the main thread is in cycle [n] *)
  interrupt : nat -> bool;
  (** seconds spent in the code that precedes the first sleep *)
  startup : Q;
  (** seconds by which the sleep that precedes the loop overshoots *)
  startup_oversleep : Q;
  (** seconds cycle [n] spends in calls other than [time.sleep] *)
  busy : nat -> Q;
  (** seconds by which the sleep of cycle [n] overshoots *)
  oversleep : nat -> Q;
  (** does the [i]-th connection made before the loop succeed *)
  setup_connect_ok : nat -> bool;
  (** does the [j]-th connection of cycle [n] succeed *)
  connect_ok : nat -> nat -> bool;
  publish_result : nat -> client_id -> string -> publish_outcome;
  loop_stop_ok : client_id -> bool;
  disconnect_ok : client_id -> bool;
  (** raw draws of the random generator: before the loop, in cycle [n],
      and for character [k] of the payload published in cycle [n] *)
  setup_draw : nat -> Z;
  draw : nat -> nat -> Z;
  payload_draw : nat -> client_id -> string -> nat -> Z
}.

(** Time does not run backwards. *)
Definition causal (w : World) : Prop :=
  (0 <= startup w /\ 0 <= startup_oversleep w /\
   forall n, 0 <= busy w n /\ 0 <= oversleep w n)%Q.


(** A world where every call succeeds at once, nobody interferes and the
    generator returns [seed] for every draw. *)
Definition calm (seed : Z) : World := {|
  stop_req := fun _ => false;
  interrupt := fun _ => false;
  startup := 0;
  startup_oversleep := 0;
  busy := fun _ => 0%Q;
  oversleep := fun _ => 0%Q;
  setup_connect_ok := fun _ => true;
  connect_ok := fun _ _ => true;
  publish_result := fun _ _ _ => Acked;
  loop_stop_ok := fun _ => true;
  disconnect_ok := fun _ => true;
  setup_draw := fun _ => seed;
  draw := fun _ _ => seed;
  payload_draw := fun _ _ _ _ => seed
|}.

(* ===================================================================== *)
(** ** Running code: object, clock and trace *)
(* ===================================================================== *)

(** The state a method runs in: the object it was called on, the wall
    clock and the events issued so far. *)
Record proc (A : Type) := mkProc {
  self : A;
  clock : Q;
  out : trace
}.
Arguments mkProc {A} self clock out.

Section Proc.
Context {A : Type}.

Definition update (f : A -> A) (s : proc A) : proc A :=
  mkProc (f (self s)) (clock s) (out s).

Definition emit (e : event) (s : proc A) : proc A :=
  mkProc (self s) (clock s) (out s ++ [e]).

Definition emits (es : trace) (s : proc A) : proc A :=
  mkProc (self s) (clock s) (out s ++ es).

Definition advance (d : Q) (s : proc A) : proc A :=
  mkProc (self s) (clock s + d)%Q (out s).

(** A sleep that is granted: the caller resumes [seconds + extra] later. *)
Definition pause (seconds extra : Q) (s : proc A) : proc A :=
  advance (seconds + extra) (emit (Sleep seconds) s).

(** [time.sleep(seconds)]: raises [ValueError] on a negative length. *)
Definition sleep (seconds extra : Q) (s : proc A) : Py.completion (proc A) :=
  if Py.Qltb seconds 0 then Py.Raised Py.ValueError s
  else Py.Normal (pause seconds extra s).

(** [while test: body], with [observe n] the writes of other threads that
    become visible when the test is evaluated for the [n]-th time.  An
    exception raised by the body leaves the loop. *)
Section While.
Variable observe : nat -> proc A -> proc A.
Variable test : proc A -> bool.
Variable body : nat -> proc A -> Py.completion (proc A).

Fixpoint while (fuel n : nat) (s : proc A) : option (Py.completion (proc A)) :=
  match fuel with
  | O => None
  | S fuel' =>
      let s := observe n s in
      if test s then
        match body n s with
        | Py.Normal s' => while fuel' (S n) s'
        | Py.Raised e s' => Some (Py.Raised e s')
        end
      else Some (Py.Normal s)
  end.
End While.

End Proc.

(* ===================================================================== *)
(** ** Simulated IoT devices *)
(* ===================================================================== *)

Module IoTDevice.

Record t := mk {
  id : string;
  type : string;
  hardware : string;
  broker : string;
  port : Z;
  running : bool;
  topic_pub : string;
  topic_sub : string;
  client : client_id
}.

Definition set_running (b : bool) (d : t) : t :=
  mk (id d) (type d) (hardware d) (broker d) (port d) b
     (topic_pub d) (topic_sub d) (client d).

(** [__init__]; [r] is the draw behind the client id's random suffix. *)
Definition init (device_id device_type hardware_type broker : string)
    (port : Z) (r : Z) : t :=
  mk device_id device_type hardware_type broker port true
     ("iot/sensor/" ++ device_type ++ "/" ++ device_id)
     ("iot/sensor/" ++ device_type ++ "/" ++ device_id ++ "/cmd")
     (DeviceClient device_type device_id (Py.randint 1000 9999 r)).

(** [generate_data]: [now] is the reading of [time.time()] and [r] the raw
    draw consumed by the one [random] call of the taken branch. *)
Definition generate_data (d : t) (now : Q) (r : Z) : reading :=
  let timestamp := now in
  let '(valor, unidade) :=
    if (type d =? "temperature")%string then
      (Float (Py.round (Py.uniform 15 30 r) 2), "Â°C"%string)
    else if (type d =? "humidity")%string then
      (Float (Py.round (Py.uniform 30 70 r) 2), "%"%string)
    else if (type d =? "luminosity")%string then
      (Int (Py.randint 0 1000 r), "lux"%string)
    else
      (Int (Py.randint 0 100 r), "units"%string) in
  mkReading (id d) (type d) (hardware d) valor unidade timestamp.

(** [publish_data], called in cycle [n]. *)
Definition publish_data (w : World) (n : nat) (s : proc t)
  : Py.completion (proc t) :=
  let d := self s in
  let data := generate_data d (clock s) (draw w n 0) in
  let payload := Json data in
  match publish_result w n (client d) (topic_pub d) with
  | Acked =>
      Py.Normal (emit (Log INFO (DevicePublished (id d)))
                   (emit (Publish (client d) (topic_pub d) payload true) s))
  | Refused =>
      Py.Normal (emit (Log ERROR (DevicePublishFailed (id d)))
                   (emit (Publish (client d) (topic_pub d) payload false) s))
  | Raises =>
      Py.Raised Py.ConnectionError
        (emit (Publish (client d) (topic_pub d) payload false) s)
  end.

(** [stop].  It has no handler of its own: [loop_stop] and [disconnect]
    return a code and do not raise. *)
Definition stop (s : proc t) : proc t :=
  let s := update (set_running false) s in
  let s := emit (LoopStop (client (self s)) true) s in
  emit (Disconnect (client (self s)) true) s.

(** A [stop()] issued by the orchestrator thread. *)
Definition observe (w : World) (n : nat) (s : proc t) : proc t :=
  if stop_req w n then stop s else s.

(** One turn of the publish loop. *)
Definition cycle (w : World) (n : nat) (s : proc t)
  : Py.completion (proc t) :=
  match publish_data w n s with
  | Py.Raised e s => Py.Raised e s
  | Py.Normal s =>
      (* Random interval between publications *)
      sleep (inject_Z (Py.randint 3 8 (draw w n 1))) (oversleep w n)
            (advance (busy w n) s)
  end.

(** [start]: connect, loop while [running], and stop in the [finally]. *)
Definition start (fuel : nat) (w : World) (s : proc t) : option (proc t) :=
  let c := client (self s) in
  let attempt :=
    if setup_connect_ok w 0 then
      let s := emit (Connect c true) s in
      let s := emit (LoopStart c) s in
      while (observe w) (fun s => running (self s)) (cycle w) fuel 0 s
    else Some (Py.Raised Py.ConnectionError (emit (Connect c false) s)) in
  match attempt with
  | None => None
  | Some (Py.Normal s) => Some (stop s)
  | Some (Py.Raised _ s) =>
      Some (stop (emit (Log ERROR (DeviceError (id (self s)))) s))
  end.

End IoTDevice.

(* ===================================================================== *)
(** ** Brute force attack *)
(* ===================================================================== *)

Module BruteForceAttack.

Record t := mk {
  broker : string;
  port : Z;
  target_username : string;
  rate : Z;  (* tries per second *)
  running : bool;
  password_attempts : Z
}.

Definition set_running (b : bool) (a : t) : t :=
  mk (broker a) (port a) (target_username a) (rate a) b (password_attempts a).

Definition set_password_attempts (k : Z) (a : t) : t :=
  mk (broker a) (port a) (target_username a) (rate a) (running a) k.

Definition init (broker : string) (port : Z) (target_username : string)
    (rate : Z) : t :=
  mk broker port target_username rate false 0.

(** [_generate_password(length)]: [length] draws among letters and digits. *)
Definition _generate_password (w : World) (n : nat) (length : Z) : string :=
  let chars := Py.ascii_letters ++ Py.digits in
  string_of_list_ascii
    (map (fun k => Py.choice chars Ascii.zero (draw w n k)) (Py.range length)).

(** [_attempt_login(password)] in cycle [n]: the answer and the events. *)
Definition _attempt_login (w : World) (n : nat) (a : t) (password : string)
  : bool * trace :=
  let c := BruteforceClient (Py.randint 1000 9999 (draw w n 8)) in
  if connect_ok w n 0 then
    if disconnect_ok w c then
      (true, [Connect c true; Disconnect c true;
              Log WARNING (BruteSuccess password)])
    else (false, [Connect c true; Disconnect c false])
  else (false, [Connect c false]).

(** [stop]. *)
Definition stop (s : proc t) : proc t := update (set_running false) s.

(** A [stop()] issued by the orchestrator thread. *)
Definition observe (w : World) (n : nat) (s : proc t) : proc t :=
  if stop_req w n then stop s else s.

(** The loop test [self.running and time.time() - start_time < duration]. *)
Definition test (start_time : Q) (duration : Z) (s : proc t) : bool :=
  running (self s) && Py.Qltb (clock s - start_time) (inject_Z duration).

(** One turn of the attempt loop. *)
Definition attempt (w : World) (n : nat) (s : proc t)
  : Py.completion (proc t) :=
  let password := _generate_password w n 8 in
  let s := emits (snd (_attempt_login w n (self s) password)) s in
  let s := advance (busy w n) s in
  let s := update (fun a =>
             set_password_attempts (password_attempts a + 1) a) s in
  (* Respects the configured retry rate *)
  if (rate (self s) =? 0)%Z then Py.Raised Py.ZeroDivisionError s
  else
    match sleep (Py.truediv 1 (rate (self s))) (oversleep w n) s with
    | Py.Raised e s => Py.Raised e s
    | Py.Normal s =>
        (* Loggin every 10 tries *)
        if (password_attempts (self s) mod 10 =? 0)%Z
        then Py.Normal
               (emit (Log INFO (BruteProgress (password_attempts (self s)))) s)
        else Py.Normal s
    end.

(** The [while] of [start]. *)
Definition attempt_loop (fuel : nat) (w : World) (start_time : Q)
    (duration : Z) (s : proc t) : option (Py.completion (proc t)) :=
  while (observe w) (test start_time duration) (attempt w) fuel 0 s.

(** [start(duration)]. *)
Definition start (fuel : nat) (w : World) (duration : Z) (s : proc t)
  : option (proc t) :=
  let s := update (set_running true) s in
  let s := update (set_password_attempts 0) s in
  let start_time := clock s in
  let s := emit (Log INFO BruteStarting) s in
  match attempt_loop fuel w start_time duration s with
  | None => None
  | Some r =>
      let s := match r with
               | Py.Normal s => s
               | Py.Raised _ s => emit (Log ERROR BruteError) s
               end in
      (* finally *)
      let s := update (set_running false) s in
      Some (emit (Log INFO (BruteFinished (password_attempts (self s)))) s)
  end.

End BruteForceAttack.

(* ===================================================================== *)
(** ** DDoS attacks *)
(* ===================================================================== *)

Module DDoSAttack.

Record t := mk {
  broker : string;
  port : Z;
  attack_type : string;  (* "connection" or "publish" *)
  rate : Z;  (* operations per second *)
  running : bool;
  clients : list client_id;
  operations_count : Z
}.

Definition set_running (b : bool) (a : t) : t :=
  mk (broker a) (port a) (attack_type a) (rate a) b (clients a)
     (operations_count a).

Definition set_clients (l : list client_id) (a : t) : t :=
  mk (broker a) (port a) (attack_type a) (rate a) (running a) l
     (operations_count a).

Definition set_operations_count (k : Z) (a : t) : t :=
  mk (broker a) (port a) (attack_type a) (rate a) (running a) (clients a) k.

Definition init (broker : string) (port : Z) (attack_type : string)
    (rate : Z) : t :=
  mk broker port attack_type rate false [] 0.

(** [stop]: clear the flag, then disconnect every retained client; a
    failing disconnect is passed over. *)
Definition stop (w : World) (s : proc t) : proc t :=
  let s := update (set_running false) s in
  (* Cleanup all connections *)
  let s := fold_left
             (fun s c => emit (Disconnect c (disconnect_ok w c)) s)
             (clients (self s)) s in
  update (set_clients []) s.

(** A [stop()] issued by the orchestrator thread. *)
Definition observe (w : World) (n : nat) (s : proc t) : proc t :=
  if stop_req w n then stop w s else s.

(** The loop test [self.running and time.time() - start_time < duration]. *)
Definition test (start_time : Q) (duration : Z) (s : proc t) : bool :=
  running (self s) && Py.Qltb (clock s - start_time) (inject_Z duration).

(** *** Connection flood *)

(** The body of the [for] of [_flood_connections]: attempt [j] of cycle
    [n], with its [except: pass]. *)
Definition connection_attempt (w : World) (n : nat) (s : proc t) (j : nat)
  : proc t :=
  let c := DdosClient (Py.randint 10000 999999 (draw w n j)) in
  if connect_ok w n j then
    let s := emit (Connect c true) s in
    let s := update (fun a => set_clients (clients a ++ [c]) a) s in
    update (fun a => set_operations_count (operations_count a + 1) a) s
  else emit (Connect c false) s.

(** Creates multiple connections in each cycle. *)
Definition connection_batch (w : World) (n : nat) (s : proc t) : proc t :=
  fold_left (connection_attempt w n)
            (Py.range (Z.min 10 (rate (self s) / 10))) s.

Definition connection_cycle (w : World) (n : nat) (s : proc t)
  : Py.completion (proc t) :=
  let s := connection_batch w n s in
  let s := advance (busy w n) s in
  (* Periodic logging *)
  let s := if (operations_count (self s) mod 50 =? 0)%Z
           then emit (Log INFO (ConnFloodProgress (operations_count (self s)))) s
           else s in
  sleep 1 (oversleep w n) s.  (* Rate control *)

(** [_flood_connections(duration)]. *)
Definition _flood_connections (fuel : nat) (w : World) (duration : Z)
    (s : proc t) : option (Py.completion (proc t)) :=
  let start_time := clock s in
  while (observe w) (test start_time duration) (connection_cycle w) fuel 0 s.

(** *** Publish flood *)

(** Create some base connections for the attack: attempt [i] of the setup
    loop, with its [except: continue]. *)
Definition base_attempt (w : World) (acc : list client_id * proc t) (i : nat)
  : list client_id * proc t :=
  let '(base_clients, s) := acc in
  let c := DdosPubClient i (Py.randint 1000 9999 (setup_draw w i)) in
  if setup_connect_ok w i then
    (base_clients ++ [c], emit (LoopStart c) (emit (Connect c true) s))
  else (base_clients, emit (Connect c false) s).

Definition flood_topics : list string :=
  map (fun i => ("ddos/flood/topic/" ++ Py.str i)%string) (Py.range 10).

(** The 50 letters published to [topic] through [c] in cycle [n]. *)
Definition random_payload (w : World) (n : nat) (c : client_id)
    (topic : string) : string :=
  string_of_list_ascii
    (map (fun k => Py.choice Py.ascii_letters Ascii.zero
                     (payload_draw w n c topic k))
         (Py.range 50)).

(** The inner [for topic in topics]; an exception leaves it at once. *)
Fixpoint publish_topics (w : World) (n : nat) (c : client_id)
    (topics : list string) (s : proc t) : Py.completion (proc t) :=
  match topics with
  | [] => Py.Normal s
  | topic :: rest =>
      let data := Text (random_payload w n c topic) in
      match publish_result w n c topic with
      | Raises => Py.Raised Py.ConnectionError (emit (Publish c topic data false) s)
      | Refused =>
          let s := emit (Publish c topic data false) s in
          let s := update (fun a =>
                     set_operations_count (operations_count a + 1) a) s in
          publish_topics w n c rest s
      | Acked =>
          let s := emit (Publish c topic data true) s in
          let s := update (fun a =>
                     set_operations_count (operations_count a + 1) a) s in
          publish_topics w n c rest s
      end
  end.

(** The outer [for client in base_clients]. *)
Fixpoint publish_clients (w : World) (n : nat) (base_clients : list client_id)
    (topics : list string) (s : proc t) : Py.completion (proc t) :=
  match base_clients with
  | [] => Py.Normal s
  | c :: rest =>
      match publish_topics w n c topics s with
      | Py.Raised e s => Py.Raised e s
      | Py.Normal s => publish_clients w n rest topics s
      end
  end.

(** One turn of the publish loop: the whole turn sits in a [try] whose
    handler logs the error, so the turn itself never raises. *)
Definition publish_cycle (w : World) (base_clients : list client_id)
    (topics : list string) (n : nat) (s : proc t) : Py.completion (proc t) :=
  let attempt :=
    (* Publish messages in multiples topics *)
    match publish_clients w n base_clients topics s with
    | Py.Raised e s => Py.Raised e (advance (busy w n) s)
    | Py.Normal s =>
        let s := advance (busy w n) s in
        (* Periodic logging *)
        let s := if (operations_count (self s) mod 100 =? 0)%Z
                 then emit (Log INFO (PubFloodProgress (operations_count (self s)))) s
                 else s in
        (* Rate control *)
        sleep 1 (oversleep w n) s
    end in
  match attempt with
  | Py.Normal s => Py.Normal s
  | Py.Raised _ s => Py.Normal (emit (Log ERROR PubFloodError) s)
  end.

(** The [while] of [_flood_publish]. *)
Definition publish_loop (fuel : nat) (w : World) (start_time : Q)
    (duration : Z) (base_clients : list client_id) (topics : list string)
    (s : proc t) : option (Py.completion (proc t)) :=
  while (observe w) (test start_time duration)
        (publish_cycle w base_clients topics) fuel 0 s.

(** Clients cleanup: one pooled client, with its [except: pass]. *)
Definition cleanup_client (w : World) (s : proc t) (c : client_id) : proc t :=
  if loop_stop_ok w c then
    emit (Disconnect c (disconnect_ok w c)) (emit (LoopStop c true) s)
  else emit (LoopStop c false) s.

(** [_flood_publish(duration)]. *)
Definition _flood_publish (fuel : nat) (w : World) (duration : Z)
    (s : proc t) : option (Py.completion (proc t)) :=
  let start_time := clock s in
  let '(base_clients, s) := fold_left (base_attempt w) (Py.range 5) ([], s) in
  let s := advance (startup w) s in
  match base_clients with
  | [] => Some (Py.Normal (emit (Log ERROR PubFloodNoConnections) s))
  | _ :: _ =>
      (* Generates topics for the attack *)
      let topics := flood_topics in
      (* Execute the attack *)
      match publish_loop fuel w start_time duration base_clients topics s with
      | None => None
      | Some (Py.Raised e s) => Some (Py.Raised e s)
      | Some (Py.Normal s) =>
          Some (Py.Normal (fold_left (cleanup_client w) base_clients s))
      end
  end.

(** [start(duration)]. *)
Definition start (fuel : nat) (w : World) (duration : Z) (s : proc t)
  : option (Py.completion (proc t)) :=
  let s := update (set_running true) s in
  let s := update (set_operations_count 0) s in
  let s := emit (Log INFO (DDoSStarting (attack_type (self s)))) s in
  let flood :=
    if (attack_type (self s) =? "connection")%string then
      _flood_connections fuel w duration s
    else if (attack_type (self s) =? "publish")%string then
      _flood_publish fuel w duration s
    else Some (Py.Normal (emit (Log ERROR (DDoSUnknownType (attack_type (self s)))) s)) in
  match flood with
  | None => None
  | Some (Py.Raised e s) => Some (Py.Raised e s)
  | Some (Py.Normal s) =>
      Some (Py.Normal
              (emit (Log INFO (DDoSFinished (operations_count (self s)))) s))
  end.

End DDoSAttack.

(* ===================================================================== *)
(** ** Simulation manager *)
(* ===================================================================== *)

Module SimulationManager.

(** The configuration dictionary; an absent key is [None]. *)
Record Config := mkConfig {
  c_broker : option string;
  c_port : option Z;
  c_duration : option Z;
  c_devices : option Z;
  c_bruteforce : option bool;
  c_bruteforce_rate : option Z;
  c_bruteforce_username : option string;
  c_bruteforce_duration : option Z;
  c_ddos : option bool;
  c_ddos_type : option string;
  c_ddos_rate : option Z;
  c_ddos_duration : option Z
}.

(** The command line as [parse_args] returns it. *)
Record Args := mkArgs {
  a_broker : string;
  a_port : Z;
  a_duration : Z;
  a_devices : Z;
  a_bruteforce : bool;
  a_bruteforce_rate : Z;
  a_bruteforce_username : string;
  a_ddos : bool;
  a_ddos_type : string;
  a_ddos_rate : Z
}.

(** The defaults of [parse_args]. *)
Definition default_args : Args :=
  mkArgs "localhost" 1883 300 5 false 10 "admin" false "connection" 50.

(** The dictionary that [main] creates from the arguments. *)
Definition main_config (args : Args) : Config :=
  mkConfig (Some (a_broker args)) (Some (a_port args))
           (Some (a_duration args)) (Some (a_devices args))
           (Some (a_bruteforce args)) (Some (a_bruteforce_rate args))
           (Some (a_bruteforce_username args)) None
           (Some (a_ddos args)) (Some (a_ddos_type args))
           (Some (a_ddos_rate args)) None.

Inductive attack :=
| Brute (a : BruteForceAttack.t)
| Flood (a : DDoSAttack.t).

(** What a thread is given to run: the [start] of a device, named by the
    id of the device, or the [start] of the attack it is held with. *)
Inductive callee :=
| DeviceStart (device_id : string)
| AttackStart.

(** A [threading.Thread]; [args] is the duration handed to an attack's
    [start].  What the target does once the thread is alive is the run of
    the device or attack on a [proc] of its own: the manager holds the
    object as it was built and only signals it through [stop]. *)
Record thread := mkThread {
  target : callee;
  args : option Z;
  daemon : bool;
  alive : bool
}.

(** [threading.Thread(target=..., args=...)], [thread.daemon = b] and
    [thread.start()]. *)
Definition Thread (target : callee) (args : option Z) : thread :=
  mkThread target args false false.

Definition set_daemon (b : bool) (th : thread) : thread :=
  mkThread (target th) (args th) b (alive th).

Definition thread_start (th : thread) : thread :=
  mkThread (target th) (args th) (daemon th) true.

(** What a [threading.Timer] calls when it fires. *)
Inductive callback := StartBruteforce | StartDDoS.

(** A started [threading.Timer]: it calls [function] once the clock has
    reached [due]. *)
Record timer := mkTimer {
  due : Q;
  function : callback
}.

Record t := mk {
  config : Config;
  devices : list IoTDevice.t;
  device_threads : list thread;
  attack_threads : list (thread * attack);
  running : bool;
  (** the timers started by [run] that have not fired yet; they are held
      by the threading runtime *)
  timers : list timer
}.

Definition set_devices (l : list IoTDevice.t) (m : t) : t :=
  mk (config m) l (device_threads m) (attack_threads m) (running m) (timers m).

Definition set_device_threads (l : list thread) (m : t) : t :=
  mk (config m) (devices m) l (attack_threads m) (running m) (timers m).

Definition set_attack_threads (l : list (thread * attack)) (m : t) : t :=
  mk (config m) (devices m) (device_threads m) l (running m) (timers m).

Definition set_running (b : bool) (m : t) : t :=
  mk (config m) (devices m) (device_threads m) (attack_threads m) b (timers m).

Definition set_timers (l : list timer) (m : t) : t :=
  mk (config m) (devices m) (device_threads m) (attack_threads m) (running m) l.

Definition init (config : Config) : t := mk config [] [] [] false [].

(** Run a method of an owned object on the caller's clock and trace. *)
Definition call {B : Type} (method : proc B -> proc B) (b : B) (s : proc t)
  : B * proc t :=
  let r := method (mkProc b (clock s) (out s)) in
  (self r, mkProc (self s) (clock r) (out r)).

Definition device_types : list string :=
  ["temperature"; "humidity"; "luminosity"]%string.
Definition hardware_types : list string :=
  ["Raspberry Pi"; "ESP32"; "Arduino"; "ESP8266"]%string.

(** The body of the [for] of [create_devices]; device [i] takes the draws
    [3 i], [3 i + 1] and [3 i + 2]. *)
Definition create_device (w : World) (s : proc t) (i : nat) : proc t :=
  let device_type := Py.choice device_types ""%string (setup_draw w (3 * i)) in
  let hardware_type :=
    Py.choice hardware_types ""%string (setup_draw w (3 * i + 1)) in
  let device_id := (device_type ++ "_" ++ Py.str (i + 1))%string in
  let device :=
    IoTDevice.init device_id device_type hardware_type
      (Py.get (c_broker (config (self s))) "localhost"%string)
      (Py.get (c_port (config (self s))) 1883%Z)
      (setup_draw w (3 * i + 2)) in
  update (fun m => set_devices (devices m ++ [device]) m) s.

Definition create_devices (w : World) (s : proc t) : proc t :=
  let devices_count := Py.get (c_devices (config (self s))) 5%Z in
  let s := emit (Log INFO (SimCreating devices_count)) s in
  let s := fold_left (create_device w) (Py.range devices_count) s in
  emit (Log INFO (SimCreated (List.length (devices (self s))))) s.

(** [start_devices]: one daemon thread per device, appended to
    [device_threads] and started; the devices then run on their own. *)
Definition start_devices (s : proc t) : proc t :=
  let s := emit (Log INFO SimStartingDevices) s in
  fold_left
    (fun s (device : IoTDevice.t) =>
       let thread := Thread (DeviceStart (IoTDevice.id device)) None in
       let thread := set_daemon true thread in
       update (fun m =>
         set_device_threads (device_threads m ++ [thread_start thread]) m) s)
    (devices (self s)) s.

Definition start_bruteforce_attack (s : proc t) : proc t :=
  let cfg := config (self s) in
  if negb (Py.get (c_bruteforce cfg) false) then s
  else
    let s := emit (Log INFO SimConfiguringBrute) s in
    let attack :=
      BruteForceAttack.init
        (Py.get (c_broker cfg) "localhost"%string)
        (Py.get (c_port cfg) 1883%Z)
        (Py.get (c_bruteforce_username cfg) "admin"%string)
        (Py.get (c_bruteforce_rate cfg) 10%Z) in
    let attack_duration := Py.get (c_bruteforce_duration cfg) 60%Z in
    let thread := Thread AttackStart (Some attack_duration) in
    let thread := set_daemon true thread in
    let thread := thread_start thread in
    update (fun m =>
      set_attack_threads (attack_threads m ++ [(thread, Brute attack)]) m) s.

Definition start_ddos_attack (s : proc t) : proc t :=
  let cfg := config (self s) in
  if negb (Py.get (c_ddos cfg) false) then s
  else
    let attack_type := Py.get (c_ddos_type cfg) "connection"%string in
    let s := emit (Log INFO (SimConfiguringDDoS attack_type)) s in
    let attack :=
      DDoSAttack.init
        (Py.get (c_broker cfg) "localhost"%string)
        (Py.get (c_port cfg) 1883%Z)
        attack_type
        (Py.get (c_ddos_rate cfg) 50%Z) in
    let attack_duration := Py.get (c_ddos_duration cfg) 60%Z in
    let thread := Thread AttackStart (Some attack_duration) in
    let thread := set_daemon true thread in
    let thread := thread_start thread in
    update (fun m =>
      set_attack_threads (attack_threads m ++ [(thread, Flood attack)]) m) s.

(** Stop all devices. *)
Fixpoint stop_devices (ds : list IoTDevice.t) (s : proc t)
  : list IoTDevice.t * proc t :=
  match ds with
  | [] => ([], s)
  | device :: rest =>
      let (device, s) := call IoTDevice.stop device s in
      let (rest, s) := stop_devices rest s in
      (device :: rest, s)
  end.

Definition stop_attack (w : World) (entry : thread * attack) (s : proc t)
  : (thread * attack) * proc t :=
  match entry with
  | (th, Brute a) =>
      let (a, s) := call BruteForceAttack.stop a s in ((th, Brute a), s)
  | (th, Flood a) =>
      let (a, s) := call (DDoSAttack.stop w) a s in ((th, Flood a), s)
  end.

(** Stop all attacks. *)
Fixpoint stop_attacks (w : World) (l : list (thread * attack)) (s : proc t)
  : list (thread * attack) * proc t :=
  match l with
  | [] => ([], s)
  | entry :: rest =>
      let (entry, s) := stop_attack w entry s in
      let (rest, s) := stop_attacks w rest s in
      (entry :: rest, s)
  end.

(** [stop]. *)
Definition stop (w : World) (s : proc t) : proc t :=
  if negb (running (self s)) then s
  else
    let s := emit (Log INFO SimStopping) s in
    let (ds, s) := stop_devices (devices (self s)) s in
    let s := update (set_devices ds) s in
    let (ats, s) := stop_attacks w (attack_threads (self s)) s in
    let s := update (set_attack_threads ats) s in
    let s := update (set_running false) s in
    emit (Log INFO SimStopped) s.

(** [threading.Timer(delay, f).start()]. *)
Definition timer_start (delay : Q) (f : callback) (s : proc t) : proc t :=
  update (fun m =>
    set_timers (timers m ++ [mkTimer (clock s + delay) f]) m) s.

Definition expired (now : Q) (tm : timer) : bool := Qle_bool (due tm) now.

Definition invoke (s : proc t) (tm : timer) : proc t :=
  match function tm with
  | StartBruteforce => start_bruteforce_attack s
  | StartDDoS => start_ddos_attack s
  end.

(** The timers that have come due fire on their own threads; the main
    thread sees what they did at its next loop test. *)
Definition observe (n : nat) (s : proc t) : proc t :=
  let now := clock s in
  let fired := filter (expired now) (timers (self s)) in
  let s := update (fun m =>
             set_timers (filter (fun tm => negb (expired now tm)) (timers m)) m) s in
  fold_left invoke fired s.

(** The first half of [run]: devices are created and started, then the
    main thread sleeps for the devices to stabilize. *)
Definition launch (w : World) (s : proc t) : proc t :=
  let s := update (set_running true) s in
  let duration := Py.get (c_duration (config (self s))) 300%Z in
  let s := emit (Log INFO (SimStarting duration)) s in
  (* Create and start IoT devices *)
  let s := create_devices w s in
  let s := start_devices s in
  let s := advance (startup w) s in
  (* Wait for devices to stabilize *)
  pause 10 (startup_oversleep w) s.

(** Start attacks if configured. *)
Definition schedule_attacks (duration : Z) (s : proc t) : proc t :=
  let s :=
    if Py.get (c_bruteforce (config (self s))) false then
      let delay := (inject_Z duration * 0.25)%Q in  (* after 25% of the time *)
      let s := emit (Log INFO (SimSchedulingBrute (Py.int delay))) s in
      timer_start delay StartBruteforce s
    else s in
  if Py.get (c_ddos (config (self s))) false then
    let delay := (inject_Z duration * 0.5)%Q in  (* after 50% of the time *)
    let s := emit (Log INFO (SimSchedulingDDoS (Py.int delay))) s in
    timer_start delay StartDDoS s
  else s.

(** One turn of the monitoring loop. *)
Definition monitor (w : World) (start_time end_time : Q) (n : nat)
    (s : proc t) : Py.completion (proc t) :=
  let elapsed := (clock s - start_time)%Q in
  (* Status updates every 30 seconds *)
  let s :=
    if ((Py.int elapsed mod 30 =? 0) && (Py.int elapsed >? 0))%Z then
      let remaining := Py.int (end_time - clock s) in
      emit (Log INFO (SimStatus (Py.int elapsed) remaining)) s
    else s in
  if interrupt w n then Py.Raised Py.KeyboardInterrupt s
  else sleep 1 (oversleep w n) (advance (busy w n) s).

(** [run]. *)
Definition run (fuel : nat) (w : World) (s : proc t)
  : option (Py.completion (proc t)) :=
  let start_time := clock s in
  let duration := Py.get (c_duration (config (self s))) 300%Z in
  let s := launch w s in
  let s := schedule_attacks duration s in
  (* Execute the simulation for the specified duration *)
  let end_time := (start_time + inject_Z duration)%Q in
  match while observe
              (fun s => Py.Qltb (clock s) end_time && running (self s))
              (monitor w start_time end_time) fuel 0 s with
  | None => None
  | Some (Py.Normal s) => Some (Py.Normal (stop w s))
  | Some (Py.Raised Py.KeyboardInterrupt s) =>
      Some (Py.Normal (stop w (emit (Log INFO SimInterrupted) s)))
  | Some (Py.Raised e s) => Some (Py.Raised e (stop w s))
  end.

End SimulationManager.

Unset Implicit Arguments.

(* ===================================================================== *)
(** ** Properties, invariants and sample inputs *)
(* ===================================================================== *)

(** The range documented for the values of a device category. *)
Definition documented_range (device_type : string) (v : number) : Prop :=
  if (device_type =? "temperature")%string then
    match v with Float q => (15 <= q /\ q <= 30)%Q | Int _ => False end
  else if (device_type =? "humidity")%string then
    match v with Float q => (30 <= q /\ q <= 70)%Q | Int _ => False end
  else if (device_type =? "luminosity")%string then
    match v with Int z => (0 <= z <= 1000)%Z | Float _ => False end
  else
    match v with Int z => (0 <= z <= 100)%Z | Float _ => False end.

(** How many events of a trace satisfy [p]. *)
Definition count (p : event -> bool) (tr : trace) : nat :=
  List.length (filter p tr).

(** The final line of [BruteForceAttack.start]. *)
Definition is_final_report (e : event) : bool :=
  match e with
  | Log INFO (BruteFinished _) => true
  | _ => false
  end.

(** A login tried by [BruteForceAttack._attempt_login]. *)
Definition is_login (e : event) : bool :=
  match e with
  | Connect (BruteforceClient _) _ => true
  | _ => false
  end.

Module BruteForceProps.
Import BruteForceAttack.

(** The seconds that turn [m] of the attempt loop of an attack of rate [r]
    takes when its sleep is granted. *)
Definition turn_cost (w : World) (r : Z) (m : nat) : Q :=
  (busy w m + (Py.truediv 1 r + oversleep w m))%Q.

(** What holds when the loop test is evaluated for the [n]-th time, in a
    run of [start] that entered the loop in [s0]: the attack is running,
    [n] turns were completed with one login each, no earlier test found a
    stop request, the final report is not printed, and the last turn was
    entered before the duration had elapsed. *)
Definition loop_inv (w : World) (duration : Z) (s0 : proc t) (n : nat)
    (s : proc t) : Prop :=
  rate (self s) = rate (self s0) /\
  running (self s) = true /\
  password_attempts (self s) = Z.of_nat n /\
  (forall k, (k < n)%nat -> stop_req w k = false) /\
  (exists tr,
     out s = out s0 ++ tr /\
     count is_login tr = n /\ count is_final_report tr = 0%nat) /\
  match n with
  | O => clock s = clock s0
  | S m =>
      rate (self s0) <> 0%Z /\ (0 <= Py.truediv 1 (rate (self s0)))%Q /\
      (clock s - turn_cost w (rate (self s0)) m - clock s0
       < inject_Z duration)%Q
  end.

End BruteForceProps.

(** A connection attempt, and one that the broker accepted. *)
Definition is_connect (e : event) : bool :=
  match e with
  | Connect _ _ => true
  | _ => false
  end.

Definition is_established (e : event) : bool :=
  match e with
  | Connect _ true => true
  | _ => false
  end.

(** A [publish] call. *)
Definition is_publish (e : event) : bool :=
  match e with
  | Publish _ _ _ _ => true
  | _ => false
  end.

(** The characters handed to a [publish] call, when it carries text. *)
Definition published_text (e : event) : option string :=
  match e with
  | Publish _ _ (Text p) _ => Some p
  | _ => None
  end.


Definition is_sleep (e : event) : bool :=
  match e with
  | Sleep _ => true
  | _ => false
  end.

Definition is_publish_error (e : event) : bool :=
  match e with
  | Log ERROR PubFloodError => true
  | _ => false
  end.

Module DDoSProps.
Import DDoSAttack.

(** The connection attempt [j] of cycle [n], as it shows in the trace. *)
Definition connect_event (w : World) (n j : nat) : event :=
  Connect (DdosClient (Py.randint 10000 999999 (draw w n j))) (connect_ok w n j).

(** The publish call of cycle [n] through [c] on [topic], as it shows in
    the trace when it does not raise. *)
Definition publish_event (w : World) (n : nat) (c : client_id)
    (topic : string) : event :=
  Publish c topic (Text (random_payload w n c topic))
          (match publish_result w n c topic with Acked => true | _ => false end).

(** The client that attempt [i] of the setup creates, and what the
    attempt shows in the trace. *)
Definition pool_client (w : World) (i : nat) : client_id :=
  DdosPubClient i (Py.randint 1000 9999 (setup_draw w i)).

Definition setup_events (w : World) (i : nat) : trace :=
  if setup_connect_ok w i
  then [Connect (pool_client w i) true; LoopStart (pool_client w i)]
  else [Connect (pool_client w i) false].

(** The pool that the setup of [_flood_publish] establishes. *)
Definition pool (w : World) (s : proc t) : list client_id :=
  fst (fold_left (base_attempt w) (Py.range 5) ([], s)).

(** The release of one pooled client, as it shows in the trace. *)
Definition release_events (w : World) (c : client_id) : trace :=
  if loop_stop_ok w c
  then [LoopStop c true; Disconnect c (disconnect_ok w c)]
  else [LoopStop c false].

End DDoSProps.

Module SimulationProps.
Import SimulationManager.

(** The share of the total duration after which an attack is said to
    start. *)
Definition fraction (f : callback) : Q :=
  match f with
  | StartBruteforce => 0.25
  | StartDDoS => 0.5
  end.

(** The timers that [run] starts, given the state it is entered in and
    the clock reading [t0] at which the stabilization sleep returns. *)
Definition started_timers (cfg : Config) (t0 : Q) : list timer :=
  let duration := Py.get (c_duration cfg) 300%Z in
  (if Py.get (c_bruteforce cfg) false
   then [mkTimer (t0 + inject_Z duration * 0.25) StartBruteforce] else [])
  ++ (if Py.get (c_ddos cfg) false
      then [mkTimer (t0 + inject_Z duration * 0.5) StartDDoS] else []).

(** Scenario B: 40 seconds, two devices, both attacks enabled. *)
Definition scenario_b : proc t :=
  mkProc (init (main_config
                  (mkArgs "localhost" 1883 40 2 true 20 "admin" true "publish" 50)))
         0 [].
End SimulationProps.

(** A brute force attack of 2 tries per second, as the manager builds it. *)
Definition example_attack : proc BruteForceAttack.t :=
  mkProc (BruteForceAttack.init "localhost" 1883 "admin" 2) 0 [].

(** A device that has been stopped. *)
Definition stopped_device : proc IoTDevice.t :=
  IoTDevice.stop
    (mkProc (IoTDevice.init "temperature_1" "temperature" "ESP32" "localhost"
                            1883 7) 0 []).


(** A world like [calm] whose broker refuses every connection. *)
Definition unreachable (seed : Z) : World :=
  mkWorld (stop_req (calm seed)) (interrupt (calm seed)) 0 0
          (busy (calm seed)) (oversleep (calm seed))
          (fun _ => false) (fun _ _ => false)
          (publish_result (calm seed)) (loop_stop_ok (calm seed))
          (disconnect_ok (calm seed)) (setup_draw (calm seed))
          (draw (calm seed)) (payload_draw (calm seed)).


Definition publish_flood : proc DDoSAttack.t :=
  mkProc (DDoSAttack.init "localhost" 1883 "publish" 50) 0 [].

(** The publish flood as [start] hands it to [_flood_publish]: its flag is
    up. *)
Definition flooding : proc DDoSAttack.t :=
  update (DDoSAttack.set_running true) publish_flood.

(** A world like [calm] where another thread stops the actor before its
    third loop test. *)
Definition halted (seed : Z) : World :=
  mkWorld (fun n => Nat.eqb n 2) (interrupt (calm seed)) 0 0
          (busy (calm seed)) (oversleep (calm seed))
          (setup_connect_ok (calm seed)) (connect_ok (calm seed))
          (publish_result (calm seed)) (loop_stop_ok (calm seed))
          (disconnect_ok (calm seed)) (setup_draw (calm seed))
          (draw (calm seed)) (payload_draw (calm seed)).

(** A world like [calm] where a publish call on the fourth flood topic
    raises. *)
Definition flaky (seed : Z) : World :=
  mkWorld (stop_req (calm seed)) (interrupt (calm seed)) 0 0
          (busy (calm seed)) (oversleep (calm seed))
          (setup_connect_ok (calm seed)) (connect_ok (calm seed))
          (fun _ _ topic =>
             if (topic =? "ddos/flood/topic/3")%string then Raises else Acked)
          (loop_stop_ok (calm seed))
          (disconnect_ok (calm seed)) (setup_draw (calm seed))
          (draw (calm seed)) (payload_draw (calm seed)).


(* ===================================================================== *)
(** ** Further invariants and sample inputs *)
(* ===================================================================== *)

Module DeviceExtraProps.
Import IoTDevice.

(** What a turn of the publish loop adds to the trace when the publish
    call returns: the call, its log line and the sleep of [d] seconds. *)
Definition turn_events (w : World) (n : nat) (s : proc t) (d : Z) : trace :=
  let data := Json (generate_data (self s) (clock s) (draw w n 0)) in
  match publish_result w n (client (self s)) (topic_pub (self s)) with
  | Acked =>
      [Publish (client (self s)) (topic_pub (self s)) data true;
       Log INFO (DevicePublished (id (self s))); Sleep (inject_Z d)]
  | _ =>
      [Publish (client (self s)) (topic_pub (self s)) data false;
       Log ERROR (DevicePublishFailed (id (self s))); Sleep (inject_Z d)]
  end.

(** What the publish loop keeps: the device apart from its flag, and
    publish calls that are three seconds apart. *)
Definition spaced_inv (w : World) (slack : Q) (s0 s : proc t) : Prop :=
  client (self s) = client (self s0) /\
  id (self s) = id (self s0) /\
  exists tr,
    out s = out s0 ++ tr /\
    (causal w ->
     (inject_Z (Z.of_nat (count is_publish tr)) * 3 <= clock s - clock s0 + slack)%Q).
End DeviceExtraProps.

Module BruteForceExtraProps.
Import BruteForceAttack.

(** What the rate limit of the attempt loop keeps, for an attack of rate
    [r] that entered its loop at [start_time]: every counted attempt has
    cost the [1 / r] seconds of its sleep, and the last one was begun
    before the duration had elapsed. *)
Definition paced_inv (start_time : Q) (duration : Z) (r : Z) (s : proc t) : Prop :=
  rate (self s) = r /\
  (0 <= password_attempts (self s))%Z /\
  (inject_Z (password_attempts (self s)) * Py.truediv 1 r
   <= clock s - start_time)%Q /\
  ((1 <= password_attempts (self s))%Z ->
   ((inject_Z (password_attempts (self s)) - 1) * Py.truediv 1 r
    < inject_Z duration)%Q).
End BruteForceExtraProps.

Module DDoSExtraProps.
Import DDoSAttack.

(** The largest batch that one cycle of a connection flood of rate [r]
    attempts. *)
Definition batch_size (r : Z) : Z := Z.max 0 (Z.min 10 (r / 10)).

(** The client that attempt [j] of cycle [n] creates. *)
Definition flood_client (w : World) (n j : nat) : client_id :=
  DdosClient (Py.randint 10000 999999 (draw w n j)).

(** What the connection flood keeps: its rate, and a counter that has grown
    by one batch at most for each second gone by since [st], of which there
    are no more than the duration has. *)
Definition throughput_inv (st : Q) (d r : Z) (s : proc t) : Prop :=
  rate (self s) = r /\
  exists k : Z,
    (0 <= k <= Z.max 0 d)%Z /\
    (operations_count (self s) <= batch_size r * k)%Z /\
    (inject_Z k <= clock s - st)%Q.
End DDoSExtraProps.

Module ManagerExtraProps.
Import SimulationManager.

(** What the [stop] of one device and of one attack shows in the trace. *)
Definition device_stop_events (d : IoTDevice.t) : trace :=
  [LoopStop (IoTDevice.client d) true; Disconnect (IoTDevice.client d) true].

Definition attack_stop_events (w : World) (entry : thread * attack) : trace :=
  match snd entry with
  | Brute _ => []
  | Flood a =>
      map (fun c => Disconnect c (disconnect_ok w c)) (DDoSAttack.clients a)
  end.

(** The run flag of an attack and the clients it retains. *)
Definition attack_running (a : attack) : bool :=
  match a with
  | Brute a => BruteForceAttack.running a
  | Flood a => DDoSAttack.running a
  end.

Definition attack_clients (a : attack) : list client_id :=
  match a with
  | Brute _ => []
  | Flood a => DDoSAttack.clients a
  end.

(** A device as [create_devices] builds it for the configuration [cfg]. *)
Definition well_formed_device (cfg : Config) (d : IoTDevice.t) : Prop :=
  In (IoTDevice.type d) device_types /\
  In (IoTDevice.hardware d) hardware_types /\
  IoTDevice.running d = true /\
  IoTDevice.broker d = Py.get (c_broker cfg) "localhost"%string /\
  IoTDevice.port d = Py.get (c_port cfg) 1883%Z /\
  exists i : nat,
    IoTDevice.id d = (IoTDevice.type d ++ "_" ++ Py.str (i + 1))%string.

(** What the monitoring loop keeps.  The manager is running under the
    configuration [cfg] and the clock has not gone back below [floor]; of
    the timers [started] some are still pending and every other one has
    added one attack at most to the [base] attacks there were; and a new
    attack is only there once the clock has reached the due time of one of
    the timers. *)
Definition monitor_inv (cfg : Config) (base : nat) (started : list timer)
    (floor : Q) (s : proc t) : Prop :=
  config (self s) = cfg /\
  running (self s) = true /\
  (floor <= clock s)%Q /\
  (base <= List.length (attack_threads (self s)))%nat /\
  (List.length (attack_threads (self s)) + List.length (timers (self s))
   <= base + List.length started)%nat /\
  (forall tm, In tm (timers (self s)) -> In tm started) /\
  ((base < List.length (attack_threads (self s)))%nat ->
   exists tm, In tm started /\ (due tm <= clock s)%Q).
End ManagerExtraProps.

(** A brute force attack built with a rate of 0. *)
Definition stalled_attack : proc BruteForceAttack.t :=
  mkProc (BruteForceAttack.init "localhost" 1883 "admin" 0) 0 [].

(** A brute force attack of 49 tries per second: [1 / 49] is not a double,
    and the double nearest to it is smaller. *)
Definition eager_attack : proc BruteForceAttack.t :=
  mkProc (BruteForceAttack.init "localhost" 1883 "admin" 49) 0 [].

(** A connection flood with the default rate, and a flood of a type that
    the command line would not let through. *)
Definition fast_flood : proc DDoSAttack.t :=
  mkProc (DDoSAttack.init "localhost" 1883 "connection" 50) 0 [].

Definition odd_flood : proc DDoSAttack.t :=
  mkProc (DDoSAttack.init "localhost" 1883 "subscribe" 50) 0 [].

(** A device as [create_devices] builds it. *)
Definition fresh_device : proc IoTDevice.t :=
  mkProc (IoTDevice.init "humidity_2" "humidity" "Arduino" "localhost" 1883 7)
         0 [].

(* ===================================================================== *)
(** ** Facts about the Python primitives and the loop combinator *)
(* ===================================================================== *)

Module PyFacts.
Import Py.
Local Open Scope Q_scope.

Lemma random_bounds (r : Z) : 0 <= random r /\ random r < 1.
Proof.
unfold random.
assert (H : (0 <= r mod 2 ^ 53 < 2 ^ 53)%Z) by (apply Z.mod_pos_bound; reflexivity).
split.
- unfold Qle; simpl. lia.
- unfold Qlt; simpl. lia.
Qed.

Lemma pow2_pos (k : Z) : 0 < 2 ^ k.
Proof. apply Qpower_0_lt. reflexivity. Qed.

Lemma pow2_plus (a b : Z) : 2 ^ (a + b) == 2 ^ a * 2 ^ b.
Proof. apply Qpower_plus. discriminate. Qed.

Lemma pow2_le (a b : Z) : (a <= b)%Z -> 2 ^ a <= 2 ^ b.
Proof. intros H. apply Qpower_le_compat_l; [exact H | discriminate]. Qed.

Lemma pow2_lt (a b : Z) : (a < b)%Z -> 2 ^ a < 2 ^ b.
Proof. intros H. apply Qpower_lt_compat_l; [exact H | reflexivity]. Qed.

Lemma pow2_Z (k : Z) : (0 <= k)%Z -> inject_Z (2 ^ k) == 2 ^ k.
Proof. intros H. now rewrite Zpower_Qpower. Qed.

Lemma pow2_cancel (g : Z) : 2 ^ (- g) * 2 ^ g == 1.
Proof. rewrite <- pow2_plus. replace (- g + g)%Z with 0%Z by lia. reflexivity. Qed.

(** *** Rounding to the nearest integer *)

Lemma round_half_even_comp (x y : Q) :
  x == y -> round_half_even x = round_half_even y.
Proof.
  intros E. unfold round_half_even.
  rewrite (Qfloor_comp _ _ E).
  assert (H : x - inject_Z (Qfloor y) == y - inject_Z (Qfloor y)) by (rewrite E; reflexivity).
  rewrite (Qcompare_comp _ _ H (1 # 2) (1 # 2) (Qeq_refl _)). reflexivity.
Qed.

Lemma round_half_even_near (x : Q) :
  x - (1 # 2) <= inject_Z (round_half_even x) /\
  inject_Z (round_half_even x) <= x + (1 # 2).
Proof.
  unfold round_half_even.
  pose proof (Qfloor_le x) as Hl. pose proof (Qlt_floor x) as Hu.
  rewrite inject_Z_plus in Hu. change (inject_Z 1) with 1 in Hu.
  destruct (Qcompare_spec (x - inject_Z (Qfloor x)) (1 # 2)) as [H | H | H];
    [destruct (Z.even (Qfloor x)) | |];
    rewrite ?inject_Z_plus; change (inject_Z 1) with 1; split; lra.
Qed.

Lemma round_half_even_Z (k : Z) : round_half_even (inject_Z k) = k.
Proof.
  unfold round_half_even. rewrite Qfloor_Z.
  destruct (Qcompare_spec (inject_Z k - inject_Z k) (1 # 2)) as [H | H | H];
    try lra; reflexivity.
Qed.

Lemma round_half_even_le (x y : Q) :
  x <= y -> (round_half_even x <= round_half_even y)%Z.
Proof.
  intros Hxy.
  pose proof (Qfloor_resp_le _ _ Hxy) as Hf.
  assert (Hx : (Qfloor x <= round_half_even x <= Qfloor x + 1)%Z).
  { unfold round_half_even.
    destruct (_ ?= _); [destruct (Z.even _) | |]; lia. }
  assert (Hy : (Qfloor y <= round_half_even y <= Qfloor y + 1)%Z).
  { unfold round_half_even.
    destruct (_ ?= _); [destruct (Z.even _) | |]; lia. }
  destruct (Z.eq_dec (Qfloor x) (Qfloor y)) as [E | NE]; [| lia].
  unfold round_half_even. rewrite E.
  destruct (Qcompare_spec (x - inject_Z (Qfloor y)) (1 # 2)) as [H1 | H1 | H1];
    destruct (Qcompare_spec (y - inject_Z (Qfloor y)) (1 # 2)) as [H2 | H2 | H2];
    try destruct (Z.even (Qfloor y)); try lia; lra.
Qed.

(** *** The exponent of a positive rational *)

Lemma exponent_spec (q : Q) :
  0 < q -> 2 ^ exponent q <= q /\ q < 2 ^ (exponent q + 1).
Proof.
  intros Hq. destruct q as [n d].
  assert (Hn : (0 < n)%Z).
  { unfold Qlt in Hq. simpl in Hq. lia. }
  unfold exponent. cbn [Qnum Qden].
  set (ln := Z.log2 n). set (ld := Z.log2 (Z.pos d)).
  destruct (Z.log2_spec n Hn) as [Hn1 Hn2]. fold ln in Hn1, Hn2.
  destruct (Z.log2_spec (Z.pos d) eq_refl) as [Hd1 Hd2]. fold ld in Hd1, Hd2.
  assert (Hln : (0 <= ln)%Z) by apply Z.log2_nonneg.
  assert (Hld : (0 <= ld)%Z) by apply Z.log2_nonneg.
  rewrite Zle_Qle, pow2_Z in Hn1, Hd1 by assumption.
  rewrite Zlt_Qlt, pow2_Z in Hn2, Hd2 by lia.
  set (D := inject_Z (Z.pos d)) in *. set (N := inject_Z n) in *.
  assert (HD : 0 < D) by (unfold D, Qlt; simpl; lia).
  assert (Hx : (n # d) * D == N).
  { unfold D, N. rewrite (Qmake_Qdiv n d). field. unfold Qeq; simpl; lia. }
  set (x := n # d) in *.
  destruct (Qle_bool (2 ^ (ln - ld)) x) eqn:E.
  - apply Qle_bool_iff in E. split; [exact E |].
    apply Qnot_le_lt. intros Hc.
    assert (H1 : 2 ^ (ln - ld + 1) * 2 ^ ld == 2 ^ Z.succ ln).
    { rewrite <- pow2_plus. f_equiv. lia. }
    pose proof (pow2_pos (ln - ld + 1)) as Hp.
    assert (H2 : 2 ^ (ln - ld + 1) * 2 ^ ld <= 2 ^ (ln - ld + 1) * D).
    { apply Qmult_le_l; assumption. }
    assert (H3 : 2 ^ (ln - ld + 1) * D <= x * D).
    { apply Qmult_le_r; assumption. }
    lra.
  - assert (E' : x < 2 ^ (ln - ld)).
    { apply Qnot_le_lt. intros Hc. apply Qle_bool_iff in Hc. congruence. }
    replace (ln - ld - 1 + 1)%Z with (ln - ld)%Z by lia.
    split; [| exact E'].
    apply Qnot_lt_le. intros Hc.
    assert (H1 : 2 ^ (ln - ld - 1) * 2 ^ Z.succ ld == 2 ^ ln).
    { rewrite <- pow2_plus. f_equiv. lia. }
    pose proof (pow2_pos (ln - ld - 1)) as Hp.
    assert (H2 : 2 ^ (ln - ld - 1) * D < 2 ^ (ln - ld - 1) * 2 ^ Z.succ ld).
    { apply Qmult_lt_l; assumption. }
    assert (H3 : x * D < 2 ^ (ln - ld - 1) * D).
    { apply Qmult_lt_r; assumption. }
    lra.
Qed.

Lemma exponent_le (x y : Q) : 0 < x -> x <= y -> (exponent x <= exponent y)%Z.
Proof.
  intros Hx Hxy.
  destruct (exponent_spec x Hx) as [H1 _].
  destruct (exponent_spec y) as [_ H2]; [lra |].
  assert (H : 2 ^ exponent x < 2 ^ (exponent y + 1)) by lra.
  apply Qpower_lt_compat_l_inv in H; [lia | reflexivity].
Qed.

(** *** Rounding on a grid *)

Lemma grid_le (g : Z) (x y : Q) :
  x <= y ->
  inject_Z (round_half_even (x * 2 ^ (- g))) * 2 ^ g
  <= inject_Z (round_half_even (y * 2 ^ (- g))) * 2 ^ g.
Proof.
  intros Hxy. apply Qmult_le_compat_r; [| apply Qlt_le_weak, pow2_pos].
  rewrite <- Zle_Qle. apply round_half_even_le.
  apply Qmult_le_compat_r; [exact Hxy | apply Qlt_le_weak, pow2_pos].
Qed.

Lemma grid_pow2 (g k : Z) :
  (g <= k)%Z ->
  inject_Z (round_half_even (2 ^ k * 2 ^ (- g))) * 2 ^ g == 2 ^ k.
Proof.
  intros H.
  assert (E : 2 ^ k * 2 ^ (- g) == inject_Z (2 ^ (k - g))).
  { rewrite pow2_Z by lia. rewrite <- pow2_plus. f_equiv. }
  rewrite (round_half_even_comp _ _ E), round_half_even_Z, pow2_Z by lia.
  rewrite <- pow2_plus. f_equiv. lia.
Qed.

Lemma nearest_le (x y : Q) : 0 < x -> x <= y -> nearest x <= nearest y.
Proof.
  intros Hx Hxy. unfold nearest.
  assert (Hy : 0 < y) by lra.
  pose proof (exponent_le x y Hx Hxy) as He.
  destruct (Z.eq_dec (last_place x) (last_place y)) as [E | NE].
  - rewrite E. apply grid_le. exact Hxy.
  - assert (Hg : (last_place x < last_place y)%Z) by (unfold last_place in *; lia).
    destruct (exponent_spec x Hx) as [_ Hx2].
    destruct (exponent_spec y Hy) as [Hy1 _].
    assert (Hex : (exponent x + 1 <= exponent y)%Z) by (unfold last_place in *; lia).
    pose proof (pow2_le _ _ Hex) as Hp.
    apply Qle_trans with (2 ^ exponent y).
    + rewrite <- (grid_pow2 (last_place x) (exponent y))
        by (unfold last_place in *; lia).
      apply grid_le. lra.
    + rewrite <- (grid_pow2 (last_place y) (exponent y))
        by (unfold last_place in *; lia).
      apply grid_le. exact Hy1.
Qed.

Lemma nearest_nonneg (x : Q) : 0 < x -> 0 <= nearest x.
Proof.
  intros Hx. unfold nearest.
  apply Qmult_le_0_compat; [| apply Qlt_le_weak, pow2_pos].
  change 0 with (inject_Z 0). rewrite <- Zle_Qle.
  rewrite <- (round_half_even_Z 0). apply round_half_even_le.
  change (inject_Z 0) with 0.
  apply Qmult_le_0_compat; [lra | apply Qlt_le_weak, pow2_pos].
Qed.

(** *** Rounding to a double *)

Lemma float_le (x y : Q) : x <= y -> float x <= float y.
Proof.
  intros Hxy. unfold float.
  destruct (Qcompare_spec x 0) as [Ex | Ex | Ex];
    destruct (Qcompare_spec y 0) as [Ey | Ey | Ey]; try lra.
  - apply nearest_nonneg. exact Ey.
  - assert (0 <= nearest (- x)) by (apply nearest_nonneg; lra). lra.
  - assert (nearest (- y) <= nearest (- x)) by (apply nearest_le; lra). lra.
  - assert (0 <= nearest (- x)) by (apply nearest_nonneg; lra).
    assert (0 <= nearest y) by (apply nearest_nonneg; lra). lra.
  - apply nearest_le; assumption.
Qed.

Lemma float_comp (x y : Q) : x == y -> float x == float y.
Proof.
  intros E. apply Qle_antisym; apply float_le; rewrite E; apply Qle_refl.
Qed.

Lemma float_sign (x : Q) :
  (0 <= x -> 0 <= float x) /\ (x <= 0 -> float x <= 0).
Proof.
  split; intros H.
  - exact (float_le 0 x H).
  - exact (float_le x 0 H).
Qed.

(** A double in the normal range is within half a unit in the last place,
    so within [2 ** -53] of the value, relatively. *)
Lemma nearest_error (x : Q) :
  2 ^ (-1022) <= x ->
  x * (1 - 2 ^ (-53)) <= nearest x /\ nearest x <= x * (1 + 2 ^ (-53)).
Proof.
  intros Hn.
  assert (Hx : 0 < x) by (pose proof (pow2_pos (-1022)); lra).
  destruct (exponent_spec x Hx) as [He1 He2].
  assert (He : (-1022 <= exponent x)%Z).
  { assert (H : 2 ^ (-1022) < 2 ^ (exponent x + 1))
      by (apply Qle_lt_trans with x; assumption).
    apply Qpower_lt_compat_l_inv in H; [lia | reflexivity]. }
  unfold nearest.
  replace (last_place x) with (exponent x - 52)%Z by (unfold last_place; lia).
  set (g := (exponent x - 52)%Z).
  destruct (round_half_even_near (x * 2 ^ (- g))) as [H1 H2].
  set (m := inject_Z (round_half_even (x * 2 ^ (- g)))) in *.
  pose proof (pow2_pos g) as Hg.
  assert (Hc : x * 2 ^ (- g) * 2 ^ g == x).
  { rewrite <- Qmult_assoc, pow2_cancel. ring. }
  assert (Hh : (1 # 2) * 2 ^ g <= x * 2 ^ (-53)).
  { assert (E : (1 # 2) * 2 ^ g == 2 ^ exponent x * 2 ^ (-53)).
    { transitivity (2 ^ (-1) * 2 ^ g); [reflexivity |].
      rewrite <- !pow2_plus. f_equiv. unfold g. lia. }
    rewrite E. apply Qmult_le_compat_r; [exact He1 |].
    apply Qlt_le_weak, pow2_pos. }
  assert (Hl : (x * 2 ^ (- g) - (1 # 2)) * 2 ^ g <= m * 2 ^ g).
  { apply Qmult_le_compat_r; [exact H1 | lra]. }
  assert (Hu : m * 2 ^ g <= (x * 2 ^ (- g) + (1 # 2)) * 2 ^ g).
  { apply Qmult_le_compat_r; [exact H2 | lra]. }
  set (a := x * 2 ^ (- g) * 2 ^ g) in *.
  set (b := (1 # 2) * 2 ^ g) in *.
  set (c := x * 2 ^ (-53)) in *.
  set (r := m * 2 ^ g) in *.
  assert (Hl' : a - b <= r).
  { unfold a, b, r. unfold a, b, r in Hl.
    eapply Qle_trans; [| exact Hl]. apply Qle_lteq. right. ring. }
  assert (Hu' : r <= a + b).
  { unfold a, b, r. unfold a, b, r in Hu.
    eapply Qle_trans; [exact Hu |]. apply Qle_lteq. right. ring. }
  split.
  - apply Qle_trans with (a - b); [| exact Hl'].
    apply Qle_trans with (x - c); [| lra].
    apply Qle_lteq. right. unfold c. ring.
  - apply Qle_trans with (a + b); [exact Hu' |].
    apply Qle_trans with (x + c); [lra |].
    apply Qle_lteq. right. unfold c. ring.
Qed.

Lemma float_pos_error (x : Q) :
  2 ^ (-1022) <= x ->
  x * (1 - 2 ^ (-53)) <= float x /\ float x <= x * (1 + 2 ^ (-53)).
Proof.
  intros Hn.
  assert (Hx : 0 < x) by (pose proof (pow2_pos (-1022)); lra).
  unfold float. destruct (Qcompare_spec x 0); try lra.
  apply nearest_error. exact Hn.
Qed.

(** *** The generator *)

Lemma uniform_bounds (a b : Q) (r : Z) :
a <= b -> float a == a -> float b == b -> float (b - a) == b - a ->
a <= uniform a b r /\ uniform a b r <= b.
Proof.
intros Hab Ea Eb Ed. unfold uniform.
destruct (random_bounds r) as [H0 H1].
set (p := float (b - a) * random r).
assert (Hp : 0 <= p /\ p <= b - a).
{ unfold p. rewrite Ed. split; nra. }
assert (Hfp : 0 <= float p /\ float p <= b - a).
{ split; [apply float_sign; apply Hp |].
  apply Qle_trans with (float (b - a)); [apply float_le; apply Hp |].
  rewrite Ed. apply Qle_refl. }
split.
- apply Qle_trans with (float a); [rewrite Ea; apply Qle_refl |].
  apply float_le. rewrite Ea. lra.
- apply Qle_trans with (float b); [| rewrite Eb; apply Qle_refl].
  apply float_le. rewrite Ea. lra.
Qed.

Lemma round_half_even_bounds (lo hi : Z) (x : Q) :
inject_Z lo <= x -> x <= inject_Z hi ->
(lo <= round_half_even x <= hi)%Z.
Proof.
intros Hlo Hhi. unfold round_half_even.
assert (Hf : (lo <= Qfloor x)%Z).
{ rewrite <- (Qfloor_Z lo). apply Qfloor_resp_le. exact Hlo. }
assert (Hfx : inject_Z (Qfloor x) <= x) by apply Qfloor_le.
assert (Hc : (Qfloor x <= hi)%Z).
{ rewrite <- (Qfloor_Z hi). apply Qfloor_resp_le. exact Hhi. }
destruct (Z.eq_dec (Qfloor x) hi) as [E | NE].
- assert (Hx : x - inject_Z (Qfloor x) <= 0) by (rewrite E; lra).
  destruct (Qcompare_spec (x - inject_Z (Qfloor x)) (1 # 2)) as [H | H | H];
    try lra. lia.
- assert ((Qfloor x + 1 <= hi)%Z) by lia.
  destruct (Qcompare_spec (x - inject_Z (Qfloor x)) (1 # 2)); 
    try destruct (Z.even (Qfloor x)); lia.
Qed.

Lemma round2_bounds (lo hi : Z) (x : Q) :
float (inject_Z lo) == inject_Z lo -> float (inject_Z hi) == inject_Z hi ->
inject_Z lo <= x -> x <= inject_Z hi ->
inject_Z lo <= round x 2 /\ round x 2 <= inject_Z hi.
Proof.
intros Elo Ehi Hlo Hhi. unfold round.
change (10 ^ 2)%Z with 100%Z.
assert (H : (lo * 100 <= round_half_even (x * inject_Z 100) <= hi * 100)%Z).
{ apply round_half_even_bounds; rewrite inject_Z_mult;
  change (inject_Z 100) with 100; lra. }
destruct H as [H1 H2].
rewrite Zle_Qle in H1, H2. rewrite inject_Z_mult in H1, H2.
change (inject_Z 100) with 100 in *.
set (y := inject_Z (round_half_even (x * 100))) in *.
split.
- apply Qle_trans with (float (inject_Z lo)); [rewrite Elo; apply Qle_refl |].
  apply float_le. apply Qle_shift_div_l; lra.
- apply Qle_trans with (float (inject_Z hi)); [| rewrite Ehi; apply Qle_refl].
  apply float_le. apply Qle_shift_div_r; lra.
Qed.

Lemma randint_bounds (a b r : Z) : (a <= b -> a <= randint a b r <= b)%Z.
Proof.
intros Hab. unfold randint.
assert (0 <= r mod (b - a + 1) < b - a + 1)%Z by (apply Z.mod_pos_bound; lia).
lia.
Qed.
End PyFacts.

Module IoTDeviceFacts.

(** C8: whatever the category of the device and whatever the generator
  draws, the value of a reading lies in the documented range of the
  category: a float in [15, 30] for temperature, a float in [30, 70] for
  humidity, an integer in [0, 1000] for luminosity and an integer in
  [0, 100] for any other category. *)
Theorem generate_data_in_range (d : IoTDevice.t) (now : Q) (r : Z) :
documented_range (IoTDevice.type d)
                 (r_value (IoTDevice.generate_data d now r)).
Proof.
unfold documented_range, IoTDevice.generate_data.
destruct (IoTDevice.type d =? "temperature")%string.
{ cbn [r_value].
  assert (U : (15 <= Py.uniform 15 30 r /\ Py.uniform 15 30 r <= 30)%Q).
  { apply PyFacts.uniform_bounds; [lra | | |]; vm_compute; reflexivity. }
  apply (PyFacts.round2_bounds 15 30);
    [vm_compute; reflexivity | vm_compute; reflexivity | apply U | apply U]. }
destruct (IoTDevice.type d =? "humidity")%string.
{ cbn [r_value].
  assert (U : (30 <= Py.uniform 30 70 r /\ Py.uniform 30 70 r <= 70)%Q).
  { apply PyFacts.uniform_bounds; [lra | | |]; vm_compute; reflexivity. }
  apply (PyFacts.round2_bounds 30 70);
    [vm_compute; reflexivity | vm_compute; reflexivity | apply U | apply U]. }
destruct (IoTDevice.type d =? "luminosity")%string; cbn [r_value];
  apply PyFacts.randint_bounds; lia.
Qed.

End IoTDeviceFacts.

Lemma count_app (p : event -> bool) (l1 l2 : trace) :
  count p (l1 ++ l2) = (count p l1 + count p l2)%nat.
Proof. unfold count. now rewrite filter_app, length_app. Qed.

Lemma Qltb_true (a b : Q) : Py.Qltb a b = true <-> (a < b)%Q.
Proof.
  unfold Py.Qltb. rewrite negb_true_iff, <- not_true_iff_false, Qle_bool_iff.
  split; [apply Qnot_le_lt | apply Qlt_not_le].
Qed.

Lemma Qltb_false (a b : Q) : Py.Qltb a b = false <-> (b <= a)%Q.
Proof. unfold Py.Qltb. now rewrite negb_false_iff, Qle_bool_iff. Qed.

Section WhileFacts.
Context {A : Type}.
Variable observe : nat -> proc A -> proc A.
Variable test : proc A -> bool.
Variable body : nat -> proc A -> Py.completion (proc A).

(** A loop whose every completed turn moves the clock [delta] closer to a
    deadline that the test respects returns within the matching fuel. *)
Lemma while_total (P : proc A -> Prop) (T delta : Q) :
  (forall s, test s = true -> clock s < T)%Q ->
  (forall n s, P s -> P (observe n s) /\ clock s <= clock (observe n s))%Q ->
  (forall n s s', P s -> test s = true -> body n s = Py.Normal s' ->
                  P s' /\ clock s + delta <= clock s')%Q ->
  forall fuel n s,
    P s ->
    (T <= clock s + inject_Z (Z.of_nat fuel) * delta)%Q ->
    exists r, while observe test body (S fuel) n s = Some r.
Proof.
  intros Htest Hobs Hbody.
  induction fuel as [| fuel IH]; intros n s HP Hfuel.
  - cbn [while]. destruct (test (observe n s)) eqn:E.
    + apply Htest in E. destruct (Hobs n s HP) as [_ Hc].
      change (inject_Z (Z.of_nat 0)) with 0%Q in Hfuel. lra.
    + eauto.
  - change (while observe test body (S (S fuel)) n s)
      with (let s := observe n s in
            if test s then
              match body n s with
              | Py.Normal s' => while observe test body (S fuel) (S n) s'
              | Py.Raised e s' => Some (Py.Raised e s')
              end
            else Some (Py.Normal s)).
    cbv zeta. destruct (test (observe n s)) eqn:E; [| eauto].
    destruct (body n (observe n s)) as [s' | e s'] eqn:B; [| eauto].
    destruct (Hobs n s HP) as [HP1 Hc].
    destruct (Hbody _ _ _ HP1 E B) as [HP2 Hd].
    apply IH; [exact HP2 |].
    rewrite Nat2Z.inj_succ, <- Z.add_1_r, inject_Z_plus in Hfuel.
    change (inject_Z 1) with 1%Q in Hfuel. lra.
Qed.

(** A loop whose body always raises returns at its first turn. *)
Lemma while_raising (P : proc A -> Prop) :
  (forall n s, P s -> P (observe n s)) ->
  (forall n s s', P s -> test s = true -> body n s <> Py.Normal s') ->
  forall fuel n s, P s -> exists r, while observe test body (S fuel) n s = Some r.
Proof.
  intros Hobs Hbody fuel n s HP. cbn [while].
  destruct (test (observe n s)) eqn:E; [| eauto].
  destruct (body n (observe n s)) as [s' | e s'] eqn:B; [| eauto].
  exfalso. exact (Hbody _ _ _ (Hobs n s HP) E B).
Qed.

(** The invariant rule. *)
Lemma while_inv (P R : proc A -> Prop) :
  (forall n s, P s -> P (observe n s)) ->
  (forall n s s', P s -> test s = true -> body n s = Py.Normal s' -> P s') ->
  (forall n s e s', P s -> test s = true -> body n s = Py.Raised e s' -> R s') ->
  forall fuel n s r,
    P s -> while observe test body fuel n s = Some r ->
    match r with
    | Py.Normal s' => P s' /\ test s' = false
    | Py.Raised _ s' => R s'
    end.
Proof.
  intros Hobs Hnorm Hraise.
  induction fuel as [| fuel IH]; intros n s r HP Hrun; [discriminate |].
  cbn [while] in Hrun. specialize (Hobs n s HP).
  destruct (test (observe n s)) eqn:E.
  - destruct (body n (observe n s)) as [s' | e s'] eqn:B.
    + apply (IH (S n) s' r); [| exact Hrun].
      exact (Hnorm n _ _ Hobs E B).
    + injection Hrun as <-. exact (Hraise n _ _ _ Hobs E B).
  - injection Hrun as <-. auto.
Qed.

(** The invariant rule with the turns counted: [P n] holds when the test
    is evaluated for the [n]-th time. *)
Lemma while_steps (P R : nat -> proc A -> Prop) :
  (forall n s s', P n s -> test (observe n s) = true ->
                  body n (observe n s) = Py.Normal s' -> P (S n) s') ->
  (forall n s e s', P n s -> test (observe n s) = true ->
                    body n (observe n s) = Py.Raised e s' -> R n s') ->
  forall fuel n s r,
    P n s -> while observe test body fuel n s = Some r ->
    match r with
    | Py.Normal s' => exists m s1, P m s1 /\ s' = observe m s1 /\ test s' = false
    | Py.Raised _ s' => exists m, R m s'
    end.
Proof.
  intros Hnorm Hraise.
  induction fuel as [| fuel IH]; intros n s r HP Hrun; [discriminate |].
  cbn [while] in Hrun.
  destruct (test (observe n s)) eqn:E.
  - destruct (body n (observe n s)) as [s' | e s'] eqn:B.
    + apply (IH (S n) s' r); [| exact Hrun].
      exact (Hnorm n _ _ HP E B).
    + injection Hrun as <-. exists n. exact (Hraise n _ _ _ HP E B).
  - injection Hrun as <-. exists n, s. auto.
Qed.

(** Once the test fails the loop is left without another turn. *)
Lemma while_exit (fuel n : nat) (s : proc A) :
  test (observe n s) = false ->
  while observe test body (S fuel) n s = Some (Py.Normal (observe n s)).
Proof. intros E. cbn [while]. now rewrite E. Qed.
End WhileFacts.

(* ===================================================================== *)
(** ** The brute force attack *)
(* ===================================================================== *)

Module BruteForceFacts.
Import BruteForceAttack BruteForceProps.

Ltac bf_simpl :=
  cbn [self clock out update emit emits advance pause
       broker port target_username rate running password_attempts
       set_running set_password_attempts] in *.

Lemma login_events (w : World) (n : nat) (a : t) (password : string) :
  count is_login (snd (_attempt_login w n a password)) = 1%nat /\
  count is_final_report (snd (_attempt_login w n a password)) = 0%nat.
Proof.
  unfold _attempt_login.
  destruct (connect_ok w n 0); [destruct (disconnect_ok w _) |]; split; reflexivity.
Qed.

(** What one turn of the loop does: it completes when the rate is not zero
    and the length handed to [time.sleep] is not negative, and raises
    otherwise; either way one login was tried and counted. *)
Lemma attempt_effect (w : World) (n : nat) (s : proc t) :
  exists evs,
    count is_login evs = 1%nat /\ count is_final_report evs = 0%nat /\
    match attempt w n s with
    | Py.Normal s' =>
        rate (self s) <> 0%Z /\ (0 <= Py.truediv 1 (rate (self s)))%Q /\
        self s' = set_password_attempts (password_attempts (self s) + 1) (self s) /\
        (clock s' == clock s + turn_cost w (rate (self s)) n)%Q /\
        out s' = out s ++ evs
    | Py.Raised _ s' =>
        (rate (self s) = 0%Z \/ (Py.truediv 1 (rate (self s)) < 0)%Q) /\
        self s' = set_password_attempts (password_attempts (self s) + 1) (self s) /\
        clock s' = (clock s + busy w n)%Q /\
        out s' = out s ++ evs
    end.
Proof.
  unfold attempt, turn_cost.
  set (login := snd (_attempt_login w n (self s) (_generate_password w n 8))).
  destruct (login_events w n (self s) (_generate_password w n 8)) as [L1 L2].
  fold login in L1, L2.
  bf_simpl.
  destruct (Z.eqb_spec (rate (self s)) 0) as [E0 | N0].
  - exists login. repeat apply conj; try reflexivity; try assumption. now left.
  - unfold sleep.
    destruct (Py.Qltb (Py.truediv 1 (rate (self s))) 0) eqn:Eneg.
    + exists login. repeat apply conj; try reflexivity; try assumption.
      right. apply Qltb_true. exact Eneg.
    + apply Qltb_false in Eneg.
      bf_simpl. set (pa := (password_attempts (self s) + 1)%Z).
      destruct (pa mod 10 =? 0)%Z; bf_simpl.
      * exists (login ++ [Sleep (Py.truediv 1 (rate (self s)))]
                      ++ [Log INFO (BruteProgress pa)]).
        rewrite !count_app, L1, L2, <- !app_assoc.
        repeat apply conj; try reflexivity; try assumption. ring.
      * exists (login ++ [Sleep (Py.truediv 1 (rate (self s)))]).
        rewrite !count_app, L1, L2, <- !app_assoc.
        repeat apply conj; try reflexivity; try assumption. ring.
Qed.

Lemma attempt_observe_clock (w : World) (n : nat) (s : proc t) :
  clock (observe w n s) = clock s.
Proof. unfold observe, stop. now destruct (stop_req w n). Qed.

Lemma observe_out (w : World) (n : nat) (s : proc t) :
  out (observe w n s) = out s.
Proof. unfold observe, stop. now destruct (stop_req w n). Qed.

(** A test that passes has seen no stop request. *)
Lemma test_passed (w : World) (st : Q) (duration : Z) (n : nat) (s : proc t) :
  test st duration (observe w n s) = true ->
  stop_req w n = false /\ observe w n s = s /\
  (clock s - st < inject_Z duration)%Q.
Proof.
  unfold test, observe. intros H. apply andb_prop in H as [Hr Ht].
  apply Qltb_true in Ht.
  destruct (stop_req w n); [discriminate | auto].
Qed.

(** A test that fails on a running attack has seen a stop request or the
    end of the duration. *)
Lemma test_failed (w : World) (st : Q) (duration : Z) (n : nat) (s : proc t) :
  running (self s) = true ->
  test st duration (observe w n s) = false ->
  stop_req w n = true \/ (inject_Z duration <= clock s - st)%Q.
Proof.
  unfold test. rewrite attempt_observe_clock. intros Hr H.
  apply andb_false_iff in H as [H | H].
  - left. unfold observe in H. destruct (stop_req w n); [reflexivity | congruence].
  - right. apply Qltb_false. exact H.
Qed.

Lemma loop_inv_step (w : World) (duration : Z) (s0 : proc t) (n : nat)
    (s s' : proc t) :
  loop_inv w duration s0 n s ->
  test (clock s0) duration (observe w n s) = true ->
  attempt w n (observe w n s) = Py.Normal s' ->
  loop_inv w duration s0 (S n) s'.
Proof.
  intros (Hrate & Hrun & Hpa & Hstop & (tr & Ho & Hl & Hf) & Hclk) Ht B.
  destruct (test_passed _ _ _ _ _ Ht) as (Hs & Hobs & Hlt).
  rewrite Hobs in B.
  destruct (attempt_effect w n s) as (evs & L1 & L2 & H).
  rewrite B in H. destruct H as (Hnz & Hpos & Hself & Hc & Hout).
  rewrite Hrate in Hnz, Hpos, Hc.
  unfold loop_inv. rewrite Hself. bf_simpl. repeat apply conj; try assumption.
  - lia.
  - intros k Hk. destruct (Nat.eq_dec k n) as [-> | NE]; [exact Hs |].
    apply Hstop. lia.
  - exists (tr ++ evs). rewrite Hout, Ho, !count_app, L1, L2, Hl, Hf, <- app_assoc.
    repeat apply conj; try reflexivity. lia.
  - rewrite Hc. set (c := turn_cost w (rate (self s0)) n) in *. lra.
Qed.

(** The turn that raises is the first one: once a turn has completed, the
    rate has been found to be usable. *)
Lemma loop_inv_raise (w : World) (duration : Z) (s0 : proc t) (n : nat)
    (s : proc t) (e : Py.exn) (s' : proc t) :
  loop_inv w duration s0 n s ->
  test (clock s0) duration (observe w n s) = true ->
  attempt w n (observe w n s) = Py.Raised e s' ->
  n = 0%nat /\
  (rate (self s0) = 0%Z \/ (Py.truediv 1 (rate (self s0)) < 0)%Q) /\
  stop_req w 0 = false /\ (0 < duration)%Z /\
  password_attempts (self s') = 1%Z /\
  clock s' = (clock s0 + busy w 0)%Q /\
  exists evs, out s' = out s0 ++ evs /\
              count is_login evs = 1%nat /\ count is_final_report evs = 0%nat.
Proof.
  intros (Hrate & Hrun & Hpa & Hstop & (tr & Ho & Hl & Hf) & Hclk) Ht B.
  destruct (test_passed _ _ _ _ _ Ht) as (Hs & Hobs & Hlt).
  rewrite Hobs in B.
  destruct (attempt_effect w n s) as (evs & L1 & L2 & H).
  rewrite B in H. destruct H as (Hbad & Hself & Hc & Hout).
  rewrite Hrate in Hbad.
  destruct n as [| m].
  - rewrite Hclk in Hlt, Hc.
    assert (Hd : (0 < duration)%Z).
    { rewrite Zlt_Qlt. change (inject_Z 0) with 0%Q. lra. }
    repeat apply conj; try assumption; try reflexivity.
    + rewrite Hself. bf_simpl. rewrite Hpa. reflexivity.
    + exists (tr ++ evs).
      rewrite Hout, Ho, !count_app, L1, L2, Hl, Hf, <- app_assoc. auto.
  - exfalso. destruct Hclk as (Hnz & Hpos & _).
    destruct Hbad as [H0 | Hneg]; [contradiction | lra].
Qed.

(** Every way out of [start]: the loop was left at its [n]-th test, which
    found a stop request or the duration used up after [n] logins, or the
    first turn raised on its sleep. *)
Lemma start_exits (w : World) (duration : Z) (s s' : proc t) (fuel : nat) :
  start fuel w duration s = Some s' ->
  exists (n : nat) (tr : trace),
    running (self s') = false /\
    password_attempts (self s') = Z.of_nat n /\
    out s' = out s ++ [Log INFO BruteStarting] ++ tr
                   ++ [Log INFO (BruteFinished (Z.of_nat n))] /\
    count is_final_report tr = 0%nat /\
    count is_login tr = n /\
    (forall k, (k < n)%nat -> stop_req w k = false) /\
    (((stop_req w n = true \/ (inject_Z duration <= clock s' - clock s)%Q) /\
      (forall m, n = S m ->
         rate (self s) <> 0%Z /\ (0 <= Py.truediv 1 (rate (self s)))%Q /\
         (clock s' - turn_cost w (rate (self s)) m - clock s
          < inject_Z duration)%Q) /\
      (n = 0%nat -> clock s' = clock s)) \/
     (n = 1%nat /\
      (rate (self s) = 0%Z \/ (Py.truediv 1 (rate (self s)) < 0)%Q) /\
      (0 < duration)%Z /\
      clock s' = (clock s + busy w 0)%Q /\
      exists tr0, tr = tr0 ++ [Log ERROR BruteError])).
Proof.
  unfold start, attempt_loop.
  set (s0 := emit (Log INFO BruteStarting)
               (update (set_password_attempts 0) (update (set_running true) s))).
  change (clock (update (set_password_attempts 0) (update (set_running true) s)))
    with (clock s0).
  destruct (while _ _ _ fuel 0 s0) as [r |] eqn:Hl; [| discriminate].
  intros Hs'. injection Hs' as <-.
  assert (Hinv : loop_inv w duration s0 0 s0).
  { unfold loop_inv. repeat apply conj; try reflexivity.
    - intros k Hk. lia.
    - exists []. now rewrite app_nil_r. }
  pose proof (while_steps (observe w) (test (clock s0) duration) (attempt w)
                (loop_inv w duration s0)
                (fun n s1 =>
                   n = 0%nat /\
                   (rate (self s0) = 0%Z \/ (Py.truediv 1 (rate (self s0)) < 0)%Q) /\
                   stop_req w 0 = false /\ (0 < duration)%Z /\
                   password_attempts (self s1) = 1%Z /\
                   clock s1 = (clock s0 + busy w 0)%Q /\
                   exists evs, out s1 = out s0 ++ evs /\
                               count is_login evs = 1%nat /\
                               count is_final_report evs = 0%nat)
                (loop_inv_step w duration s0)
                (loop_inv_raise w duration s0)
                fuel 0%nat s0 r Hinv Hl) as HI.
  destruct r as [s2 | e s2].
  - destruct HI as (n & s1 & (Hrate & Hrun & Hpa & Hstop & (tr & Ho & Hlg & Hf) & Hclk)
                    & -> & Ht).
    exists n, tr. bf_simpl.
    rewrite attempt_observe_clock, observe_out.
    assert (Hpa' : password_attempts (self (observe w n s1)) = Z.of_nat n).
    { unfold observe, stop. destruct (stop_req w n); exact Hpa. }
    rewrite Hpa'.
    repeat apply conj; try reflexivity; try assumption.
    + rewrite Ho. unfold s0. bf_simpl. now rewrite <- !app_assoc.
    + left. repeat apply conj.
      * exact (test_failed _ _ _ _ _ Hrun Ht).
      * intros m ->. exact Hclk.
      * intros ->. exact Hclk.
  - destruct HI as (n & -> & Hbad & Hs0 & Hd & Hpa & Hclk & evs & Ho & Hlg & Hf).
    exists 1%nat, (evs ++ [Log ERROR BruteError]). bf_simpl. rewrite Hpa.
    repeat apply conj; try reflexivity; try assumption.
    + rewrite Ho. unfold s0. bf_simpl. now rewrite <- !app_assoc.
    + rewrite count_app, Hf. reflexivity.
    + rewrite count_app, Hlg. reflexivity.
    + intros k Hk. assert (k = 0%nat) as -> by lia. exact Hs0.
    + right. repeat apply conj; try reflexivity; try assumption. eauto.
Qed.

(** [start] returns, with fuel for [duration / (1 / rate)] turns. *)
Lemma start_returns (w : World) (duration : Z) (s : proc t) (fuel : nat) :
  causal w ->
  (rate (self s) <> 0%Z -> (0 <= Py.truediv 1 (rate (self s)))%Q ->
   (inject_Z duration
    <= inject_Z (Z.of_nat fuel) * Py.truediv 1 (rate (self s)))%Q) ->
  exists s', start (S fuel) w duration s = Some s'.
Proof.
  intros (_ & _ & Hw) Hfuel. unfold start, attempt_loop.
  set (s0 := emit (Log INFO BruteStarting)
               (update (set_password_attempts 0) (update (set_running true) s))).
  change (clock (update (set_password_attempts 0) (update (set_running true) s)))
    with (clock s0).
  assert (Hobs : forall n s1, rate (self s1) = rate (self s) ->
                              rate (self (observe w n s1)) = rate (self s)).
  { intros n s1 H. unfold observe, stop. now destruct (stop_req w n). }
  assert (Hret : exists r,
             while (observe w) (test (clock s0) duration) (attempt w)
                   (S fuel) 0 s0 = Some r).
  { destruct (Z.eq_dec (rate (self s)) 0) as [E0 | N0];
      [| destruct (Qlt_le_dec (Py.truediv 1 (rate (self s))) 0) as [Hneg | Hpos]].
    - apply while_raising with (P := fun s1 => rate (self s1) = rate (self s));
        [exact Hobs | | reflexivity].
      intros n s1 s1' Hs _ B.
      destruct (attempt_effect w n s1) as (evs & _ & _ & H).
      rewrite B in H. destruct H as (Hnz & _). congruence.
    - apply while_raising with (P := fun s1 => rate (self s1) = rate (self s));
        [exact Hobs | | reflexivity].
      intros n s1 s1' Hs _ B.
      destruct (attempt_effect w n s1) as (evs & _ & _ & H).
      rewrite B in H. destruct H as (_ & Hp & _). rewrite Hs in Hp. lra.
    - apply while_total
        with (P := fun s1 => rate (self s1) = rate (self s))
             (T := (clock s0 + inject_Z duration)%Q)
             (delta := Py.truediv 1 (rate (self s))).
      + intros s1 Ht. unfold test in Ht. apply andb_prop in Ht as [_ Ht].
        apply Qltb_true in Ht. lra.
      + intros n s1 Hs. rewrite attempt_observe_clock. split; [| lra].
        now apply Hobs.
      + intros n s1 s1' Hs _ B.
        destruct (attempt_effect w n s1) as (evs & _ & _ & H).
        rewrite B in H. destruct H as (_ & _ & Hs' & Hclk & _).
        split; [rewrite Hs'; exact Hs |].
        rewrite Hs in Hclk. unfold turn_cost in Hclk.
        destruct (Hw n) as [Hb Ho]. lra.
      + reflexivity.
      + specialize (Hfuel N0 Hpos). lra. }
  destruct Hret as [r ->]. eauto.
Qed.

(** C9: [start] returns, and it returns at the first loop test that finds
    a stop request or the duration used up: no earlier test saw a stop
    request, and the last login was begun before the duration had elapsed.
    The other way out is the exception of the first sleep, when the rate
    is zero or negative.  On every path the trace ends with the one final
    report, which carries the number of logins tried. *)
Theorem start_reports_final_count_once
    (w : World) (duration : Z) (s : proc t) (fuel : nat) :
  causal w ->
  (rate (self s) <> 0%Z -> (0 <= Py.truediv 1 (rate (self s)))%Q ->
   (inject_Z duration
    <= inject_Z (Z.of_nat fuel) * Py.truediv 1 (rate (self s)))%Q) ->
  exists (s' : proc t) (n : nat) (tr : trace),
    start (S fuel) w duration s = Some s' /\
    running (self s') = false /\
    password_attempts (self s') = Z.of_nat n /\
    out s' = out s ++ [Log INFO BruteStarting] ++ tr
                   ++ [Log INFO (BruteFinished (Z.of_nat n))] /\
    count is_final_report tr = 0%nat /\
    count is_login tr = n /\
    (forall k, (k < n)%nat -> stop_req w k = false) /\
    (((stop_req w n = true \/ (inject_Z duration <= clock s' - clock s)%Q) /\
      (forall m, n = S m ->
         rate (self s) <> 0%Z /\ (0 <= Py.truediv 1 (rate (self s)))%Q /\
         (clock s' - turn_cost w (rate (self s)) m - clock s
          < inject_Z duration)%Q) /\
      (n = 0%nat -> clock s' = clock s)) \/
     (n = 1%nat /\
      (rate (self s) = 0%Z \/ (Py.truediv 1 (rate (self s)) < 0)%Q) /\
      (0 < duration)%Z /\
      clock s' = (clock s + busy w 0)%Q /\
      exists tr0, tr = tr0 ++ [Log ERROR BruteError])).
Proof.
  intros Hw Hfuel.
  destruct (start_returns w duration s fuel Hw Hfuel) as [s' Hs'].
  destruct (start_exits w duration s s' (S fuel) Hs') as (n & tr & H).
  exists s', n, tr. split; [exact Hs' | exact H].
Qed.
End BruteForceFacts.

(* ===================================================================== *)
(** ** The DDoS attacks *)
(* ===================================================================== *)

Module DDoSFacts.
Import DDoSAttack DDoSProps.

Ltac dd_simpl :=
  cbn [self clock out update emit emits advance pause
       broker port attack_type rate running clients operations_count
       set_running set_clients set_operations_count] in *.

Lemma connection_attempt_effect (w : World) (n j : nat) (s : proc t) :
  let s' := connection_attempt w n s j in
  out s' = out s ++ [connect_event w n j] /\
  operations_count (self s')
  = (operations_count (self s) + Z.of_nat (count is_established [connect_event w n j]))%Z /\
  rate (self s') = rate (self s) /\
  running (self s') = running (self s) /\
  clock s' = clock s.
Proof.
  unfold connection_attempt, connect_event. cbv zeta.
  destruct (connect_ok w n j); dd_simpl; repeat apply conj; try reflexivity.
  cbn. lia.
Qed.

Lemma connection_attempts_effect (w : World) (n : nat) (l : list nat) :
  forall s,
    let s' := fold_left (connection_attempt w n) l s in
    out s' = out s ++ map (connect_event w n) l /\
    operations_count (self s')
    = (operations_count (self s)
       + Z.of_nat (count is_established (map (connect_event w n) l)))%Z /\
    rate (self s') = rate (self s) /\
    running (self s') = running (self s) /\
    clock s' = clock s.
Proof.
  induction l as [| j l IH]; intros s; cbn [fold_left map].
  - rewrite app_nil_r. repeat apply conj; try reflexivity. cbn. lia.
  - destruct (IH (connection_attempt w n s j)) as (Ho & Hc & Hr & Hf & Ht).
    destruct (connection_attempt_effect w n j s) as (Ho1 & Hc1 & Hr1 & Hf1 & Ht1).
    cbv zeta in *. rewrite Ho, Hc, Hr, Hf, Ht, Ho1, Hc1, Hr1, Hf1, Ht1.
    repeat apply conj; try reflexivity.
    + now rewrite <- app_assoc.
    + change (connect_event w n j :: map (connect_event w n) l)
        with ([connect_event w n j] ++ map (connect_event w n) l).
      rewrite count_app. lia.
Qed.

Lemma count_connect_events (w : World) (n : nat) (l : list nat) :
  count is_connect (map (connect_event w n) l) = List.length l.
Proof.
  induction l as [| j l IH]; [reflexivity |].
  cbn [map]. unfold count in *. cbn [filter connect_event is_connect List.length].
  now rewrite IH.
Qed.

Lemma range_length (k : Z) : Z.of_nat (List.length (Py.range k)) = Z.max 0 k.
Proof. unfold Py.range. rewrite length_seq. lia. Qed.

(** What one turn of the connection flood does. *)
Lemma connection_cycle_effect (w : World) (n : nat) (s : proc t) :
  exists s' tail,
    connection_cycle w n s = Py.Normal s' /\
    out s' = out s ++ map (connect_event w n)
                          (Py.range (Z.min 10 (rate (self s) / 10))) ++ tail /\
    count is_connect tail = 0%nat /\
    operations_count (self s')
    = (operations_count (self s)
       + Z.of_nat (count is_established
                     (map (connect_event w n)
                          (Py.range (Z.min 10 (rate (self s) / 10))))))%Z /\
    rate (self s') = rate (self s) /\
    running (self s') = running (self s) /\
    (clock s' == clock s + busy w n + (1 + oversleep w n))%Q.
Proof.
  unfold connection_cycle, connection_batch.
  destruct (connection_attempts_effect w n
              (Py.range (Z.min 10 (rate (self s) / 10))) s)
    as (Ho & Hc & Hr & Hf & Ht).
  cbv zeta in *.
  set (s1 := fold_left (connection_attempt w n) _ s) in *.
  unfold sleep. change (Py.Qltb 1 0) with false. cbv iota.
  dd_simpl.
  destruct (operations_count (self s1) mod 50 =? 0)%Z; dd_simpl.
  - eexists. exists [Log INFO (ConnFloodProgress (operations_count (self s1))); Sleep 1].
    split; [reflexivity |]. dd_simpl.
    rewrite Ho, Ht, <- !app_assoc. repeat apply conj; try reflexivity; assumption.
  - eexists. exists [Sleep 1].
    split; [reflexivity |]. dd_simpl.
    rewrite Ho, Ht, <- !app_assoc. repeat apply conj; try reflexivity; assumption.
Qed.

(** C6: in one cycle the connection flood attempts the [min(10, rate // 10)]
    connections of its batch and no other: every attempt of the batch is
    made whether or not the earlier ones failed, and only the established
    ones are counted. *)
Theorem connection_cycle_attempts (w : World) (n : nat) (s : proc t) :
  exists s' evs,
    connection_cycle w n s = Py.Normal s' /\
    out s' = out s ++ evs /\
    filter is_connect evs
    = map (connect_event w n) (Py.range (Z.min 10 (rate (self s) / 10))) /\
    Z.of_nat (count is_connect evs) = Z.max 0 (Z.min 10 (rate (self s) / 10)) /\
    (Z.of_nat (count is_connect evs) <= 10)%Z /\
    operations_count (self s')
    = (operations_count (self s) + Z.of_nat (count is_established evs))%Z.
Proof.
  destruct (connection_cycle_effect w n s)
    as (s' & tail & Hrun & Ho & Ht & Hc & _).
  set (l := Py.range (Z.min 10 (rate (self s) / 10))) in *.
  exists s', (map (connect_event w n) l ++ tail).
  assert (Hf : filter is_connect (map (connect_event w n) l ++ tail)
               = map (connect_event w n) l).
  { rewrite filter_app.
    assert (Hn : filter is_connect tail = []).
    { unfold count in Ht. now apply length_zero_iff_nil. }
    rewrite Hn, app_nil_r.
    clear. induction l as [| j l IH]; [reflexivity |].
    cbn [map filter connect_event is_connect]. now rewrite IH. }
  assert (Hlen : Z.of_nat (count is_connect (map (connect_event w n) l ++ tail))
                 = Z.max 0 (Z.min 10 (rate (self s) / 10))).
  { rewrite count_app, Ht, Nat.add_0_r, count_connect_events.
    apply range_length. }
  repeat apply conj; try assumption.
  - lia.
  - rewrite Hc, count_app.
    assert (Hz : count is_established tail = 0%nat).
    { unfold count in *. apply length_zero_iff_nil in Ht.
      clear - Ht. induction tail as [| e tail IH]; [reflexivity |].
      cbn [filter] in *. destruct e; cbn in *; try discriminate; auto. }
    rewrite Hz. lia.
Qed.

Lemma disconnect_all_effect (w : World) (l : list client_id) :
  forall s : proc t,
    let s' := fold_left (fun s c => emit (Disconnect c (disconnect_ok w c)) s) l s in
    self s' = self s /\ clock s' = clock s /\
    out s' = out s ++ map (fun c => Disconnect c (disconnect_ok w c)) l.
Proof.
  induction l as [| c l IH]; intros s; cbn [fold_left map].
  - now rewrite app_nil_r.
  - destruct (IH (emit (Disconnect c (disconnect_ok w c)) s)) as (H1 & H2 & H3).
    cbv zeta in *. rewrite H1, H2, H3. dd_simpl.
    now rewrite <- app_assoc.
Qed.

Lemma stop_effect (w : World) (s : proc t) :
  rate (self (stop w s)) = rate (self s) /\
  operations_count (self (stop w s)) = operations_count (self s) /\
  running (self (stop w s)) = false /\
  clock (stop w s) = clock s /\
  out (stop w s)
  = out s ++ map (fun c => Disconnect c (disconnect_ok w c)) (clients (self s)).
Proof.
  unfold stop.
  destruct (disconnect_all_effect w (clients (self (update (set_running false) s)))
              (update (set_running false) s)) as (H1 & H2 & H3).
  cbv zeta in *. dd_simpl. rewrite H1, H2, H3. dd_simpl.
  repeat apply conj; reflexivity.
Qed.

Lemma flood_observe_clock (w : World) (n : nat) (s : proc t) :
  clock (observe w n s) = clock s.
Proof.
  unfold observe. destruct (stop_req w n); [| reflexivity].
  apply stop_effect.
Qed.

Lemma count_disconnects (w : World) (l : list client_id) :
  count is_connect (map (fun c => Disconnect c (disconnect_ok w c)) l) = 0%nat.
Proof. induction l as [| c l IH]; [reflexivity | exact IH]. Qed.





(** *** Publish flood *)

Lemma base_attempt_eq (w : World) (acc : list client_id) (s : proc t) (i : nat) :
  base_attempt w (acc, s) i
  = if setup_connect_ok w i
    then (acc ++ [pool_client w i],
          emit (LoopStart (pool_client w i))
            (emit (Connect (pool_client w i) true) s))
    else (acc, emit (Connect (pool_client w i) false) s).
Proof. reflexivity. Qed.

Lemma base_attempts_effect (w : World) (l : list nat) :
  forall (acc : list client_id) (s : proc t),
    let r := fold_left (base_attempt w) l (acc, s) in
    fst r = acc ++ map (pool_client w) (filter (setup_connect_ok w) l) /\
    self (snd r) = self s /\ clock (snd r) = clock s /\
    out (snd r) = out s ++ flat_map (setup_events w) l.
Proof.
  induction l as [| i l IH]; intros acc s; cbn [fold_left filter flat_map].
  - cbn [map fst snd]. now rewrite !app_nil_r.
  - rewrite base_attempt_eq.
    change (setup_events w i)
      with (if setup_connect_ok w i
            then [Connect (pool_client w i) true; LoopStart (pool_client w i)]
            else [Connect (pool_client w i) false]).
    destruct (setup_connect_ok w i).
    + destruct (IH (acc ++ [pool_client w i])
                   (emit (LoopStart (pool_client w i))
                      (emit (Connect (pool_client w i) true) s)))
        as (H1 & H2 & H3 & H4).
      cbv zeta in *. rewrite H1, H2, H3, H4. dd_simpl. cbn [map].
      repeat apply conj; rewrite <- ?app_assoc; reflexivity.
    + destruct (IH acc (emit (Connect (pool_client w i) false) s))
        as (H1 & H2 & H3 & H4).
      cbv zeta in *. rewrite H1, H2, H3, H4. dd_simpl.
      repeat apply conj; rewrite <- ?app_assoc; reflexivity.
Qed.

Lemma cleanup_effect (w : World) (l : list client_id) :
  forall s : proc t,
    let s' := fold_left (cleanup_client w) l s in
    self s' = self s /\ clock s' = clock s /\
    out s' = out s ++ flat_map (release_events w) l.
Proof.
  induction l as [| c l IH]; intros s; cbn [fold_left flat_map].
  - now rewrite app_nil_r.
  - destruct (IH (cleanup_client w s c)) as (H1 & H2 & H3).
    cbv zeta in *. rewrite H1, H2, H3.
    unfold cleanup_client, release_events.
    destruct (loop_stop_ok w c); dd_simpl;
      repeat apply conj; rewrite <- ?app_assoc; reflexivity.
Qed.

(** A turn of the inner loop, whatever the broker answers. *)
Lemma publish_topics_any (w : World) (n : nat) (c : client_id)
    (topics : list string) :
  forall s,
    exists s' evs,
      (publish_topics w n c topics s = Py.Normal s' \/
       exists e, publish_topics w n c topics s = Py.Raised e s') /\
      out s' = out s ++ evs /\ clock s' = clock s /\
      rate (self s') = rate (self s) /\ running (self s') = running (self s).
Proof.
  induction topics as [| topic rest IH]; intros s; cbn [publish_topics].
  - exists s, []. rewrite app_nil_r. auto.
  - destruct (publish_result w n c topic).
    + match goal with |- context [publish_topics w n c rest ?x] =>
        destruct (IH x) as (s' & evs & Hr & Ho & Hc & Hra & Hru) end.
      exists s'. eexists. split; [exact Hr |].
      rewrite Ho, Hc, Hra, Hru. dd_simpl. rewrite <- app_assoc. auto.
    + match goal with |- context [publish_topics w n c rest ?x] =>
        destruct (IH x) as (s' & evs & Hr & Ho & Hc & Hra & Hru) end.
      exists s'. eexists. split; [exact Hr |].
      rewrite Ho, Hc, Hra, Hru. dd_simpl. rewrite <- app_assoc. auto.
    + eexists. eexists. split; [right; eexists; reflexivity |].
      dd_simpl. auto.
Qed.

Lemma publish_clients_any (w : World) (n : nat) (topics : list string)
    (base_clients : list client_id) :
  forall s,
    exists s' evs,
      (publish_clients w n base_clients topics s = Py.Normal s' \/
       exists e, publish_clients w n base_clients topics s = Py.Raised e s') /\
      out s' = out s ++ evs /\ clock s' = clock s /\
      rate (self s') = rate (self s) /\ running (self s') = running (self s).
Proof.
  induction base_clients as [| c rest IH]; intros s; cbn [publish_clients].
  - exists s, []. rewrite app_nil_r. auto.
  - destruct (publish_topics_any w n c topics s)
      as (s1 & evs1 & [Hr | [e Hr]] & Ho & Hc & Hra & Hru); rewrite Hr.
    + destruct (IH s1) as (s2 & evs2 & Hr2 & Ho2 & Hc2 & Hra2 & Hru2).
      exists s2, (evs1 ++ evs2). split; [exact Hr2 |].
      rewrite Ho2, Ho, Hc2, Hc, Hra2, Hra, Hru2, Hru, <- app_assoc. auto.
    + exists s1, evs1. split; [right; eauto | auto].
Qed.

(** A turn of the publish loop never raises; it takes the time the world
    charges for it, and a sleep more when it got that far. *)
Lemma publish_cycle_any (w : World) (base_clients : list client_id)
    (topics : list string) (n : nat) (s : proc t) :
  exists s' evs,
    publish_cycle w base_clients topics n s = Py.Normal s' /\
    out s' = out s ++ evs /\
    (clock s' == clock s + busy w n \/
     clock s' == clock s + busy w n + (1 + oversleep w n))%Q /\
    rate (self s') = rate (self s) /\ running (self s') = running (self s).
Proof.
  unfold publish_cycle.
  destruct (publish_clients_any w n topics base_clients s)
    as (s1 & evs1 & [Hr | [e Hr]] & Ho & Hc & Hra & Hru); rewrite Hr.
  - unfold sleep. change (Py.Qltb 1 0) with false. cbv iota.
    destruct (operations_count (self (advance (busy w n) s1)) mod 100 =? 0)%Z;
      eexists; eexists; (split; [reflexivity |]); dd_simpl;
      rewrite Ho, Hc, Hra, Hru, <- !app_assoc;
      repeat apply conj; try reflexivity; right; reflexivity.
  - eexists; eexists; (split; [reflexivity |]); dd_simpl.
    rewrite Ho, Hc, Hra, Hru, <- !app_assoc.
    repeat apply conj; try reflexivity; left; reflexivity.
Qed.







(** C5: when none of the five connections of the setup can be made,
    [start] logs the failure and returns, normally and at once: the
    publish loop is not entered, nothing is published and the counter
    stays at 0. *)
Theorem flood_publish_aborts_without_pool
    (w : World) (duration : Z) (s : proc t) (fuel : nat) :
  attack_type (self s) = "publish"%string ->
  (forall i, (i < 5)%nat -> setup_connect_ok w i = false) ->
  exists s',
    start fuel w duration s = Some (Py.Normal s') /\
    pool w s = [] /\
    out s' = out s ++ [Log INFO (DDoSStarting "publish")]
                   ++ map (fun i => Connect (pool_client w i) false) (Py.range 5)
                   ++ [Log ERROR PubFloodNoConnections;
                       Log INFO (DDoSFinished 0)] /\
    count is_publish (skipn (List.length (out s)) (out s')) = 0%nat /\
    operations_count (self s') = 0%Z /\
    (clock s' == clock s + startup w)%Q.
Proof.
  intros Htype Hfail.
  assert (H0 : setup_connect_ok w 0 = false) by (apply Hfail; lia).
  assert (H1 : setup_connect_ok w 1 = false) by (apply Hfail; lia).
  assert (H2 : setup_connect_ok w 2 = false) by (apply Hfail; lia).
  assert (H3 : setup_connect_ok w 3 = false) by (apply Hfail; lia).
  assert (H4 : setup_connect_ok w 4 = false) by (apply Hfail; lia).
  unfold start, pool. dd_simpl. rewrite !Htype.
  change ("publish" =? "connection")%string with false.
  change ("publish" =? "publish")%string with true. cbv iota.
  unfold _flood_publish.
  change (Py.range 5) with [0; 1; 2; 3; 4]%nat.
  cbn [fold_left].
  rewrite base_attempt_eq, H0, base_attempt_eq, H1, base_attempt_eq, H2,
    base_attempt_eq, H3, base_attempt_eq, H4.
  eexists. split; [reflexivity |]. dd_simpl.
  repeat apply conj; try reflexivity.
  - rewrite base_attempt_eq, H0, base_attempt_eq, H1, base_attempt_eq, H2,
      base_attempt_eq, H3, base_attempt_eq, H4.
    reflexivity.
  - rewrite <- !app_assoc. reflexivity.
  - rewrite <- !app_assoc, skipn_app, skipn_all, Nat.sub_diag. reflexivity.
Qed.

Lemma string_of_list_ascii_length (l : list Ascii.ascii) :
  String.length (string_of_list_ascii l) = List.length l.
Proof. induction l as [| a l IH]; [reflexivity |]. cbn. now rewrite IH. Qed.

Lemma random_payload_length (w : World) (n : nat) (c : client_id) (topic : string) :
  String.length (random_payload w n c topic) = 50%nat.
Proof.
  unfold random_payload. rewrite string_of_list_ascii_length, length_map.
  reflexivity.
Qed.

Lemma publish_topics_exact (w : World) (n : nat) (c : client_id)
    (topics : list string) :
  (forall topic, In topic topics -> publish_result w n c topic <> Raises) ->
  forall s,
    exists s',
      publish_topics w n c topics s = Py.Normal s' /\
      out s' = out s ++ map (publish_event w n c) topics /\
      operations_count (self s')
      = (operations_count (self s) + Z.of_nat (List.length topics))%Z /\
      clock s' = clock s.
Proof.
  induction topics as [| topic rest IH]; intros Hok s; cbn [publish_topics].
  - exists s. rewrite app_nil_r. repeat apply conj; try reflexivity. cbn. lia.
  - assert (Hrest : forall t, In t rest -> publish_result w n c t <> Raises).
    { intros t Ht. apply Hok. now right. }
    assert (Hhead := Hok topic (or_introl eq_refl)).
    cbn [map]. unfold publish_event at 1.
    destruct (publish_result w n c topic); [| | contradiction];
      match goal with |- context [publish_topics w n c rest ?x] =>
        destruct (IH Hrest x) as (s' & Hr & Ho & Hc & Hclk) end;
      exists s'; rewrite Hr, Ho, Hc, Hclk; dd_simpl;
      rewrite <- app_assoc; repeat apply conj; try reflexivity;
      cbn [List.length]; lia.
Qed.

Lemma publish_clients_exact (w : World) (n : nat) (topics : list string)
    (base_clients : list client_id) :
  (forall c topic, In c base_clients -> In topic topics ->
                   publish_result w n c topic <> Raises) ->
  forall s,
    exists s',
      publish_clients w n base_clients topics s = Py.Normal s' /\
      out s' = out s ++ flat_map (fun c => map (publish_event w n c) topics)
                                 base_clients /\
      operations_count (self s')
      = (operations_count (self s)
         + Z.of_nat (List.length base_clients * List.length topics))%Z /\
      clock s' = clock s.
Proof.
  induction base_clients as [| c rest IH]; intros Hok s; cbn [publish_clients].
  - exists s. rewrite app_nil_r. repeat apply conj; try reflexivity. cbn. lia.
  - destruct (publish_topics_exact w n c topics) with (s := s)
      as (s1 & Hr & Ho & Hc & Hclk).
    { intros t Ht. apply Hok; [now left | exact Ht]. }
    rewrite Hr.
    destruct (IH (fun c' t Hc' Ht => Hok c' t (or_intror Hc') Ht) s1)
      as (s2 & Hr2 & Ho2 & Hc2 & Hclk2).
    exists s2. rewrite Hr2, Ho2, Ho, Hc2, Hc, Hclk2, Hclk.
    cbn [flat_map List.length]. rewrite <- app_assoc.
    repeat apply conj; try reflexivity. lia.
Qed.

Lemma filter_publish_events (w : World) (n : nat) (topics : list string)
    (base_clients : list client_id) :
  filter is_publish
    (flat_map (fun c => map (publish_event w n c) topics) base_clients)
  = flat_map (fun c => map (publish_event w n c) topics) base_clients.
Proof.
  apply forallb_filter_id. apply forallb_forall. intros e He.
  apply in_flat_map in He as (c & _ & He).
  apply in_map_iff in He as (t & <- & _). reflexivity.
Qed.

Lemma pool_size (w : World) (s : proc t) :
  List.length (pool w s)
  = List.length (filter (setup_connect_ok w) (Py.range 5)).
Proof.
  unfold pool.
  destruct (base_attempts_effect w (Py.range 5) [] s) as (H & _).
  cbv zeta in H. rewrite H. cbn [app]. apply length_map.
Qed.

(** *** The publish calls of a turn *)

Lemma quiet_observe (w : World) (n : nat) (s : proc t) :
  stop_req w n = false -> observe w n s = s.
Proof. intros H. unfold observe. now rewrite H. Qed.

Lemma only_publishes (evs : trace) :
  List.length evs = count is_publish evs ->
  count is_sleep evs = 0%nat /\ count is_publish_error evs = 0%nat.
Proof.
  unfold count. induction evs as [| e evs IH]; [easy |].
  cbn [filter List.length].
  pose proof (filter_length_le is_publish evs) as Hle.
  destruct e; cbn [is_publish is_sleep is_publish_error List.length];
    intros H; lia.
Qed.

Lemma publish_topics_count (w : World) (n : nat) (c : client_id)
    (topics : list string) :
  forall s,
    exists s' evs,
      out s' = out s ++ evs /\ clock s' = clock s /\
      List.length evs = count is_publish evs /\
      ((publish_topics w n c topics s = Py.Normal s' /\
        List.length evs = List.length topics /\
        operations_count (self s')
        = (operations_count (self s) + Z.of_nat (List.length topics))%Z) \/
       (exists e, publish_topics w n c topics s = Py.Raised e s' /\
                  (1 <= List.length evs <= List.length topics)%nat /\
                  operations_count (self s')
                  = (operations_count (self s) + Z.of_nat (List.length evs) - 1)%Z)).
Proof.
  induction topics as [| topic rest IH]; intros s; cbn [publish_topics].
  - exists s, []. rewrite app_nil_r. repeat split. left.
    repeat split. cbn. lia.
  - destruct (publish_result w n c topic).
    + match goal with |- context [publish_topics w n c rest ?x] =>
        destruct (IH x) as (s' & evs & Ho & Hc & Hp & Hcase) end.
      exists s'. eexists (_ :: evs). dd_simpl.
      rewrite Ho, Hc, <- app_assoc.
      repeat apply conj; try reflexivity.
      * unfold count in *. cbn [filter is_publish List.length]. now rewrite Hp.
      * destruct Hcase as [(Hr & Hl & Hops) | (e & Hr & Hl & Hops)].
        -- left. cbn [List.length]. rewrite Hr, Hl, Hops. dd_simpl.
           repeat split. lia.
        -- right. exists e. cbn [List.length]. rewrite Hr, Hops. dd_simpl.
           repeat split; lia.
    + match goal with |- context [publish_topics w n c rest ?x] =>
        destruct (IH x) as (s' & evs & Ho & Hc & Hp & Hcase) end.
      exists s'. eexists (_ :: evs). dd_simpl.
      rewrite Ho, Hc, <- app_assoc.
      repeat apply conj; try reflexivity.
      * unfold count in *. cbn [filter is_publish List.length]. now rewrite Hp.
      * destruct Hcase as [(Hr & Hl & Hops) | (e & Hr & Hl & Hops)].
        -- left. cbn [List.length]. rewrite Hr, Hl, Hops. dd_simpl.
           repeat split. lia.
        -- right. exists e. cbn [List.length]. rewrite Hr, Hops. dd_simpl.
           repeat split; lia.
    + exists (emit (Publish c topic (Text (random_payload w n c topic)) false) s),
             [Publish c topic (Text (random_payload w n c topic)) false].
      dd_simpl. repeat apply conj; try reflexivity.
      right. eexists. split; [reflexivity |]. cbn [List.length]. dd_simpl.
      split; lia.
Qed.

Lemma publish_clients_count (w : World) (n : nat) (topics : list string)
    (base_clients : list client_id) :
  forall s,
    exists s' evs,
      out s' = out s ++ evs /\ clock s' = clock s /\
      List.length evs = count is_publish evs /\
      ((publish_clients w n base_clients topics s = Py.Normal s' /\
        List.length evs = (List.length base_clients * List.length topics)%nat /\
        operations_count (self s')
        = (operations_count (self s)
           + Z.of_nat (List.length base_clients * List.length topics))%Z) \/
       (exists e, publish_clients w n base_clients topics s = Py.Raised e s' /\
                  (1 <= List.length evs
                   <= List.length base_clients * List.length topics)%nat /\
                  operations_count (self s')
                  = (operations_count (self s) + Z.of_nat (List.length evs) - 1)%Z)).
Proof.
  induction base_clients as [| c rest IH]; intros s; cbn [publish_clients].
  - exists s, []. rewrite app_nil_r. repeat split. left.
    repeat split. cbn. lia.
  - destruct (publish_topics_count w n c topics s)
      as (s1 & evs1 & Ho1 & Hc1 & Hp1 & [(Hr & Hl & Hops) | (e & Hr & Hl & Hops)]);
      rewrite Hr.
    + destruct (IH s1) as (s2 & evs2 & Ho2 & Hc2 & Hp2 & Hcase).
      exists s2, (evs1 ++ evs2).
      rewrite Ho2, Ho1, Hc2, Hc1, <- app_assoc, count_app, length_app, Hp1, Hp2.
      repeat apply conj; try reflexivity.
      destruct Hcase as [(Hr2 & Hl2 & Hops2) | (e & Hr2 & Hl2 & Hops2)].
      * left. rewrite <- Hp1, <- Hp2, Hl, Hl2, Hops2, Hops.
        cbn [List.length Nat.mul]. repeat apply conj; [exact Hr2 | lia | lia].
      * right. exists e. rewrite <- Hp1, <- Hp2, Hl, Hops2, Hops.
        cbn [List.length Nat.mul]. repeat apply conj; [exact Hr2 | lia | lia | lia].
    + exists s1, evs1. repeat apply conj; try assumption.
      right. exists e. cbn [List.length Nat.mul].
      repeat apply conj; [reflexivity | lia | lia | exact Hops].
Qed.

Lemma no_publish_in_disconnects (w : World) (l : list client_id) :
  count is_publish (map (fun c => Disconnect c (disconnect_ok w c)) l) = 0%nat.
Proof. induction l as [| c l IH]; [reflexivity | exact IH]. Qed.

Lemma no_publish_in_setup (w : World) (l : list nat) :
  count is_publish (flat_map (setup_events w) l) = 0%nat.
Proof.
  induction l as [| i l IH]; [reflexivity |].
  cbn [flat_map]. rewrite count_app, IH. unfold setup_events.
  now destruct (setup_connect_ok w i).
Qed.

Lemma no_publish_in_release (w : World) (l : list client_id) :
  count is_publish (flat_map (release_events w) l) = 0%nat.
Proof.
  induction l as [| c l IH]; [reflexivity |].
  cbn [flat_map]. rewrite count_app, IH. unfold release_events.
  now destruct (loop_stop_ok w c).
Qed.

Lemma observe_trace (w : World) (n : nat) (s : proc t) :
  exists evs,
    out (observe w n s) = out s ++ evs /\
    count is_publish evs = 0%nat /\ count is_connect evs = 0%nat /\
    operations_count (self (observe w n s)) = operations_count (self s) /\
    clock (observe w n s) = clock s.
Proof.
  unfold observe. destruct (stop_req w n).
  - destruct (stop_effect w s) as (_ & Hc & _ & Ht & Ho).
    eexists. split; [exact Ho |].
    rewrite no_publish_in_disconnects, count_disconnects. auto.
  - exists []. rewrite app_nil_r. auto.
Qed.

(** [start] does not touch the flag it has raised. *)
Lemma start_flag_up
    (w : World) (duration : Z) (s : proc t) (fuel : nat)
    (r : Py.completion (proc t)) :
  (forall n, stop_req w n = false) ->
  start fuel w duration s = Some r ->
  exists s', r = Py.Normal s' /\ running (self s') = true.
Proof.
  intros Hq. unfold start. dd_simpl.
  set (s0 := emit (Log INFO (DDoSStarting (attack_type (self s))))
               (update (set_operations_count 0) (update (set_running true) s))).
  assert (Hup : running (self s0) = true) by reflexivity. clearbody s0.
  assert (HO : forall n s1, running (self s1) = true ->
                            running (self (observe w n s1)) = true).
  { intros n s1 H. now rewrite quiet_observe. }
  destruct (attack_type (self s) =? "connection")%string.
  { unfold _flood_connections.
    destruct (while _ _ _ fuel 0 s0) as [r0 |] eqn:Hl; [| discriminate].
    pose proof (while_inv (observe w) (test (clock s0) duration)
                  (connection_cycle w)
                  (fun s1 => running (self s1) = true) (fun _ => False) HO) as HI.
    assert (HN : forall n s1 s1', running (self s1) = true ->
                   test (clock s0) duration s1 = true ->
                   connection_cycle w n s1 = Py.Normal s1' ->
                   running (self s1') = true).
    { intros n s1 s1' H _ B.
      destruct (connection_cycle_effect w n s1)
        as (s2 & tail & B1 & _ & _ & _ & _ & Hf & _).
      rewrite B in B1. injection B1 as <-. congruence. }
    assert (HR : forall n s1 e s1', running (self s1) = true ->
                   test (clock s0) duration s1 = true ->
                   connection_cycle w n s1 = Py.Raised e s1' -> False).
    { intros n s1 e s1' _ _ B.
      destruct (connection_cycle_effect w n s1) as (s2 & tail & B1 & _).
      rewrite B in B1. discriminate. }
    specialize (HI HN HR fuel 0%nat s0 r0 Hup Hl).
    destruct r0 as [s2 | e s2]; [| contradiction].
    intros H. injection H as <-. eexists. split; [reflexivity |]. apply HI. }
  destruct (attack_type (self s) =? "publish")%string.
  { unfold _flood_publish.
    destruct (base_attempts_effect w (Py.range 5) [] s0) as (_ & H2 & _).
    cbv zeta in H2.
    destruct (fold_left (base_attempt w) (Py.range 5) ([], s0)) as [bc s1].
    cbn [snd] in H2.
    assert (Hup1 : running (self (advance (startup w) s1)) = true).
    { dd_simpl. now rewrite H2. }
    destruct bc as [| c bc].
    - intros H. injection H as <-. eexists. split; [reflexivity |]. exact Hup1.
    - unfold publish_loop.
      destruct (while _ _ _ fuel 0 _) as [r0 |] eqn:Hl; [| discriminate].
      pose proof (while_inv (observe w) (test (clock s0) duration)
                    (publish_cycle w (c :: bc) flood_topics)
                    (fun s1 => running (self s1) = true) (fun _ => False) HO)
        as HI.
      assert (HN : forall n s2 s2', running (self s2) = true ->
                     test (clock s0) duration s2 = true ->
                     publish_cycle w (c :: bc) flood_topics n s2 = Py.Normal s2' ->
                     running (self s2') = true).
      { intros n s2 s2' H _ B.
        destruct (publish_cycle_any w (c :: bc) flood_topics n s2)
          as (s3 & evs & B1 & _ & _ & _ & Hf).
        rewrite B in B1. injection B1 as <-. congruence. }
      assert (HR : forall n s2 e s2', running (self s2) = true ->
                     test (clock s0) duration s2 = true ->
                     publish_cycle w (c :: bc) flood_topics n s2 = Py.Raised e s2' ->
                     False).
      { intros n s2 e s2' _ _ B.
        destruct (publish_cycle_any w (c :: bc) flood_topics n s2)
          as (s3 & evs & B1 & _).
        rewrite B in B1. discriminate. }
      specialize (HI HN HR fuel 0%nat _ r0 Hup1 Hl).
      destruct r0 as [s2 | e s2]; [| contradiction].
      intros H. injection H as <-. eexists. split; [reflexivity |].
      destruct (cleanup_effect w (c :: bc) s2) as (Hs & _).
      cbv zeta in Hs.
      change (running (self (fold_left (cleanup_client w) (c :: bc) s2)) = true).
      rewrite Hs. apply HI. }
  intros H. injection H as <-. eexists. split; [reflexivity |]. exact Hup.
Qed.

(** A turn of the publish loop, by its publish calls: all of them, or the
    ones up to the first that raised. *)
Lemma publish_cycle_count
    (w : World) (base_clients : list client_id) (topics : list string)
    (n : nat) (s : proc t) :
  exists s' evs,
    publish_cycle w base_clients topics n s = Py.Normal s' /\
    out s' = out s ++ evs /\
    (count is_publish evs <= List.length base_clients * List.length topics)%nat /\
    ((count is_publish evs = (List.length base_clients * List.length topics)%nat /\
      operations_count (self s')
      = (operations_count (self s)
         + Z.of_nat (List.length base_clients * List.length topics))%Z /\
      count is_sleep evs = 1%nat /\ count is_publish_error evs = 0%nat /\
      (clock s' == clock s + busy w n + (1 + oversleep w n))%Q) \/
     ((1 <= count is_publish evs)%nat /\
      operations_count (self s')
      = (operations_count (self s) + Z.of_nat (count is_publish evs) - 1)%Z /\
      count is_sleep evs = 0%nat /\ count is_publish_error evs = 1%nat /\
      (clock s' == clock s + busy w n)%Q /\
      exists before, evs = before ++ [Log ERROR PubFloodError])).
Proof.
  unfold publish_cycle.
  destruct (publish_clients_count w n topics base_clients s)
    as (s1 & evs1 & Ho & Hc & Hp & [(Hr & Hl & Hops) | (e & Hr & Hl & Hops)]);
    rewrite Hr; destruct (only_publishes evs1 Hp) as [Hs0 He0].
  - unfold sleep. change (Py.Qltb 1 0) with false. cbv iota.
    destruct (operations_count (self (advance (busy w n) s1)) mod 100 =? 0)%Z.
    + eexists.
      exists (evs1 ++ [Log INFO (PubFloodProgress
                                   (operations_count (self (advance (busy w n) s1))));
                       Sleep 1]).
      split; [reflexivity |]. dd_simpl.
      rewrite Ho, Hc, <- !app_assoc, !count_app, Hs0, He0, <- Hp, Hl.
      repeat apply conj; try reflexivity; [cbn; lia |].
      left. repeat apply conj; try reflexivity; try assumption. cbn. lia.
    + eexists. exists (evs1 ++ [Sleep 1]).
      split; [reflexivity |]. dd_simpl.
      rewrite Ho, Hc, <- !app_assoc, !count_app, Hs0, He0, <- Hp, Hl.
      repeat apply conj; try reflexivity; [cbn; lia |].
      left. repeat apply conj; try reflexivity; try assumption. cbn. lia.
  - eexists. exists (evs1 ++ [Log ERROR PubFloodError]).
    split; [reflexivity |]. dd_simpl.
    rewrite Ho, Hc, <- !app_assoc, !count_app, Hs0, He0, <- Hp.
    repeat apply conj; try reflexivity; [cbn; lia |].
    right. repeat apply conj; try reflexivity.
    + cbn. lia.
    + rewrite Hops. cbn. lia.
    + eauto.
Qed.

(** The inner loops complete only when no call raised. *)
Lemma publish_topics_normal (w : World) (n : nat) (c : client_id)
    (topics : list string) :
  forall s s',
    publish_topics w n c topics s = Py.Normal s' ->
    forall topic, In topic topics -> publish_result w n c topic <> Raises.
Proof.
  induction topics as [| t rest IH]; intros s s' Hrun topic Hin; [contradiction |].
  cbn [publish_topics] in Hrun.
  destruct (publish_result w n c t) eqn:E; try discriminate;
    (destruct Hin as [<- | Hin]; [congruence | exact (IH _ _ Hrun topic Hin)]).
Qed.

Lemma publish_clients_normal (w : World) (n : nat) (topics : list string)
    (base_clients : list client_id) :
  forall s s',
    publish_clients w n base_clients topics s = Py.Normal s' ->
    forall c topic, In c base_clients -> In topic topics ->
                    publish_result w n c topic <> Raises.
Proof.
  induction base_clients as [| c0 rest IH]; intros s s' Hrun c topic Hc Ht;
    [contradiction |].
  cbn [publish_clients] in Hrun.
  destruct (publish_topics w n c0 topics s) as [s1 | e s1] eqn:E; [| discriminate].
  destruct Hc as [<- | Hc].
  - exact (publish_topics_normal w n c0 topics s s1 E topic Ht).
  - exact (IH _ _ Hrun c topic Hc Ht).
Qed.

(** A turn that slept has made all its publish calls: none raised. *)
Lemma publish_cycle_full
    (w : World) (base_clients : list client_id) (topics : list string)
    (n : nat) (s s' : proc t) (evs : trace) :
  publish_cycle w base_clients topics n s = Py.Normal s' ->
  out s' = out s ++ evs ->
  count is_sleep evs = 1%nat ->
  forall c topic, In c base_clients -> In topic topics ->
                  publish_result w n c topic <> Raises.
Proof.
  unfold publish_cycle. intros Hrun Ho Hs.
  destruct (publish_clients w n base_clients topics s) as [s1 | e s1] eqn:E.
  - exact (publish_clients_normal w n topics base_clients s s1 E).
  - exfalso.
    destruct (publish_clients_count w n topics base_clients s)
      as (s2 & evs1 & Ho1 & _ & Hp & [(Hr & _) | (e' & Hr & _)]);
      rewrite E in Hr; [discriminate |].
    injection Hr as _ <-.
    injection Hrun as <-. dd_simpl.
    rewrite Ho1, <- app_assoc in Ho. apply app_inv_head in Ho. subst evs.
    destruct (only_publishes evs1 Hp) as [Hs0 _].
    rewrite count_app, Hs0 in Hs. discriminate.
Qed.

(** What is published is 50 letters long. *)
Lemma publish_topics_texts (w : World) (n : nat) (c : client_id)
    (topics : list string) :
  forall s,
    exists s' evs,
      (publish_topics w n c topics s = Py.Normal s' \/
       exists e, publish_topics w n c topics s = Py.Raised e s') /\
      out s' = out s ++ evs /\
      forall e p, In e evs -> published_text e = Some p ->
                  String.length p = 50%nat.
Proof.
  induction topics as [| topic rest IH]; intros s; cbn [publish_topics].
  - exists s, []. rewrite app_nil_r. repeat split; [now left | contradiction].
  - destruct (publish_result w n c topic).
    + match goal with |- context [publish_topics w n c rest ?x] =>
        destruct (IH x) as (s' & evs & Hr & Ho & Ht) end.
      exists s'. eexists (_ :: evs). split; [exact Hr |].
      rewrite Ho. dd_simpl. rewrite <- app_assoc. split; [reflexivity |].
      intros e p [<- | He] Hp; [| eauto].
      injection Hp as <-. apply random_payload_length.
    + match goal with |- context [publish_topics w n c rest ?x] =>
        destruct (IH x) as (s' & evs & Hr & Ho & Ht) end.
      exists s'. eexists (_ :: evs). split; [exact Hr |].
      rewrite Ho. dd_simpl. rewrite <- app_assoc. split; [reflexivity |].
      intros e p [<- | He] Hp; [| eauto].
      injection Hp as <-. apply random_payload_length.
    + eexists. eexists [_]. split; [right; eexists; reflexivity |].
      dd_simpl. split; [reflexivity |].
      intros e p [<- | []] Hp. injection Hp as <-. apply random_payload_length.
Qed.

Lemma publish_clients_texts (w : World) (n : nat) (topics : list string)
    (base_clients : list client_id) :
  forall s,
    exists s' evs,
      (publish_clients w n base_clients topics s = Py.Normal s' \/
       exists e, publish_clients w n base_clients topics s = Py.Raised e s') /\
      out s' = out s ++ evs /\
      forall e p, In e evs -> published_text e = Some p ->
                  String.length p = 50%nat.
Proof.
  induction base_clients as [| c rest IH]; intros s; cbn [publish_clients].
  - exists s, []. rewrite app_nil_r. repeat split; [now left | contradiction].
  - destruct (publish_topics_texts w n c topics s)
      as (s1 & evs1 & [Hr | [e Hr]] & Ho & Ht); rewrite Hr.
    + destruct (IH s1) as (s2 & evs2 & Hr2 & Ho2 & Ht2).
      exists s2, (evs1 ++ evs2). split; [exact Hr2 |].
      rewrite Ho2, Ho, <- app_assoc. split; [reflexivity |].
      intros e p He Hp. apply in_app_or in He as [He | He]; eauto.
    + exists s1, evs1. split; [right; eauto | auto].
Qed.

Lemma publish_cycle_texts
    (w : World) (base_clients : list client_id) (topics : list string)
    (n : nat) (s : proc t) :
  exists s' evs,
    publish_cycle w base_clients topics n s = Py.Normal s' /\
    out s' = out s ++ evs /\
    forall e p, In e evs -> published_text e = Some p ->
                String.length p = 50%nat.
Proof.
  unfold publish_cycle.
  destruct (publish_clients_texts w n topics base_clients s)
    as (s1 & evs1 & [Hr | [e Hr]] & Ho & Ht); rewrite Hr.
  - unfold sleep. change (Py.Qltb 1 0) with false. cbv iota.
    destruct (operations_count (self (advance (busy w n) s1)) mod 100 =? 0)%Z.
    + eexists.
      exists (evs1 ++ [Log INFO (PubFloodProgress
                                   (operations_count (self (advance (busy w n) s1))));
                       Sleep 1]).
      split; [reflexivity |]. dd_simpl. rewrite Ho, <- !app_assoc.
      split; [reflexivity |].
      intros e p He Hp. apply in_app_or in He as [He | He]; [eauto |].
      destruct He as [<- | [<- | []]]; discriminate.
    + eexists. exists (evs1 ++ [Sleep 1]).
      split; [reflexivity |]. dd_simpl. rewrite Ho, <- !app_assoc.
      split; [reflexivity |].
      intros e p He Hp. apply in_app_or in He as [He | He]; [eauto |].
      destruct He as [<- | []]; discriminate.
  - eexists. exists (evs1 ++ [Log ERROR PubFloodError]).
    split; [reflexivity |]. dd_simpl. rewrite Ho, <- !app_assoc.
    split; [reflexivity |].
    intros e' p He Hp. apply in_app_or in He as [He | He]; [eauto |].
    destruct He as [<- | []]; discriminate.
Qed.

(** A turn in which no publish call raises. *)
Lemma publish_cycle_exact
    (w : World) (base_clients : list client_id) (topics : list string)
    (n : nat) (s : proc t) :
  (forall c topic, In c base_clients -> In topic topics ->
                   publish_result w n c topic <> Raises) ->
  exists s' evs,
    publish_cycle w base_clients topics n s = Py.Normal s' /\
    out s' = out s ++ evs /\
    filter is_publish evs
    = flat_map (fun c => map (publish_event w n c) topics) base_clients /\
    count is_publish evs
    = (List.length base_clients * List.length topics)%nat /\
    operations_count (self s')
    = (operations_count (self s)
       + Z.of_nat (List.length base_clients * List.length topics))%Z /\
    count is_sleep evs = 1%nat.
Proof.
  intros Hok. unfold publish_cycle.
  destruct (publish_clients_exact w n topics base_clients Hok s)
    as (s1 & Hr & Ho & Hc & Hclk).
  rewrite Hr. unfold sleep. change (Py.Qltb 1 0) with false. cbv iota.
  set (pubs := flat_map (fun c => map (publish_event w n c) topics) base_clients) in *.
  assert (Hlen : count is_publish pubs
                 = (List.length base_clients * List.length topics)%nat).
  { unfold count, pubs. rewrite filter_publish_events.
    clear. induction base_clients as [| c l IH]; [reflexivity |].
    cbn [flat_map List.length]. rewrite length_app, length_map, IH. lia. }
  assert (Hsl : count is_sleep pubs = 0%nat).
  { apply only_publishes. unfold count, pubs.
    now rewrite filter_publish_events. }
  destruct (operations_count (self (advance (busy w n) s1)) mod 100 =? 0)%Z.
  - eexists.
    exists (pubs ++ [Log INFO (PubFloodProgress
                                 (operations_count (self (advance (busy w n) s1))));
                     Sleep 1]).
    split; [reflexivity |]. dd_simpl. rewrite Ho, Hc, <- !app_assoc.
    repeat apply conj; try reflexivity.
    + rewrite filter_app. unfold pubs at 1. rewrite filter_publish_events.
      cbn [filter is_publish]. apply app_nil_r.
    + rewrite count_app, Hlen. cbn. lia.
    + rewrite count_app, Hsl. reflexivity.
  - eexists. exists (pubs ++ [Sleep 1]).
    split; [reflexivity |]. dd_simpl. rewrite Ho, Hc, <- !app_assoc.
    repeat apply conj; try reflexivity.
    + rewrite filter_app. unfold pubs at 1. rewrite filter_publish_events.
      cbn [filter is_publish]. apply app_nil_r.
    + rewrite count_app, Hlen. cbn. lia.
    + rewrite count_app, Hsl. reflexivity.
Qed.

(** *** A stop request ends a flood *)

(** A flood loop makes no turn after the test that found a stop request.
    When a turn issues [c] events of the kind [p] at most, a loop that was
    left at its [m]-th test has issued [m * c] of them at most, and no
    test before the [m]-th found a stop request. *)
Lemma flood_loop_turns (w : World) (st : Q) (duration : Z)
    (body : nat -> proc t -> Py.completion (proc t))
    (p : event -> bool) (c : nat) :
  (forall x ok, p (Disconnect x ok) = false) ->
  (forall n s, exists s' evs,
      body n s = Py.Normal s' /\ out s' = out s ++ evs /\
      (count p evs <= c)%nat) ->
  forall fuel s r,
    while (observe w) (test st duration) body fuel 0 s = Some r ->
    exists s' tr m,
      r = Py.Normal s' /\ out s' = out s ++ tr /\
      (count p tr <= m * c)%nat /\
      (forall k, (k < m)%nat -> stop_req w k = false).
Proof.
  intros Hp Hbody fuel s r Hrun.
  pose proof (while_steps (observe w) (test st duration) body
                (fun m s1 =>
                   (forall k, (k < m)%nat -> stop_req w k = false) /\
                   exists tr, out s1 = out s ++ tr /\ (count p tr <= m * c)%nat)
                (fun _ _ => False)) as HI.
  assert (Hquiet : forall m s1, test st duration (observe w m s1) = true ->
                                stop_req w m = false /\ observe w m s1 = s1).
  { intros m s1 Ht. unfold test, observe in *.
    destruct (stop_req w m); [| auto].
    destruct (stop_effect w s1) as (_ & _ & Hf & _). rewrite Hf in Ht.
    discriminate. }
  assert (HN : forall m s1 s1',
             ((forall k, (k < m)%nat -> stop_req w k = false) /\
              exists tr, out s1 = out s ++ tr /\ (count p tr <= m * c)%nat) ->
             test st duration (observe w m s1) = true ->
             body m (observe w m s1) = Py.Normal s1' ->
             (forall k, (k < S m)%nat -> stop_req w k = false) /\
             exists tr, out s1' = out s ++ tr /\ (count p tr <= S m * c)%nat).
  { intros m s1 s1' (Hs & tr & Ho & Hc) Ht B.
    destruct (Hquiet m s1 Ht) as [Hm Hobs]. rewrite Hobs in B.
    destruct (Hbody m s1) as (s2 & evs & B' & Ho' & Hc').
    rewrite B in B'. injection B' as <-.
    split.
    - intros k Hk. destruct (Nat.eq_dec k m) as [-> | NE]; [exact Hm |].
      apply Hs. lia.
    - exists (tr ++ evs). rewrite Ho', Ho, <- app_assoc, count_app.
      split; [reflexivity |]. cbn [Nat.mul]. lia. }
  assert (HR : forall m s1 e s1',
             ((forall k, (k < m)%nat -> stop_req w k = false) /\
              exists tr, out s1 = out s ++ tr /\ (count p tr <= m * c)%nat) ->
             test st duration (observe w m s1) = true ->
             body m (observe w m s1) = Py.Raised e s1' -> False).
  { intros m s1 e s1' _ _ B.
    destruct (Hbody m (observe w m s1)) as (s2 & evs & B' & _).
    rewrite B in B'. discriminate. }
  assert (H0 : (forall k, (k < 0)%nat -> stop_req w k = false) /\
               exists tr, out s = out s ++ tr /\ (count p tr <= 0 * c)%nat).
  { split; [intros k Hk; lia |]. exists []. now rewrite app_nil_r. }
  specialize (HI HN HR fuel 0%nat s r H0 Hrun).
  destruct r as [s' | e s']; [| destruct HI as [_ []]].
  destruct HI as (m & s1 & (Hs & tr & Ho & Hc) & -> & _).
  assert (Hobs : exists evs, out (observe w m s1) = out s1 ++ evs /\
                             count p evs = 0%nat).
  { unfold observe. destruct (stop_req w m).
    - destruct (stop_effect w s1) as (_ & _ & _ & _ & Hout).
      eexists. split; [exact Hout |].
      generalize (clients (self s1)). intros l.
      induction l as [| x l IH]; [reflexivity |].
      cbn [map]. unfold count in *. cbn [filter]. now rewrite Hp.
    - exists []. now rewrite app_nil_r. }
  destruct Hobs as (evs & Hout & Hz).
  eexists. exists (tr ++ evs), m. split; [reflexivity |].
  rewrite Hout, Ho, <- app_assoc, count_app, Hz. repeat apply conj; auto. lia.
Qed.

(** A connection flood whose [n]-th test finds a stop request has
    attempted [10 * n] connections at most when [start] returns. *)
Lemma connection_flood_stops (w : World) (duration : Z) (s : proc t)
    (fuel n : nat) (r : Py.completion (proc t)) :
  attack_type (self s) = "connection"%string ->
  stop_req w n = true ->
  start fuel w duration s = Some r ->
  exists s' evs,
    r = Py.Normal s' /\ out s' = out s ++ evs /\
    (count is_connect evs <= n * 10)%nat.
Proof.
  intros Htype Hstop. unfold start. dd_simpl.
  rewrite !Htype, String.eqb_refl. unfold _flood_connections.
  set (s0 := emit (Log INFO (DDoSStarting "connection"))
               (update (set_operations_count 0) (update (set_running true) s))).
  destruct (while _ _ _ fuel 0 s0) as [r0 |] eqn:Hl; [| discriminate].
  destruct (flood_loop_turns w (clock s0) duration (connection_cycle w)
              is_connect 10) with (fuel := fuel) (s := s0) (r := r0)
    as (s1 & tr & m & -> & Ho & Hc & Hs); [reflexivity | | exact Hl |].
  { intros k s1.
    destruct (connection_cycle_effect w k s1) as (s2 & tail & B & Ho & Ht & _).
    exists s2. eexists. split; [exact B |]. split; [exact Ho |].
    rewrite count_app, Ht, count_connect_events, Nat.add_0_r.
    pose proof (range_length (Z.min 10 (rate (self s1) / 10))). lia. }
  intros H. injection H as <-. eexists.
  exists ([Log INFO (DDoSStarting "connection")] ++ tr
          ++ [Log INFO (DDoSFinished (operations_count (self s1)))]).
  split; [reflexivity |]. dd_simpl. rewrite Ho. unfold s0. dd_simpl.
  rewrite <- !app_assoc. split; [reflexivity |].
  rewrite !count_app. cbn [count filter is_connect List.length].
  assert (m <= n)%nat.
  { destruct (Nat.le_gt_cases m n) as [L | L]; [exact L |].
    specialize (Hs n L). congruence. }
  unfold count in *. cbn. nia.
Qed.

(** A publish flood whose [n]-th test finds a stop request has published
    [50 * n] messages at most when [start] returns. *)
Lemma publish_flood_stops (w : World) (duration : Z) (s : proc t)
    (fuel n : nat) (r : Py.completion (proc t)) :
  attack_type (self s) = "publish"%string ->
  stop_req w n = true ->
  start fuel w duration s = Some r ->
  exists s' evs,
    r = Py.Normal s' /\ out s' = out s ++ evs /\
    (count is_publish evs <= n * 50)%nat.
Proof.
  intros Htype Hstop. unfold start. dd_simpl.
  rewrite !Htype.
  change ("publish" =? "connection")%string with false.
  change ("publish" =? "publish")%string with true. cbv iota.
  set (s0 := emit (Log INFO (DDoSStarting "publish"))
               (update (set_operations_count 0) (update (set_running true) s))).
  unfold _flood_publish.
  pose proof (pool_size w s0) as Hsize. unfold pool in Hsize.
  destruct (base_attempts_effect w (Py.range 5) [] s0) as (_ & _ & _ & H4).
  cbv zeta in H4.
  destruct (fold_left (base_attempt w) (Py.range 5) ([], s0)) as [bc s1].
  cbn [fst snd] in *.
  assert (Hbc : (List.length bc <= 5)%nat).
  { rewrite Hsize. etransitivity; [apply filter_length_le | reflexivity]. }
  destruct bc as [| c bc].
  - intros H. injection H as <-. eexists. eexists.
    split; [reflexivity |]. dd_simpl. rewrite H4. unfold s0. dd_simpl.
    rewrite <- !app_assoc. split; [reflexivity |].
    rewrite !count_app, no_publish_in_setup. cbn. lia.
  - unfold publish_loop.
    destruct (while _ _ _ fuel 0 _) as [r0 |] eqn:Hl; [| discriminate].
    destruct (flood_loop_turns w (clock s0) duration
                (publish_cycle w (c :: bc) flood_topics) is_publish 50)
      with (fuel := fuel) (s := advance (startup w) s1) (r := r0)
      as (s2 & tr & m & -> & Ho & Hc & Hs); [reflexivity | | exact Hl |].
    { intros k s2.
      destruct (publish_cycle_count w (c :: bc) flood_topics k s2)
        as (s3 & evs & B & Ho & Hle & _).
      exists s3, evs. repeat apply conj; try assumption.
      change (List.length flood_topics) with 10%nat in Hle. lia. }
    intros H. injection H as <-. eexists. eexists.
    split; [reflexivity |].
    destruct (cleanup_effect w (c :: bc) s2) as (_ & _ & Hcl).
    cbv zeta in Hcl.
    change (fold_left (cleanup_client w) bc (cleanup_client w s2 c))
      with (fold_left (cleanup_client w) (c :: bc) s2).
    dd_simpl. rewrite Hcl, Ho. dd_simpl. rewrite H4. unfold s0. dd_simpl.
    rewrite <- !app_assoc. split; [reflexivity |].
    rewrite !count_app, no_publish_in_setup, no_publish_in_release.
    assert (m <= n)%nat.
    { destruct (Nat.le_gt_cases m n) as [L | L]; [exact L |].
      specialize (Hs n L). congruence. }
    cbn. nia.
Qed.

(** C7, as the code has it.  A turn of the publish loop publishes 50
    letters at a time and never more than once per pooled client and flood
    topic.  When no publish call raises it issues one publish per pooled
    client and flood topic, in that order, and counts every one of them;
    when a call raises the turn ends there: the calls before it are
    counted, the error is logged and the turn does not sleep.  The flood
    topics are 10 and the pool holds the clients that connected, 5 at
    most. *)
Theorem publish_cycle_publishes_pool_times_topics
    (w : World) (base_clients : list client_id) (topics : list string)
    (n : nat) (s : proc t) :
  exists s' evs,
    publish_cycle w base_clients topics n s = Py.Normal s' /\
    out s' = out s ++ evs /\
    (forall e p, In e evs -> published_text e = Some p ->
                 String.length p = 50%nat) /\
    (count is_publish evs <= List.length base_clients * List.length topics)%nat /\
    ((forall c topic, In c base_clients -> In topic topics ->
                      publish_result w n c topic <> Raises) ->
     filter is_publish evs
     = flat_map (fun c => map (publish_event w n c) topics) base_clients /\
     count is_publish evs
     = (List.length base_clients * List.length topics)%nat /\
     operations_count (self s')
     = (operations_count (self s)
        + Z.of_nat (List.length base_clients * List.length topics))%Z /\
     count is_sleep evs = 1%nat) /\
    ((exists c topic, In c base_clients /\ In topic topics /\
                      publish_result w n c topic = Raises) ->
     (1 <= count is_publish evs)%nat /\
     operations_count (self s')
     = (operations_count (self s) + Z.of_nat (count is_publish evs) - 1)%Z /\
     (operations_count (self s')
      < operations_count (self s)
        + Z.of_nat (List.length base_clients * List.length topics))%Z /\
     count is_sleep evs = 0%nat /\
     exists before, evs = before ++ [Log ERROR PubFloodError]) /\
    List.length flood_topics = 10%nat /\
    (List.length (pool w s)
     = List.length (filter (setup_connect_ok w) (Py.range 5))
     /\ List.length (pool w s) <= 5)%nat.
Proof.
  assert (Hpool : (List.length (pool w s)
                   = List.length (filter (setup_connect_ok w) (Py.range 5))
                   /\ List.length (pool w s) <= 5)%nat).
  { split; [apply pool_size |]. rewrite pool_size.
    etransitivity; [apply filter_length_le | reflexivity]. }
  destruct (publish_cycle_count w base_clients topics n s)
    as (s' & evs & Hrun & Ho & Hle & Hcase).
  destruct (publish_cycle_texts w base_clients topics n s)
    as (s2 & evs2 & Hrun2 & Ho2 & Htext).
  rewrite Hrun in Hrun2. injection Hrun2 as <-.
  rewrite Ho in Ho2. apply app_inv_head in Ho2. subst evs2.
  exists s', evs. repeat apply conj; try assumption; try reflexivity;
    try apply Hpool.
  - intros Hok.
    destruct (publish_cycle_exact w base_clients topics n s Hok)
      as (s3 & evs3 & Hrun3 & Ho3 & Hf & Hc & Hops & Hs).
    rewrite Hrun in Hrun3. injection Hrun3 as <-.
    rewrite Ho in Ho3. apply app_inv_head in Ho3. subst evs3. auto.
  - intros (c & topic & Hc & Ht & Hraise).
    destruct Hcase as [(Hfull & Hops & Hs & He & _) | (H1 & Hops & Hs & He & _ & Hlast)].
    + exfalso.
      destruct (publish_cycle_full w base_clients topics n s s' evs Hrun Ho Hs
                  c topic Hc Ht).
      exact Hraise.
    + repeat apply conj; try assumption. lia.
Qed.

(** C7, as stated, fails for a turn in which a publish call raises: with
    the full pool of 5 clients and the 10 flood topics, a call that raises
    on the fourth topic ends the turn after 4 publish calls, 3 of them
    counted, and without the sleep. *)
Lemma publish_cycle_is_cut_short_by_a_failing_publish :
  exists s',
    publish_cycle (flaky 7) (pool (flaky 7) flooding) flood_topics 0 flooding
    = Py.Normal s' /\
    List.length (pool (flaky 7) flooding) = 5%nat /\
    List.length flood_topics = 10%nat /\
    count is_publish (out s') = 4%nat /\
    operations_count (self s') = 3%Z /\
    count is_sleep (out s') = 0%nat.
Proof.
  eexists. split; [vm_compute; reflexivity |].
  repeat apply conj; vm_compute; reflexivity.
Qed.
End DDoSFacts.

(* ===================================================================== *)
(** ** The simulation manager *)
(* ===================================================================== *)

Module SimulationFacts.
Import SimulationManager SimulationProps.

Ltac sm_simpl :=
  cbn [self clock out update emit emits advance pause
       config devices device_threads attack_threads running timers
       set_devices set_device_threads set_attack_threads set_running
       set_timers] in *.

(** C2: [stop] leaves the manager with its flag down, and a later call,
    whatever the clock and the trace have become by then, returns the state
    it was given: nothing is stopped or logged a second time. *)
Theorem stop_idempotent (w : World) (s : proc t) :
  running (self (stop w s)) = false /\
  (forall w', stop w' (stop w s) = stop w s) /\
  (forall w' now tr,
      stop w' (mkProc (self (stop w s)) now tr)
      = mkProc (self (stop w s)) now tr).
Proof.
  assert (Hdown : running (self (stop w s)) = false).
  { unfold stop. destruct (running (self s)) eqn:E; [| exact E].
    cbn [negb].
    destruct (stop_devices _ _) as [ds s1]. sm_simpl.
    destruct (stop_attacks w _ _) as [ats s2]. reflexivity. }
  assert (Hskip : forall w' s1, running (self s1) = false -> stop w' s1 = s1).
  { intros w' s1 H. unfold stop. now rewrite H. }
  repeat apply conj; [exact Hdown | |].
  - intros w'. apply Hskip, Hdown.
  - intros w' now tr. apply Hskip. exact Hdown.
Qed.

Lemma create_devices_keeps (w : World) (s : proc t) :
  config (self (create_devices w s)) = config (self s) /\
  timers (self (create_devices w s)) = timers (self s) /\
  clock (create_devices w s) = clock s.
Proof.
  unfold create_devices. sm_simpl.
  set (s0 := emit _ s).
  assert (H : config (self s0) = config (self s) /\
              timers (self s0) = timers (self s) /\ clock s0 = clock s)
    by (repeat split).
  clearbody s0. revert s0 H.
  induction (Py.range (Py.get (c_devices (config (self s))) 5%Z))
    as [| i l IH]; intros s0 H; cbn [fold_left]; [exact H |].
  apply IH. unfold create_device. sm_simpl. exact H.
Qed.

Lemma start_devices_keeps (s : proc t) :
  config (self (start_devices s)) = config (self s) /\
  timers (self (start_devices s)) = timers (self s) /\
  clock (start_devices s) = clock s.
Proof.
  unfold start_devices.
  set (s0 := emit _ s).
  assert (H : config (self s0) = config (self s) /\
              timers (self s0) = timers (self s) /\ clock s0 = clock s)
    by (repeat split).
  generalize (devices (self s0)). clearbody s0. intros l. revert s0 H.
  induction l as [| d l IH]; intros s0 H; cbn [fold_left]; [exact H |].
  apply IH. sm_simpl. exact H.
Qed.

Lemma launch_keeps (w : World) (s : proc t) :
  config (self (launch w s)) = config (self s) /\
  timers (self (launch w s)) = timers (self s) /\
  clock (launch w s) = (clock s + startup w + (10 + startup_oversleep w))%Q.
Proof.
  unfold launch. sm_simpl.
  set (s0 := emit _ (update (set_running true) s)).
  destruct (create_devices_keeps w s0) as (H1 & H2 & H3).
  destruct (start_devices_keeps (create_devices w s0)) as (H4 & H5 & H6).
  rewrite H4, H5, H6, H1, H2, H3. repeat split.
Qed.

Lemma schedule_attacks_timers (duration : Z) (s : proc t) :
  duration = Py.get (c_duration (config (self s))) 300%Z ->
  timers (self (schedule_attacks duration s))
  = timers (self s) ++ started_timers (config (self s)) (clock s).
Proof.
  intros ->. unfold schedule_attacks, started_timers, timer_start.
  destruct (Py.get (c_bruteforce (config (self s))) false); sm_simpl;
    destruct (Py.get (c_ddos (config (self s))) false); sm_simpl;
    rewrite <- ?app_assoc, ?app_nil_r; reflexivity.
Qed.

(** C1, as the code has it: the timers of [run] are started when the
    10-second stabilization sleep returns, so an attack is due 10 seconds
    plus its share of the total duration (a quarter for the brute force,
    a half for the DDoS) after [run] began, and later by whatever the
    start-up code and the sleep took on top. *)
Theorem attacks_are_due_after_stabilization (w : World) (s : proc t) :
  causal w ->
  let duration := Py.get (c_duration (config (self s))) 300%Z in
  let t0 := clock (launch w s) in
  timers (self (schedule_attacks duration (launch w s)))
  = timers (self s) ++ started_timers (config (self s)) t0 /\
  (t0 == clock s + 10 + (startup w + startup_oversleep w))%Q /\
  forall tm,
    In tm (started_timers (config (self s)) t0) ->
    (due tm - clock s
     == 10 + inject_Z duration * fraction (function tm)
        + (startup w + startup_oversleep w))%Q /\
    (10 + inject_Z duration * fraction (function tm) <= due tm - clock s)%Q.
Proof.
  intros (Hs & Ho & _) duration t0.
  destruct (launch_keeps w s) as (Hc & Ht & Hclk).
  assert (Ht0 : (t0 == clock s + 10 + (startup w + startup_oversleep w))%Q).
  { unfold t0. rewrite Hclk. ring. }
  repeat apply conj.
  - rewrite schedule_attacks_timers by (now rewrite Hc).
    now rewrite Ht, Hc.
  - exact Ht0.
  - intros tm Hin. unfold started_timers in Hin. fold duration in Hin.
    assert (Hd : (due tm == t0 + inject_Z duration * fraction (function tm))%Q).
    { apply in_app_or in Hin as [Hin | Hin];
        [destruct (Py.get (c_bruteforce (config (self s))) false)
        | destruct (Py.get (c_ddos (config (self s))) false)];
        cbn [In] in Hin; try contradiction;
        destruct Hin as [<- | []]; reflexivity. }
    rewrite Hd, Ht0. split; [ring | lra].
Qed.

(** C1, as stated, fails for scenario B: with a total duration of 40
    seconds and a world that adds no delay at all, the brute force timer
    is due 20 seconds after [run] began, not the 10 seconds that a quarter
    of the duration makes. *)
Lemma bruteforce_is_not_due_at_a_quarter :
  exists tm,
    In tm (timers (self (schedule_attacks 40 (launch (calm 0) scenario_b)))) /\
    function tm = StartBruteforce /\
    (due tm - clock scenario_b == 20)%Q /\
    ~ (due tm - clock scenario_b == inject_Z 40 * fraction StartBruteforce)%Q.
Proof.
  exists (mkTimer (0 + 0 + (10 + 0) + inject_Z 40 * 0.25) StartBruteforce).
  split; [vm_compute; left; reflexivity |].
  split; [reflexivity |].
  split; [vm_compute; reflexivity |].
  intros H. vm_compute in H. discriminate.
Qed.
End SimulationFacts.

(* ===================================================================== *)
(** ** The run flags of the actors *)
(* ===================================================================== *)

Module LifecycleFacts.

(** C3, as stated, fails for the attack actors: the flag of a brute
    force attack is down when the attack is built, and a call of [start]
    on an attack that has run and cleared its flag raises the flag again
    and makes it try further logins. *)
Lemma bruteforce_resumes_after_its_flag_was_cleared :
  exists s1 s2,
    BruteForceAttack.running (self example_attack) = false /\
    BruteForceAttack.start 8 (calm 7) 1 example_attack = Some s1 /\
    BruteForceAttack.running (self s1) = false /\
    count is_login (out s1) = 2%nat /\
    BruteForceAttack.start 8 (calm 7) 1 s1 = Some s2 /\
    count is_login (out s2) = 4%nat.
Proof.
  eexists. eexists.
  split; [reflexivity |].
  split; [vm_compute; reflexivity |].
  split; [reflexivity |].
  split; [reflexivity |].
  split; [vm_compute; reflexivity |].
  reflexivity.
Qed.

Lemma device_stop_down (s : proc IoTDevice.t) :
  IoTDevice.running (self (IoTDevice.stop s)) = false.
Proof. reflexivity. Qed.

Lemma device_observe_down (w : World) (n : nat) (s : proc IoTDevice.t) :
  IoTDevice.running (self s) = false ->
  IoTDevice.running (self (IoTDevice.observe w n s)) = false.
Proof.
  intros H. unfold IoTDevice.observe. now destruct (stop_req w n).
Qed.

Lemma device_cycle_keeps_flag (w : World) (n : nat) (s s' : proc IoTDevice.t) :
  IoTDevice.cycle w n s = Py.Normal s' ->
  IoTDevice.running (self s') = IoTDevice.running (self s).
Proof.
  unfold IoTDevice.cycle, IoTDevice.publish_data, sleep.
  destruct (publish_result w n _ _); try discriminate;
    destruct (Py.Qltb _ 0); try discriminate;
    intros H; injection H as <-; reflexivity.
Qed.

Lemma stopped_device_stays_silent (w : World) (fuel : nat)
    (s : proc IoTDevice.t) :
  IoTDevice.running (self s) = false ->
  exists s' evs,
    IoTDevice.start (S fuel) w s = Some s' /\
    IoTDevice.running (self s') = false /\
    out s' = out s ++ evs /\ count is_publish evs = 0%nat.
Proof.
  intros H. unfold IoTDevice.start.
  destruct (setup_connect_ok w 0).
  - rewrite while_exit.
    + unfold IoTDevice.observe. destruct (stop_req w 0);
        eexists; eexists; (split; [reflexivity |]);
        (split; [reflexivity |]); cbn [out emit update IoTDevice.stop self];
        rewrite <- !app_assoc; (split; [reflexivity |]); reflexivity.
    + apply device_observe_down. exact H.
  - eexists; eexists; (split; [reflexivity |]);
      (split; [reflexivity |]); cbn [out emit update IoTDevice.stop self];
      rewrite <- !app_assoc; (split; [reflexivity |]); reflexivity.
Qed.

Lemma device_start_ends_down (w : World) (fuel : nat) (s s' : proc IoTDevice.t) :
  IoTDevice.start fuel w s = Some s' -> IoTDevice.running (self s') = false.
Proof.
  unfold IoTDevice.start.
  destruct (setup_connect_ok w 0).
  - destruct (while _ _ _ fuel 0 _) as [[s1 | e s1] |]; try discriminate;
      intros H; injection H as <-; reflexivity.
  - intros H; injection H as <-; reflexivity.
Qed.

Lemma bruteforce_start_ends_down (w : World) (fuel : nat) (duration : Z)
    (s s' : proc BruteForceAttack.t) :
  BruteForceAttack.start fuel w duration s = Some s' ->
  BruteForceAttack.running (self s') = false.
Proof.
  unfold BruteForceAttack.start.
  destruct (BruteForceAttack.attempt_loop _ _ _ _ _) as [[s1 | e s1] |];
    try discriminate; intros H; injection H as <-; reflexivity.
Qed.

Lemma device_cycle_publishes (w : World) (n : nat) (s : proc IoTDevice.t) :
  exists s' evs,
    (IoTDevice.cycle w n s = Py.Normal s' \/
     exists e, IoTDevice.cycle w n s = Py.Raised e s') /\
    out s' = out s ++ evs /\ count is_publish evs = 1%nat.
Proof.
  unfold IoTDevice.cycle, IoTDevice.publish_data, sleep.
  destruct (publish_result w n _ _).
  - destruct (Py.Qltb _ 0); eexists; eexists;
      (split; [first [left; reflexivity | right; eexists; reflexivity] |]);
      cbn [out emit advance pause]; rewrite <- ?app_assoc;
      (split; [reflexivity |]); reflexivity.
  - destruct (Py.Qltb _ 0); eexists; eexists;
      (split; [first [left; reflexivity | right; eexists; reflexivity] |]);
      cbn [out emit advance pause]; rewrite <- ?app_assoc;
      (split; [reflexivity |]); reflexivity.
  - eexists; eexists; (split; [right; eexists; reflexivity |]).
    cbn [out emit]. split; reflexivity.
Qed.

(** A device whose [n]-th loop test finds a stop request has published [n]
    times at most when [start] returns. *)
Lemma device_stops (w : World) (fuel n : nat) (s s' : proc IoTDevice.t) :
  stop_req w n = true ->
  IoTDevice.start fuel w s = Some s' ->
  exists evs, out s' = out s ++ evs /\ (count is_publish evs <= n)%nat.
Proof.
  intros Hstop. unfold IoTDevice.start.
  destruct (setup_connect_ok w 0).
  - set (s0 := emit (LoopStart (IoTDevice.client (self s)))
                 (emit (Connect (IoTDevice.client (self s)) true) s)).
    destruct (while _ _ _ fuel 0 s0) as [r |] eqn:Hl; [| discriminate].
    pose proof (while_steps (IoTDevice.observe w)
                  (fun s => IoTDevice.running (self s)) (IoTDevice.cycle w)
                  (fun m s1 =>
                     (forall k, (k < m)%nat -> stop_req w k = false) /\
                     exists tr, out s1 = out s0 ++ tr /\ count is_publish tr = m)
                  (fun m s1 =>
                     (forall k, (k <= m)%nat -> stop_req w k = false) /\
                     exists tr, out s1 = out s0 ++ tr /\
                                count is_publish tr = S m)) as HI.
    assert (Hquiet : forall m s1,
               IoTDevice.running (self (IoTDevice.observe w m s1)) = true ->
               stop_req w m = false /\ IoTDevice.observe w m s1 = s1).
    { intros m s1 Ht. unfold IoTDevice.observe in *.
      destruct (stop_req w m); [discriminate | auto]. }
    assert (HN : forall m s1 s1',
               ((forall k, (k < m)%nat -> stop_req w k = false) /\
                exists tr, out s1 = out s0 ++ tr /\ count is_publish tr = m) ->
               IoTDevice.running (self (IoTDevice.observe w m s1)) = true ->
               IoTDevice.cycle w m (IoTDevice.observe w m s1) = Py.Normal s1' ->
               (forall k, (k < S m)%nat -> stop_req w k = false) /\
               exists tr, out s1' = out s0 ++ tr /\ count is_publish tr = S m).
    { intros m s1 s1' (Hs & tr & Ho & Hc) Ht B.
      destruct (Hquiet m s1 Ht) as [Hm Hobs]. rewrite Hobs in B.
      destruct (device_cycle_publishes w m s1)
        as (s2 & evs & [B' | [e B']] & Ho' & Hc'); rewrite B in B';
        [| discriminate].
      injection B' as <-. split.
      - intros k Hk. destruct (Nat.eq_dec k m) as [-> | NE]; [exact Hm |].
        apply Hs. lia.
      - exists (tr ++ evs). rewrite Ho', Ho, <- app_assoc, count_app, Hc, Hc'.
        split; [reflexivity | lia]. }
    assert (HR : forall m s1 e s1',
               ((forall k, (k < m)%nat -> stop_req w k = false) /\
                exists tr, out s1 = out s0 ++ tr /\ count is_publish tr = m) ->
               IoTDevice.running (self (IoTDevice.observe w m s1)) = true ->
               IoTDevice.cycle w m (IoTDevice.observe w m s1) = Py.Raised e s1' ->
               (forall k, (k <= m)%nat -> stop_req w k = false) /\
               exists tr, out s1' = out s0 ++ tr /\ count is_publish tr = S m).
    { intros m s1 e s1' (Hs & tr & Ho & Hc) Ht B.
      destruct (Hquiet m s1 Ht) as [Hm Hobs]. rewrite Hobs in B.
      destruct (device_cycle_publishes w m s1)
        as (s2 & evs & [B' | [e' B']] & Ho' & Hc'); rewrite B in B';
        [discriminate |].
      injection B' as _ <-. split.
      - intros k Hk. destruct (Nat.eq_dec k m) as [-> | NE]; [exact Hm |].
        apply Hs. lia.
      - exists (tr ++ evs). rewrite Ho', Ho, <- app_assoc, count_app, Hc, Hc'.
        split; [reflexivity | lia]. }
    assert (H0 : (forall k, (k < 0)%nat -> stop_req w k = false) /\
                 exists tr, out s0 = out s0 ++ tr /\ count is_publish tr = 0%nat).
    { split; [intros k Hk; lia |]. exists []. now rewrite app_nil_r. }
    specialize (HI HN HR fuel 0%nat s0 r H0 Hl).
    destruct r as [s2 | e s2].
    + destruct HI as (m & s1 & (Hs & tr & Ho & Hc) & -> & _).
      intros H. injection H as <-.
      assert (Hobs : exists evs, out (IoTDevice.observe w m s1) = out s1 ++ evs /\
                                 count is_publish evs = 0%nat).
      { unfold IoTDevice.observe, IoTDevice.stop. destruct (stop_req w m).
        - eexists. cbn [out emit update]. rewrite <- app_assoc.
          split; reflexivity.
        - exists []. now rewrite app_nil_r. }
      destruct Hobs as (evs & Hout & Hz).
      eexists. unfold IoTDevice.stop. cbn [out emit update self].
      rewrite Hout, Ho. unfold s0. cbn [out emit]. rewrite <- !app_assoc.
      split; [reflexivity |].
      rewrite !count_app, Hc, Hz.
      assert (m <= n)%nat.
      { destruct (Nat.le_gt_cases m n) as [L | L]; [exact L |].
        specialize (Hs n L). congruence. }
      cbn. lia.
    + destruct HI as (m & Hs & tr & Ho & Hc).
      intros H. injection H as <-.
      eexists. unfold IoTDevice.stop. cbn [out emit update self].
      rewrite Ho. unfold s0. cbn [out emit]. rewrite <- !app_assoc.
      split; [reflexivity |].
      rewrite !count_app, Hc.
      assert (m < n)%nat.
      { destruct (Nat.lt_ge_cases m n) as [L | L]; [exact L |].
        specialize (Hs n L). congruence. }
      cbn. lia.
  - intros H. injection H as <-. eexists.
    unfold IoTDevice.stop. cbn [out emit update self]. rewrite <- !app_assoc.
    split; [reflexivity |]. cbn. lia.
Qed.

(** A brute force attack whose [n]-th test finds a stop request has tried
    [n] logins at most when [start] returns; and one that is given time
    and is not stopped at once tries a login, whatever its flag was. *)
Lemma bruteforce_stops (w : World) (fuel n : nat) (duration : Z)
    (s s' : proc BruteForceAttack.t) :
  stop_req w n = true ->
  BruteForceAttack.start fuel w duration s = Some s' ->
  (BruteForceAttack.password_attempts (self s') <= Z.of_nat n)%Z /\
  exists evs, out s' = out s ++ evs /\ (count is_login evs <= n)%nat.
Proof.
  intros Hstop Hrun.
  destruct (BruteForceFacts.start_exits w duration s s' fuel Hrun)
    as (m & tr & _ & Hpa & Ho & _ & Hl & Hs & _).
  assert (m <= n)%nat.
  { destruct (Nat.le_gt_cases m n) as [L | L]; [exact L |].
    specialize (Hs n L). congruence. }
  split; [lia |].
  eexists. split; [exact Ho |].
  rewrite !count_app, Hl. cbn. lia.
Qed.

Lemma bruteforce_starts (w : World) (fuel : nat) (duration : Z)
    (s s' : proc BruteForceAttack.t) :
  (0 < duration)%Z -> stop_req w 0 = false ->
  BruteForceAttack.start fuel w duration s = Some s' ->
  (1 <= BruteForceAttack.password_attempts (self s'))%Z.
Proof.
  intros Hd Hq Hrun.
  destruct (BruteForceFacts.start_exits w duration s s' fuel Hrun)
    as (m & tr & _ & Hpa & _ & _ & _ & _ & Hexit).
  rewrite Hpa. destruct m as [| m]; [| lia]. exfalso.
  destruct Hexit as [([Hstop | Hover] & _ & Hclk) | (Hone & _)];
    [congruence | | discriminate].
  rewrite (Hclk eq_refl) in Hover.
  rewrite Zlt_Qlt in Hd. change (inject_Z 0) with 0%Q in Hd. lra.
Qed.

(** C3, as the code has it.  A device is built with its flag up and no
    method raises it: once it is down it stays down through [stop], the
    loop and [start], and [start] then publishes nothing.  An attack is
    built with its flag down and every call of [start] raises it, whatever
    it was: a brute force attack that is given time tries a login, and a
    flood that nobody stops returns with its flag up.  Within a run of
    [start], the loop test that finds a stop request is the last: a device
    has then published [n] times at most, a brute force attack has tried
    [n] logins at most, a connection flood has attempted [10 n] connections
    at most and a publish flood has published [50 n] messages at most,
    [n] being the number of the tests before.  A device and a brute force
    attack return from [start] with the flag down. *)
Theorem run_flag_stays_down_within_a_run (w : World) :
  (forall device_id device_type hardware_type broker port r,
      IoTDevice.running
        (IoTDevice.init device_id device_type hardware_type broker port r)
      = true) /\
  (forall b p u r,
      BruteForceAttack.running (BruteForceAttack.init b p u r) = false) /\
  (forall b p ty r, DDoSAttack.running (DDoSAttack.init b p ty r) = false) /\
  (forall (fuel n : nat) (s : proc IoTDevice.t),
      IoTDevice.running (self s) = false ->
      IoTDevice.running (self (IoTDevice.stop s)) = false /\
      IoTDevice.running (self (IoTDevice.observe w n s)) = false /\
      (forall s', IoTDevice.cycle w n s = Py.Normal s' ->
                  IoTDevice.running (self s') = false) /\
      exists s' evs,
        IoTDevice.start (S fuel) w s = Some s' /\
        IoTDevice.running (self s') = false /\
        out s' = out s ++ evs /\ count is_publish evs = 0%nat) /\
  (forall fuel s s',
      IoTDevice.start fuel w s = Some s' ->
      IoTDevice.running (self s') = false) /\
  (forall fuel d s s',
      BruteForceAttack.start fuel w d s = Some s' ->
      BruteForceAttack.running (self s') = false) /\
  (forall fuel d b s,
      BruteForceAttack.start fuel w d (update (BruteForceAttack.set_running b) s)
      = BruteForceAttack.start fuel w d s) /\
  (forall fuel d b s,
      DDoSAttack.start fuel w d (update (DDoSAttack.set_running b) s)
      = DDoSAttack.start fuel w d s) /\
  (forall fuel d s s',
      (0 < d)%Z -> stop_req w 0 = false ->
      BruteForceAttack.start fuel w d s = Some s' ->
      (1 <= BruteForceAttack.password_attempts (self s'))%Z) /\
  (forall fuel d s r,
      (forall n, stop_req w n = false) ->
      DDoSAttack.start fuel w d s = Some r ->
      exists s', r = Py.Normal s' /\ DDoSAttack.running (self s') = true) /\
  (forall fuel n s s',
      stop_req w n = true ->
      IoTDevice.start fuel w s = Some s' ->
      exists evs, out s' = out s ++ evs /\ (count is_publish evs <= n)%nat) /\
  (forall fuel n d s s',
      stop_req w n = true ->
      BruteForceAttack.start fuel w d s = Some s' ->
      (BruteForceAttack.password_attempts (self s') <= Z.of_nat n)%Z /\
      exists evs, out s' = out s ++ evs /\ (count is_login evs <= n)%nat) /\
  (forall fuel n d s r,
      DDoSAttack.attack_type (self s) = "connection"%string ->
      stop_req w n = true ->
      DDoSAttack.start fuel w d s = Some r ->
      exists s' evs,
        r = Py.Normal s' /\ out s' = out s ++ evs /\
        (count is_connect evs <= n * 10)%nat) /\
  (forall fuel n d s r,
      DDoSAttack.attack_type (self s) = "publish"%string ->
      stop_req w n = true ->
      DDoSAttack.start fuel w d s = Some r ->
      exists s' evs,
        r = Py.Normal s' /\ out s' = out s ++ evs /\
        (count is_publish evs <= n * 50)%nat).
Proof.
  repeat apply conj.
  - reflexivity.
  - reflexivity.
  - reflexivity.
  - intros fuel n s H. repeat apply conj.
    + apply device_stop_down.
    + now apply device_observe_down.
    + intros s' Hc. now rewrite (device_cycle_keeps_flag w n s s' Hc).
    + now apply stopped_device_stays_silent.
  - apply device_start_ends_down.
  - apply bruteforce_start_ends_down.
  - reflexivity.
  - reflexivity.
  - intros fuel d s s'. apply bruteforce_starts.
  - intros fuel d s r. apply DDoSFacts.start_flag_up.
  - intros fuel n s s'. apply device_stops.
  - intros fuel n d s s'. apply bruteforce_stops.
  - intros fuel n d s r. apply DDoSFacts.connection_flood_stops.
  - intros fuel n d s r. apply DDoSFacts.publish_flood_stops.
Qed.
End LifecycleFacts.

(* ===================================================================== *)
(** ** The theorems at sample inputs *)
(* ===================================================================== *)

(** The brute force theorem on a 60-second attack of 2 tries per second
    that is stopped before its third loop test: 2 logins. *)
Lemma start_reports_final_count_once_witness :
  causal (halted 7) /\
  (BruteForceAttack.rate (self example_attack) <> 0%Z ->
   (0 <= Py.truediv 1 (BruteForceAttack.rate (self example_attack)))%Q ->
   (inject_Z 60
    <= inject_Z (Z.of_nat 120)
       * Py.truediv 1 (BruteForceAttack.rate (self example_attack)))%Q) /\
  exists (s' : proc BruteForceAttack.t) (n : nat) (tr : trace),
    n = 2%nat /\
    BruteForceAttack.start 121 (halted 7) 60 example_attack = Some s' /\
    BruteForceAttack.running (self s') = false /\
    BruteForceAttack.password_attempts (self s') = Z.of_nat n /\
    out s' = out example_attack ++ [Log INFO BruteStarting] ++ tr
             ++ [Log INFO (BruteFinished (Z.of_nat n))] /\
    count is_final_report tr = 0%nat /\
    count is_login tr = n /\
    (forall k, (k < n)%nat -> stop_req (halted 7) k = false) /\
    stop_req (halted 7) n = true.
Proof.
  assert (Hw : causal (halted 7)).
  { repeat split; intros; unfold Qle; simpl; lia. }
  assert (Hf : BruteForceAttack.rate (self example_attack) <> 0%Z ->
               (0 <= Py.truediv 1 (BruteForceAttack.rate (self example_attack)))%Q ->
               (inject_Z 60
                <= inject_Z (Z.of_nat 120)
                   * Py.truediv 1 (BruteForceAttack.rate (self example_attack)))%Q).
  { intros _ _. apply Qle_bool_iff. vm_compute. reflexivity. }
  split; [exact Hw |]. split; [exact Hf |].
  destruct (BruteForceFacts.start_reports_final_count_once
              (halted 7) 60 example_attack 120 Hw Hf)
    as (s' & n & tr & Hrun & Hdown & Hpa & Ho & Hfin & Hlog & Hquiet & _).
  assert (Hc : option_map (fun s => BruteForceAttack.password_attempts (self s))
                 (BruteForceAttack.start 121 (halted 7) 60 example_attack)
               = Some 2%Z) by (vm_compute; reflexivity).
  rewrite Hrun in Hc. cbn [option_map] in Hc. injection Hc as Hc.
  assert (Hn : n = 2%nat) by lia.
  exists s', n, tr. repeat apply conj; try assumption.
  rewrite Hn. reflexivity.
Defined.



(** The abort theorem on a broker that refuses every connection. *)
Lemma flood_publish_aborts_without_pool_witness :
  DDoSAttack.attack_type (self publish_flood) = "publish"%string /\
  (forall i, (i < 5)%nat -> setup_connect_ok (unreachable 7) i = false) /\
  exists s',
    DDoSAttack.start 0 (unreachable 7) 60 publish_flood = Some (Py.Normal s') /\
    DDoSAttack.operations_count (self s') = 0%Z.
Proof.
  assert (Ht : DDoSAttack.attack_type (self publish_flood) = "publish"%string)
    by reflexivity.
  assert (Hc : forall i, (i < 5)%nat -> setup_connect_ok (unreachable 7) i = false)
    by (intros i _; reflexivity).
  split; [exact Ht |]. split; [exact Hc |].
  destruct (DDoSFacts.flood_publish_aborts_without_pool
              (unreachable 7) 60 publish_flood 0 Ht Hc)
    as (s' & Hs & _ & _ & _ & Hops & _).
  exists s'. split; [exact Hs | exact Hops].
Defined.

(** The publish count theorem on the full pool: 5 x 10 = 50 publishes when
    no call raises, and a turn cut short when the fourth topic raises. *)
Lemma publish_cycle_publishes_pool_times_topics_witness :
  (forall c topic,
      In c (DDoSProps.pool (calm 7) flooding) ->
      In topic DDoSAttack.flood_topics ->
      publish_result (calm 7) 0 c topic <> Raises) /\
  (exists c topic,
      In c (DDoSProps.pool (flaky 7) flooding) /\
      In topic DDoSAttack.flood_topics /\
      publish_result (flaky 7) 0 c topic = Raises) /\
  (exists s' evs,
      DDoSAttack.publish_cycle (calm 7) (DDoSProps.pool (calm 7) flooding)
                               DDoSAttack.flood_topics 0 flooding
      = Py.Normal s' /\
      out s' = out flooding ++ evs /\
      count is_publish evs = 50%nat /\
      DDoSAttack.operations_count (self s') = 50%Z) /\
  (exists s' evs,
      DDoSAttack.publish_cycle (flaky 7) (DDoSProps.pool (flaky 7) flooding)
                               DDoSAttack.flood_topics 0 flooding
      = Py.Normal s' /\
      out s' = out flooding ++ evs /\
      (1 <= count is_publish evs)%nat /\
      (DDoSAttack.operations_count (self s') < 50)%Z /\
      count is_sleep evs = 0%nat).
Proof.
  assert (Hok : forall c topic,
             In c (DDoSProps.pool (calm 7) flooding) ->
             In topic DDoSAttack.flood_topics ->
             publish_result (calm 7) 0 c topic <> Raises)
    by (intros c topic _ _; simpl; discriminate).
  assert (Hbad : exists c topic,
             In c (DDoSProps.pool (flaky 7) flooding) /\
             In topic DDoSAttack.flood_topics /\
             publish_result (flaky 7) 0 c topic = Raises).
  { exists (DdosPubClient 0 (Py.randint 1000 9999 7)), "ddos/flood/topic/3"%string.
    repeat apply conj.
    - vm_compute. left. reflexivity.
    - vm_compute. right. right. right. left. reflexivity.
    - reflexivity. }
  split; [exact Hok |]. split; [exact Hbad |]. split.
  - destruct (DDoSFacts.publish_cycle_publishes_pool_times_topics
                (calm 7) (DDoSProps.pool (calm 7) flooding)
                DDoSAttack.flood_topics 0 flooding)
      as (s' & evs & Hr & Ho & _ & _ & Hfull & _).
    destruct (Hfull Hok) as (_ & Hn & Hc & _).
    exists s', evs. repeat split; assumption.
  - destruct (DDoSFacts.publish_cycle_publishes_pool_times_topics
                (flaky 7) (DDoSProps.pool (flaky 7) flooding)
                DDoSAttack.flood_topics 0 flooding)
      as (s' & evs & Hr & Ho & _ & _ & _ & Hcut & _).
    destruct (Hcut Hbad) as (H1 & _ & Hlt & Hs & _).
    exists s', evs. repeat split; assumption.
Defined.

(** The scheduling theorem on scenario B. *)
Lemma attacks_are_due_after_stabilization_witness :
  causal (calm 0) /\
  SimulationManager.timers
    (self (SimulationManager.schedule_attacks 40
             (SimulationManager.launch (calm 0) SimulationProps.scenario_b)))
  = SimulationManager.timers (self SimulationProps.scenario_b)
    ++ SimulationProps.started_timers
         (SimulationManager.config (self SimulationProps.scenario_b))
         (clock (SimulationManager.launch (calm 0) SimulationProps.scenario_b)).
Proof.
  assert (Hw : causal (calm 0)).
  { repeat split; intros; unfold Qle; simpl; lia. }
  split; [exact Hw |].
  exact (proj1 (SimulationFacts.attacks_are_due_after_stabilization
                  (calm 0) SimulationProps.scenario_b Hw)).
Defined.

(** The run flag theorem on a stopped device, and on a device and the
    three attacks when they are stopped before their third loop test. *)
Lemma run_flag_stays_down_within_a_run_witness :
  IoTDevice.running (self stopped_device) = false /\
  stop_req (halted 7) 2 = true /\
  DDoSAttack.attack_type (self fast_flood) = "connection"%string /\
  DDoSAttack.attack_type (self publish_flood) = "publish"%string /\
  (0 < 1)%Z /\ stop_req (calm 7) 0 = false /\
  (exists s' evs,
      IoTDevice.start 1 (calm 7) stopped_device = Some s' /\
      IoTDevice.running (self s') = false /\
      out s' = out stopped_device ++ evs /\ count is_publish evs = 0%nat) /\
  (exists s' evs,
      IoTDevice.start 8 (halted 7) fresh_device = Some s' /\
      out s' = out fresh_device ++ evs /\ (count is_publish evs <= 2)%nat) /\
  (exists s',
      BruteForceAttack.start 8 (halted 7) 60 example_attack = Some s' /\
      (BruteForceAttack.password_attempts (self s') <= Z.of_nat 2)%Z) /\
  (exists s' evs,
      DDoSAttack.start 8 (halted 7) 60 fast_flood = Some (Py.Normal s') /\
      out s' = out fast_flood ++ evs /\ (count is_connect evs <= 2 * 10)%nat) /\
  (exists s' evs,
      DDoSAttack.start 8 (halted 7) 60 publish_flood = Some (Py.Normal s') /\
      out s' = out publish_flood ++ evs /\
      (count is_publish evs <= 2 * 50)%nat) /\
  (exists s',
      BruteForceAttack.start 8 (calm 7) 1 example_attack = Some s' /\
      (1 <= BruteForceAttack.password_attempts (self s'))%Z).
Proof.
  assert (H : IoTDevice.running (self stopped_device) = false) by reflexivity.
  assert (Hs : stop_req (halted 7) 2 = true) by reflexivity.
  assert (Hc : DDoSAttack.attack_type (self fast_flood) = "connection"%string)
    by reflexivity.
  assert (Hp : DDoSAttack.attack_type (self publish_flood) = "publish"%string)
    by reflexivity.
  assert (Hd : (0 < 1)%Z) by lia.
  assert (Hq : stop_req (calm 7) 0 = false) by reflexivity.
  repeat (split; [assumption |]).
  destruct (LifecycleFacts.run_flag_stays_down_within_a_run (halted 7))
    as (_ & _ & _ & _ & _ & _ & _ & _ & _ & _ & Hdev & Hbf & Hconn & Hpub).
  destruct (LifecycleFacts.run_flag_stays_down_within_a_run (calm 7))
    as (_ & _ & _ & Hdown & _ & _ & _ & _ & Hup & _).
  repeat apply conj.
  - exact (proj2 (proj2 (proj2 (Hdown 0%nat 0%nat stopped_device H)))).
  - destruct (IoTDevice.start 8 (halted 7) fresh_device) as [s' |] eqn:E;
      [| vm_compute in E; discriminate E].
    destruct (Hdev 8%nat 2%nat fresh_device s' Hs E) as (evs & Ho & Hn).
    exists s', evs. repeat split; assumption.
  - destruct (BruteForceAttack.start 8 (halted 7) 60 example_attack)
      as [s' |] eqn:E; [| vm_compute in E; discriminate E].
    exists s'. split; [reflexivity |].
    exact (proj1 (Hbf 8%nat 2%nat 60%Z example_attack s' Hs E)).
  - destruct (DDoSAttack.start 8 (halted 7) 60 fast_flood) as [r |] eqn:E;
      [| vm_compute in E; discriminate E].
    destruct (Hconn 8%nat 2%nat 60%Z fast_flood r Hc Hs E)
      as (s' & evs & -> & Ho & Hn).
    exists s', evs. repeat split; assumption.
  - destruct (DDoSAttack.start 8 (halted 7) 60 publish_flood) as [r |] eqn:E;
      [| vm_compute in E; discriminate E].
    destruct (Hpub 8%nat 2%nat 60%Z publish_flood r Hp Hs E)
      as (s' & evs & -> & Ho & Hn).
    exists s', evs. repeat split; assumption.
  - destruct (BruteForceAttack.start 8 (calm 7) 1 example_attack)
      as [s' |] eqn:E; [| vm_compute in E; discriminate E].
    exists s'. split; [reflexivity |].
    exact (Hup 8%nat 1%Z example_attack s' Hd Hq E).
Defined.

(* ===================================================================== *)
(** ** Further properties of the devices, the attacks and the manager *)
(* ===================================================================== *)

Module DeviceExtra.
Import IoTDevice DeviceExtraProps.

Ltac dev_simpl :=
  cbn [self clock out update emit emits advance pause
       id type hardware broker port running topic_pub topic_sub client
       set_running] in *.

(** What a turn of the publish loop does. *)
Lemma cycle_effect (w : World) (n : nat) (s : proc t) :
  match cycle w n s with
  | Py.Normal s' =>
      publish_result w n (client (self s)) (topic_pub (self s)) <> Raises /\
      exists d : Z,
        (3 <= d <= 8)%Z /\
        out s' = out s ++ turn_events w n s d /\
        self s' = self s /\
        (clock s' == clock s + busy w n + (inject_Z d + oversleep w n))%Q
  | Py.Raised _ s' =>
      publish_result w n (client (self s)) (topic_pub (self s)) = Raises /\
      self s' = self s /\ clock s' = clock s /\
      out s' = out s ++ [Publish (client (self s)) (topic_pub (self s))
                           (Json (generate_data (self s) (clock s) (draw w n 0)))
                           false]
  end.
Proof.
  unfold cycle, publish_data, turn_events, sleep.
  pose proof (PyFacts.randint_bounds 3 8 (draw w n 1) ltac:(lia)) as Hd.
  assert (Hs : Py.Qltb (inject_Z (Py.randint 3 8 (draw w n 1))) 0 = false).
  { apply Qltb_false. destruct Hd as [Hd _]. rewrite Zle_Qle in Hd.
    change (inject_Z 3) with 3%Q in Hd. lra. }
  destruct (publish_result w n (client (self s)) (topic_pub (self s)));
    rewrite ?Hs; dev_simpl.
  - split; [discriminate |]. exists (Py.randint 3 8 (draw w n 1)).
    rewrite <- !app_assoc. repeat apply conj; try reflexivity; apply Hd.
  - split; [discriminate |]. exists (Py.randint 3 8 (draw w n 1)).
    rewrite <- !app_assoc. repeat apply conj; try reflexivity; apply Hd.
  - repeat apply conj; reflexivity.
Qed.

(** X14: a turn of the publish loop makes one publish call, on the
    device's own topic and with a freshly generated reading, logs its
    outcome and then sleeps a whole number of seconds between 3 and 8; the
    turn raises exactly when the publish call does. *)
Theorem cycle_publishes_once_then_sleeps (w : World) (n : nat) (s : proc t) :
  match cycle w n s with
  | Py.Normal s' =>
      publish_result w n (client (self s)) (topic_pub (self s)) <> Raises /\
      exists d : Z,
        (3 <= d <= 8)%Z /\
        out s' = out s ++ turn_events w n s d /\
        self s' = self s /\
        (clock s' == clock s + busy w n + (inject_Z d + oversleep w n))%Q
  | Py.Raised _ s' =>
      publish_result w n (client (self s)) (topic_pub (self s)) = Raises /\
      self s' = self s /\ clock s' = clock s /\
      out s' = out s ++ [Publish (client (self s)) (topic_pub (self s))
                           (Json (generate_data (self s) (clock s) (draw w n 0)))
                           false]
  end.
Proof. exact (cycle_effect w n s). Qed.

Lemma turn_has_one_publish (w : World) (n : nat) (s : proc t) (d : Z) :
  count is_publish (turn_events w n s d) = 1%nat.
Proof.
  unfold turn_events.
  now destruct (publish_result w n (client (self s)) (topic_pub (self s))).
Qed.

Lemma spaced_inv_observe (w : World) (slack : Q) (s0 : proc t) (n : nat)
    (s : proc t) :
  spaced_inv w slack s0 s -> spaced_inv w slack s0 (observe w n s).
Proof.
  intros (Hc & Hi & tr & Ho & Hq). unfold observe.
  destruct (stop_req w n);
    [| repeat apply conj; try assumption; now exists tr].
  unfold stop, spaced_inv. dev_simpl. repeat apply conj; try assumption.
  eexists. rewrite Ho, <- !app_assoc. split; [reflexivity |].
  rewrite count_app. cbn [count filter is_publish List.length app].
  rewrite Nat.add_0_r. exact Hq.
Qed.

Lemma spaced_inv_cycle (w : World) (s0 : proc t) (n : nat) (s : proc t) :
  spaced_inv w 0 s0 s ->
  match cycle w n s with
  | Py.Normal s' => spaced_inv w 0 s0 s'
  | Py.Raised _ s' => spaced_inv w 3 s0 s'
  end.
Proof.
  intros (Hc & Hi & tr & Ho & Hq).
  pose proof (cycle_effect w n s) as H.
  destruct (cycle w n s) as [s' | e s'].
  - destruct H as (_ & d & Hd & Hout & Hs & Hclk).
    unfold spaced_inv. rewrite Hs. repeat apply conj; try assumption.
    exists (tr ++ turn_events w n s d). rewrite Hout, Ho, <- app_assoc.
    split; [reflexivity |]. intros Hw. specialize (Hq Hw).
    destruct Hw as (_ & _ & Hw). destruct (Hw n) as [Hb Hov].
    rewrite count_app, turn_has_one_publish, Nat2Z.inj_add, inject_Z_plus, Hclk.
    change (inject_Z (Z.of_nat 1)) with 1%Q.
    destruct Hd as [Hd _]. rewrite Zle_Qle in Hd.
    change (inject_Z 3) with 3%Q in Hd. lra.
  - destruct H as (_ & Hs & Hclk & Hout).
    unfold spaced_inv. rewrite Hs. repeat apply conj; try assumption.
    eexists. rewrite Hout, Ho, <- app_assoc. split; [reflexivity |].
    intros Hw. specialize (Hq Hw).
    rewrite count_app, Nat2Z.inj_add, inject_Z_plus, Hclk.
    change (inject_Z (Z.of_nat (count is_publish [_]))) with 1%Q. lra.
Qed.

(** What [start] does on every path. *)
Lemma start_effect (w : World) (fuel : nat) (s s' : proc t) :
  start fuel w s = Some s' ->
  running (self s') = false /\
  exists tr,
    out s' = out s ++ tr ++ [LoopStop (client (self s)) true;
                             Disconnect (client (self s)) true] /\
    (causal w ->
     (inject_Z (Z.of_nat (count is_publish tr)) * 3 <= clock s' - clock s + 3)%Q).
Proof.
  unfold start. destruct (setup_connect_ok w 0).
  - set (s0 := emit (LoopStart (client (self s)))
                 (emit (Connect (client (self s)) true) s)).
    destruct (while _ _ _ fuel 0 s0) as [r |] eqn:Hl; [| discriminate].
    assert (Hinv : spaced_inv w 0 s0 s0).
    { repeat apply conj; try reflexivity. exists []. rewrite app_nil_r.
      split; [reflexivity |].
      intros _. cbn [count filter List.length Z.of_nat].
      change (inject_Z 0) with 0%Q. lra. }
    pose proof (while_inv (observe w) (fun s => running (self s)) (cycle w)
                  (spaced_inv w 0 s0) (spaced_inv w 3 s0)
                  (spaced_inv_observe w 0 s0)) as HI.
    assert (HN : forall n s1 s1', spaced_inv w 0 s0 s1 ->
                   running (self s1) = true ->
                   cycle w n s1 = Py.Normal s1' -> spaced_inv w 0 s0 s1').
    { intros n s1 s1' H1 _ B. pose proof (spaced_inv_cycle w s0 n s1 H1) as H.
      now rewrite B in H. }
    assert (HR : forall n s1 e s1', spaced_inv w 0 s0 s1 ->
                   running (self s1) = true ->
                   cycle w n s1 = Py.Raised e s1' -> spaced_inv w 3 s0 s1').
    { intros n s1 e s1' H1 _ B. pose proof (spaced_inv_cycle w s0 n s1 H1) as H.
      now rewrite B in H. }
    specialize (HI HN HR fuel 0%nat s0 r Hinv Hl).
    destruct r as [s2 | e s2].
    + destruct HI as [(Hc & _ & tr & Ho & Hq) _].
      intros H. injection H as <-. split; [reflexivity |].
      exists ([Connect (client (self s)) true; LoopStart (client (self s))] ++ tr).
      unfold stop. dev_simpl. rewrite Hc, Ho. subst s0. dev_simpl.
      rewrite <- !app_assoc. split; [reflexivity |].
      intros Hw. specialize (Hq Hw). rewrite count_app.
      change (count is_publish [Connect (client (self s)) true;
                                LoopStart (client (self s))]) with 0%nat.
      rewrite Nat.add_0_l. dev_simpl. lra.
    + destruct HI as (Hc & Hi & tr & Ho & Hq).
      intros H. injection H as <-. split; [reflexivity |].
      exists ([Connect (client (self s)) true; LoopStart (client (self s))] ++ tr
              ++ [Log ERROR (DeviceError (id (self s2)))]).
      unfold stop. dev_simpl. rewrite Hc, Ho. subst s0. dev_simpl.
      rewrite <- !app_assoc. split; [reflexivity |].
      intros Hw. specialize (Hq Hw). rewrite !count_app.
      change (count is_publish [Connect (client (self s)) true;
                                LoopStart (client (self s))]) with 0%nat.
      change (count is_publish [Log ERROR (DeviceError (id (self s2)))])
        with 0%nat.
      rewrite Nat.add_0_l, Nat.add_0_r. dev_simpl. lra.
  - intros H. injection H as <-. split; [reflexivity |].
    exists [Connect (client (self s)) false; Log ERROR (DeviceError (id (self s)))].
    unfold stop. dev_simpl. rewrite <- !app_assoc. split; [reflexivity |].
    intros _.
    change (count is_publish [Connect (client (self s)) false;
                              Log ERROR (DeviceError (id (self s)))]) with 0%nat.
    change (inject_Z (Z.of_nat 0)) with 0%Q. lra.
Qed.

(** X15: however [start] is left (the flag was cleared, the connection
    failed, a publish call raised), it is left through [stop]: the flag is
    down and the trace ends with the [loop_stop] and the [disconnect] of the
    device's own client. *)
Theorem start_always_ends_with_stop (w : World) (fuel : nat) (s s' : proc t) :
  start fuel w s = Some s' ->
  running (self s') = false /\
  exists tr,
    out s' = out s ++ tr ++ [LoopStop (client (self s)) true;
                             Disconnect (client (self s)) true].
Proof.
  intros H. destruct (start_effect w fuel s s' H) as (Hf & tr & Ho & _).
  split; [exact Hf | now exists tr].
Qed.

(** X16: when the connection cannot be made, [start] logs the error and
    stops at once, whatever the fuel: the loop thread is not started,
    nothing is published, and [stop] still calls [loop_stop] and
    [disconnect] on the client that never connected. *)
Theorem start_without_connection_publishes_nothing
    (w : World) (fuel : nat) (s : proc t) :
  setup_connect_ok w 0 = false ->
  exists s',
    start fuel w s = Some s' /\
    running (self s') = false /\
    clock s' = clock s /\
    out s' = out s ++ [Connect (client (self s)) false;
                       Log ERROR (DeviceError (id (self s)));
                       LoopStop (client (self s)) true;
                       Disconnect (client (self s)) true].
Proof.
  intros Hc. unfold start. rewrite Hc.
  eexists. split; [reflexivity |]. unfold stop. dev_simpl.
  rewrite <- !app_assoc. repeat apply conj; reflexivity.
Qed.

(** X17: the publish calls of a device are paced.  In a world where time
    does not run backwards, a run of [start] that made [k] publish calls
    took at least [3 * (k - 1)] seconds. *)
Theorem start_spaces_its_publishes (w : World) (fuel : nat) (s s' : proc t) :
  causal w ->
  start fuel w s = Some s' ->
  exists tr,
    out s' = out s ++ tr /\
    (3 * (inject_Z (Z.of_nat (count is_publish tr)) - 1) <= clock s' - clock s)%Q.
Proof.
  intros Hw H. destruct (start_effect w fuel s s' H) as (_ & tr & Ho & Hq).
  exists (tr ++ [LoopStop (client (self s)) true; Disconnect (client (self s)) true]).
  split; [exact Ho |]. specialize (Hq Hw). rewrite count_app.
  change (count is_publish [LoopStop (client (self s)) true;
                            Disconnect (client (self s)) true]) with 0%nat.
  rewrite Nat.add_0_r. lra.
Qed.
End DeviceExtra.

Module BruteForceExtra.
Import BruteForceAttack BruteForceFacts BruteForceExtraProps.

Lemma choice_In {A : Type} (l : list A) (d : A) (r : Z) :
  l <> [] -> In (Py.choice l d r) l.
Proof.
  intros Hl. unfold Py.choice. apply nth_In.
  assert (0 < Z.of_nat (List.length l))%Z.
  { destruct l; [contradiction | cbn [List.length]; lia]. }
  pose proof (Z.mod_pos_bound r (Z.of_nat (List.length l)) ltac:(lia)). lia.
Qed.

(** X1: a generated password has the requested number of characters (none
    for a negative length) and every one of them is an ASCII letter or a
    digit. *)
Theorem generate_password_alphanumeric (w : World) (n : nat) (length : Z) :
  String.length (_generate_password w n length) = Z.to_nat length /\
  Forall (fun c => In c (Py.ascii_letters ++ Py.digits))
         (list_ascii_of_string (_generate_password w n length)).
Proof.
  unfold _generate_password. split.
  - rewrite DDoSFacts.string_of_list_ascii_length, length_map.
    unfold Py.range. apply length_seq.
  - rewrite list_ascii_of_string_of_list_ascii.
    apply Forall_forall. intros c Hc.
    apply in_map_iff in Hc as (k & <- & _).
    apply choice_In. discriminate.
Qed.

(** X2: a login attempt tries exactly one connection; it answers [True]
    exactly when the connection and the disconnection both went through,
    and it logs a success, with the password it was given, in that case
    only. *)
Theorem attempt_login_reports_success_iff_true
    (w : World) (n : nat) (a : t) (password : string) :
  let c := BruteforceClient (Py.randint 1000 9999 (draw w n 8)) in
  let r := _attempt_login w n a password in
  count is_login (snd r) = 1%nat /\
  fst r = connect_ok w n 0 && disconnect_ok w c /\
  (forall p, In (Log WARNING (BruteSuccess p)) (snd r) <->
             fst r = true /\ p = password) /\
  (1000 <= Py.randint 1000 9999 (draw w n 8) <= 9999)%Z.
Proof.
  cbv zeta. unfold _attempt_login.
  repeat apply conj.
  - destruct (connect_ok w n 0); [destruct (disconnect_ok w _) |]; reflexivity.
  - destruct (connect_ok w n 0); [destruct (disconnect_ok w _) |]; reflexivity.
  - intros p.
    destruct (connect_ok w n 0); [destruct (disconnect_ok w _) |];
      cbn [fst snd In]; split.
    + intros [H | [H | [H | []]]]; try discriminate.
      injection H as <-. auto.
    + intros [_ ->]. auto.
    + intros [H | [H | []]]; discriminate.
    + intros [H _]; discriminate.
    + intros [H | []]; discriminate.
    + intros [H _]; discriminate.
  - apply PyFacts.randint_bounds. lia.
  - apply PyFacts.randint_bounds. lia.
Qed.

Lemma paced_inv_observe (w : World) (st : Q) (d r : Z) (n : nat) (s : proc t) :
  paced_inv st d r s -> paced_inv st d r (observe w n s).
Proof.
  intros H. unfold observe, stop. destruct (stop_req w n); exact H.
Qed.

Lemma paced_inv_attempt (w : World) (st : Q) (d r : Z) (n : nat)
    (s s' : proc t) :
  causal w ->
  paced_inv st d r s ->
  test st d s = true ->
  attempt w n s = Py.Normal s' ->
  paced_inv st d r s'.
Proof.
  intros (_ & _ & Hw) (Hrate & Ha0 & Hclk & Hlast) Ht B.
  destruct (attempt_effect w n s) as (evs & _ & _ & H).
  rewrite B in H. destruct H as (_ & _ & Hs & Hc & _).
  unfold test in Ht. apply andb_prop in Ht as [_ Ht]. apply Qltb_true in Ht.
  rewrite Hrate in Hc. unfold BruteForceProps.turn_cost in Hc.
  destruct (Hw n) as [Hb Ho].
  unfold paced_inv. rewrite Hs. bf_simpl.
  set (a := password_attempts (self s)) in *.
  set (q := Py.truediv 1 r) in *.
  rewrite inject_Z_plus. change (inject_Z 1) with 1%Q.
  assert (E : ((inject_Z a + 1) * q == inject_Z a * q + q)%Q) by ring.
  assert (E' : ((inject_Z a + 1 - 1) * q == inject_Z a * q)%Q) by ring.
  repeat apply conj.
  - exact Hrate.
  - lia.
  - rewrite E, Hc. set (x := (inject_Z a * q)%Q) in *. lra.
  - intros _. rewrite E'. set (x := (inject_Z a * q)%Q) in *. lra.
Qed.

(** The sleep of a positive rate is not negative, and for a rate below
    [2 ** 53] it is within [2 ** -53] of [1 / rate], relatively. *)
Lemma sleep_length (r : Z) :
  (0 < r)%Z ->
  (0 <= Py.truediv 1 r)%Q /\
  ((r < 2 ^ 53)%Z ->
   (1 - (1 # 2 ^ 53) <= Py.truediv 1 r * inject_Z r)%Q).
Proof.
  intros Hr. unfold Py.truediv.
  assert (HR : (0 < inject_Z r)%Q).
  { rewrite Zlt_Qlt in Hr. exact Hr. }
  assert (Hq : (0 < inject_Z 1 / inject_Z r)%Q).
  { apply Qlt_shift_div_l; [exact HR |]. reflexivity. }
  split.
  - apply PyFacts.float_sign. lra.
  - intros Hlt.
    assert (Hn : (2 ^ (-1022) <= inject_Z 1 / inject_Z r)%Q).
    { apply Qle_shift_div_l; [exact HR |].
      apply Qle_trans with (2 ^ (-1022) * inject_Z (2 ^ 53))%Q.
      - apply Qmult_le_l; [apply PyFacts.pow2_pos |].
        rewrite <- Zle_Qle. lia.
      - apply Qle_bool_iff. vm_compute. reflexivity. }
    destruct (PyFacts.float_pos_error _ Hn) as [Hlo _].
    assert (Hm : (inject_Z 1 / inject_Z r * (1 - 2 ^ (-53)) * inject_Z r
                  <= Py.float (inject_Z 1 / inject_Z r) * inject_Z r)%Q).
    { apply Qmult_le_compat_r; [exact Hlo | lra]. }
    eapply Qle_trans; [| exact Hm].
    apply Qle_lteq. right.
    change (2 ^ (-53))%Q with (1 # 2 ^ 53)%Q.
    field. intros E. rewrite E in HR. now apply Qlt_irrefl in HR.
Qed.

(** X3: the attempt loop is rate limited by the sleep of [1 / rate]
    seconds, which is a float.  With a positive rate, in a world where time
    does not run backwards, every attempt that [start] counts has cost its
    sleep, and the last one was begun before the duration had elapsed; so
    [start] counts [duration * rate + 1] attempts at most (for a product
    below [2 ** 53]), one more than the rate allows when the float is
    smaller than [1 / rate]. *)
Theorem start_is_rate_limited
    (w : World) (duration : Z) (s s' : proc t) (fuel : nat) :
  causal w ->
  (0 < rate (self s))%Z ->
  start fuel w duration s = Some s' ->
  (0 <= password_attempts (self s'))%Z /\
  (inject_Z (password_attempts (self s')) * Py.truediv 1 (rate (self s))
   <= clock s' - clock s)%Q /\
  ((1 <= password_attempts (self s'))%Z ->
   ((inject_Z (password_attempts (self s')) - 1) * Py.truediv 1 (rate (self s))
    < inject_Z duration)%Q) /\
  ((duration * rate (self s) < 2 ^ 53)%Z ->
   (password_attempts (self s') <= Z.max 0 (duration * rate (self s)) + 1)%Z).
Proof.
  intros Hw Hr. unfold start, attempt_loop.
  set (s0 := emit (Log INFO BruteStarting)
               (update (set_password_attempts 0) (update (set_running true) s))).
  change (clock (update (set_password_attempts 0) (update (set_running true) s)))
    with (clock s).
  destruct (while _ _ _ fuel 0 s0) as [r |] eqn:Hl; [| discriminate].
  assert (Hinv : paced_inv (clock s) duration (rate (self s)) s0).
  { unfold paced_inv, s0. bf_simpl. repeat apply conj; try reflexivity; try lia.
    change (inject_Z 0) with 0%Q. lra. }
  pose proof (while_inv (observe w) (test (clock s) duration) (attempt w)
                (paced_inv (clock s) duration (rate (self s)))
                (fun _ => False)
                (fun n s1 => paced_inv_observe w (clock s) duration _ n s1)
                (fun n s1 s1' H1 Ht B =>
                   paced_inv_attempt w (clock s) duration _ n s1 s1' Hw H1 Ht B))
    as HI.
  destruct (sleep_length _ Hr) as [Hpos Herr].
  assert (HR : forall n s1 e s1',
             paced_inv (clock s) duration (rate (self s)) s1 ->
             test (clock s) duration s1 = true ->
             attempt w n s1 = Py.Raised e s1' -> False).
  { intros n s1 e s1' (Hrate & _) _ B.
    destruct (attempt_effect w n s1) as (evs & _ & _ & H).
    rewrite B in H. destruct H as (Hbad & _). rewrite Hrate in Hbad.
    destruct Hbad as [H0 | Hneg]; [lia | lra]. }
  specialize (HI HR fuel 0%nat s0 r Hinv Hl).
  destruct r as [s2 | e s2]; [| contradiction].
  destruct HI as [(_ & Ha & Hc & Hlast) _].
  intros H. injection H as <-. bf_simpl.
  repeat apply conj; try assumption.
  intros Hsmall.
  set (a := password_attempts (self s2)) in *.
  set (r := rate (self s)) in *.
  destruct (Z_lt_le_dec a 1) as [L | L]; [lia |].
  specialize (Hlast L).
  set (q := Py.truediv 1 r) in *.
  assert (HR' : (0 < inject_Z r)%Q) by (rewrite Zlt_Qlt in Hr; exact Hr).
  assert (Hd : (0 < duration)%Z).
  { rewrite Zlt_Qlt. change (inject_Z 0) with 0%Q.
    assert (0 <= (inject_Z a - 1) * q)%Q; [| lra].
    apply Qmult_le_0_compat; [| exact Hpos].
    rewrite Zle_Qle in L. change (inject_Z 1) with 1%Q in L. lra. }
  assert (Hrs : (r < 2 ^ 53)%Z) by nia.
  specialize (Herr Hrs).
  destruct (Z_le_gt_dec a (duration * r + 1)) as [Hle | Hgt]; [lia |].
  exfalso.
  assert (Hx : (inject_Z (duration * r) + 1 <= inject_Z a - 1)%Q).
  { change 1%Q with (inject_Z 1). rewrite <- inject_Z_plus.
    change (inject_Z a - inject_Z 1)%Q with (inject_Z a + - inject_Z 1)%Q.
    rewrite <- inject_Z_opp, <- inject_Z_plus, <- Zle_Qle. lia. }
  assert (Hs : (inject_Z (duration * r) + 1 <= inject_Z (2 ^ 53))%Q).
  { change 1%Q with (inject_Z 1). rewrite <- inject_Z_plus, <- Zle_Qle. lia. }
  assert (Hm : ((inject_Z a - 1) * q * inject_Z r
                < inject_Z duration * inject_Z r)%Q).
  { apply Qmult_lt_compat_r; assumption. }
  rewrite <- inject_Z_mult in Hm.
  assert (Hm' : ((inject_Z a - 1) * (q * inject_Z r) < inject_Z (duration * r))%Q).
  { eapply Qle_lt_trans; [| exact Hm]. apply Qle_lteq. right. ring. }
  set (t := (q * inject_Z r)%Q) in *.
  set (x := inject_Z (duration * r)) in *.
  set (y := (inject_Z a - 1)%Q) in *.
  assert (H0x : (0 <= x)%Q).
  { unfold x. change 0%Q with (inject_Z 0). rewrite <- Zle_Qle. nia. }
  change (inject_Z (2 ^ 53)) with (9007199254740992 # 1)%Q in Hs.
  change (1 # 2 ^ 53)%Q with (1 # 9007199254740992)%Q in Herr.
  assert (H1 : ((x + 1) * (1 - (1 # 9007199254740992)) <= y * t)%Q) by nra.
  nra.
Qed.

Lemma test_at_entry (duration : Z) (s : proc t) :
  test (clock s) duration s
  = running (self s) && (0 <? duration)%Z.
Proof.
  unfold test. f_equal.
  destruct (Z.ltb_spec 0 duration) as [H | H].
  - apply Qltb_true. rewrite Zlt_Qlt in H. change (inject_Z 0) with 0%Q in H. lra.
  - apply Qltb_false. rewrite Zle_Qle in H. change (inject_Z 0) with 0%Q in H. lra.
Qed.

(** X4: a rate of 0 is not refused.  When nobody stops the attack and the
    duration is positive, [start] tries one login, the division [1 / rate]
    raises, the error is logged and the final report counts 1 attempt. *)
Theorem start_with_rate_zero_tries_once
    (w : World) (duration : Z) (s : proc t) (fuel : nat) :
  rate (self s) = 0%Z ->
  (0 < duration)%Z ->
  stop_req w 0 = false ->
  exists s',
    start (S fuel) w duration s = Some s' /\
    password_attempts (self s') = 1%Z /\
    running (self s') = false /\
    out s' = out s ++ [Log INFO BruteStarting]
                   ++ snd (_attempt_login w 0 (self s) (_generate_password w 0 8))
                   ++ [Log ERROR BruteError; Log INFO (BruteFinished 1)].
Proof.
  intros Hr Hd Hs.
  assert (Ho : forall x, observe w 0 x = x)
    by (intros x; unfold observe; now rewrite Hs).
  unfold start, attempt_loop. cbn [while]. rewrite Ho.
  change (clock (update (set_password_attempts 0) (update (set_running true) s)))
    with (clock (emit (Log INFO BruteStarting)
                   (update (set_password_attempts 0) (update (set_running true) s)))).
  rewrite test_at_entry. bf_simpl.
  apply Z.ltb_lt in Hd. rewrite Hd. cbn [andb].
  unfold attempt. bf_simpl. rewrite Hr. cbn [Z.eqb].
  eexists. split; [reflexivity |]. bf_simpl.
  repeat apply conj; try reflexivity.
  unfold _attempt_login.
  destruct (connect_ok w 0 0); [destruct (disconnect_ok w _) |];
    rewrite <- !app_assoc; reflexivity.
Qed.

(** X5: with a duration that is not positive the loop is not entered:
    [start] tries no login at all, whatever the rate and the world, and
    reports 0 attempts. *)
Theorem start_without_time_tries_nothing
    (w : World) (duration : Z) (s : proc t) (fuel : nat) :
  (duration <= 0)%Z ->
  exists s',
    start (S fuel) w duration s = Some s' /\
    password_attempts (self s') = 0%Z /\
    running (self s') = false /\
    out s' = out s ++ [Log INFO BruteStarting; Log INFO (BruteFinished 0)].
Proof.
  intros Hd. unfold start, attempt_loop.
  rewrite while_exit.
  - eexists. split; [reflexivity |].
    unfold observe, stop. destruct (stop_req w 0); bf_simpl;
      repeat apply conj; try reflexivity; rewrite <- !app_assoc; reflexivity.
  - unfold test. rewrite attempt_observe_clock. apply andb_false_iff. right.
    apply Qltb_false. bf_simpl. rewrite Zle_Qle in Hd.
    change (inject_Z 0) with 0%Q in Hd. lra.
Qed.
End BruteForceExtra.

Module DDoSExtra.
Import DDoSAttack DDoSProps DDoSFacts DDoSExtraProps.

(** X6: [stop] clears the flag, asks every retained client to disconnect,
    one call per client and in the order they were opened, goes on when a
    call fails, and forgets the clients; the counter is left alone.  A
    second [stop] therefore has no client left to disconnect. *)
Theorem stop_disconnects_every_client (w : World) (s : proc t) :
  running (self (stop w s)) = false /\
  clients (self (stop w s)) = [] /\
  operations_count (self (stop w s)) = operations_count (self s) /\
  out (stop w s)
  = out s ++ map (fun c => Disconnect c (disconnect_ok w c)) (clients (self s)) /\
  forall w', out (stop w' (stop w s)) = out (stop w s).
Proof.
  destruct (stop_effect w s) as (_ & Hc & Hr & _ & Ho).
  assert (Hcl : forall w0 s0, clients (self (stop w0 s0)) = []) by reflexivity.
  repeat apply conj; try assumption.
  - apply Hcl.
  - intros w'. destruct (stop_effect w' (stop w s)) as (_ & _ & _ & _ & Ho').
    rewrite Ho', Hcl. apply app_nil_r.
Qed.

Lemma connection_attempts_clients (w : World) (n : nat) (l : list nat) :
  forall s,
    clients (self (fold_left (connection_attempt w n) l s))
    = clients (self s) ++ map (flood_client w n) (filter (connect_ok w n) l).
Proof.
  induction l as [| j l IH]; intros s; cbn [fold_left filter].
  - cbn [map]. now rewrite app_nil_r.
  - rewrite IH. unfold connection_attempt. fold (flood_client w n j).
    destruct (connect_ok w n j); dd_simpl; cbn [map].
    + now rewrite <- app_assoc.
    + reflexivity.
Qed.

Lemma established_count (w : World) (n : nat) (l : list nat) :
  count is_established (map (connect_event w n) l)
  = List.length (filter (connect_ok w n) l).
Proof.
  induction l as [| j l IH]; [reflexivity |].
  cbn [map filter]. unfold count in *. cbn [filter].
  unfold connect_event at 1. cbn [is_established].
  destruct (connect_ok w n j); cbn [List.length]; now rewrite IH.
Qed.

(** X8: in one cycle of the connection flood every connection that the
    broker accepts is appended to [clients], in order, and counted, and a
    refused one is neither; the client ids carry a suffix between 10000 and
    999999. *)
Theorem connection_cycle_retains_established
    (w : World) (n : nat) (s s' : proc t) :
  connection_cycle w n s = Py.Normal s' ->
  let opened := filter (connect_ok w n)
                       (Py.range (Z.min 10 (rate (self s) / 10))) in
  clients (self s') = clients (self s) ++ map (flood_client w n) opened /\
  operations_count (self s')
  = (operations_count (self s) + Z.of_nat (List.length opened))%Z /\
  Forall (fun c => exists k, c = DdosClient k /\ (10000 <= k <= 999999)%Z)
         (map (flood_client w n) opened).
Proof.
  intros B opened.
  destruct (connection_cycle_effect w n s) as (s1 & tail & B1 & _ & _ & Hc & _).
  rewrite B in B1. injection B1 as <-.
  repeat apply conj.
  - revert B. unfold connection_cycle, connection_batch, sleep.
    change (Py.Qltb 1 0) with false. cbv iota zeta.
    set (s1 := fold_left _ _ s).
    assert (H1 : clients (self s1)
                 = clients (self s) ++ map (flood_client w n) opened)
      by apply connection_attempts_clients.
    destruct (operations_count (self (advance (busy w n) s1)) mod 50 =? 0)%Z;
      intros B; injection B as <-; exact H1.
  - rewrite Hc, established_count. reflexivity.
  - apply Forall_forall. intros c Hin.
    apply in_map_iff in Hin as (j & <- & _).
    eexists. split; [reflexivity |]. apply PyFacts.randint_bounds. lia.
Qed.

Lemma batch_bound (w : World) (n : nat) (r : Z) :
  (Z.of_nat (count is_established
               (map (connect_event w n) (Py.range (Z.min 10 (r / 10)))))
   <= batch_size r)%Z.
Proof.
  rewrite established_count. unfold batch_size.
  rewrite <- range_length. apply inj_le. apply filter_length_le.
Qed.

Lemma throughput_inv_observe (w : World) (st : Q) (d r : Z) (n : nat)
    (s : proc t) :
  throughput_inv st d r s -> throughput_inv st d r (observe w n s).
Proof.
  intros (Hr & k & Hk & Ho & Hc). unfold observe.
  destruct (stop_req w n); [| now split; [| exists k]].
  destruct (stop_effect w s) as (H1 & H2 & _ & H4 & _).
  split; [congruence |]. exists k. rewrite H2, H4. auto.
Qed.

Lemma throughput_inv_cycle (w : World) (st : Q) (d r : Z) (n : nat)
    (s s' : proc t) :
  causal w ->
  throughput_inv st d r s ->
  test st d s = true ->
  connection_cycle w n s = Py.Normal s' ->
  throughput_inv st d r s'.
Proof.
  intros (_ & _ & Hw) (Hr & k & Hk & Ho & Hc) Ht B.
  destruct (connection_cycle_effect w n s)
    as (s1 & tail & B1 & _ & _ & Hops & Hr1 & _ & Hclk).
  rewrite B in B1. injection B1 as <-.
  unfold test in Ht. apply andb_prop in Ht as [_ Ht]. apply Qltb_true in Ht.
  assert (Hkd : (k < d)%Z).
  { rewrite Zlt_Qlt. lra. }
  pose proof (batch_bound w n (rate (self s))) as Hb. rewrite Hr in Hb.
  assert (Hb0 : (0 <= batch_size r)%Z) by (unfold batch_size; lia).
  destruct (Hw n) as [Hbusy Hov].
  split; [congruence |]. exists (k + 1)%Z. repeat apply conj; try lia.
  - rewrite Hops, Hr. nia.
  - rewrite Hclk, inject_Z_plus. change (inject_Z 1) with 1%Q. lra.
Qed.

(** X9: the connection flood is throttled.  In a world where time does not
    run backwards, a run of [start] in connection mode never counts more
    than [max(0, min(10, rate // 10))] connections per second of its
    duration, so never more than [10 * duration]. *)
Theorem connection_flood_is_throttled
    (w : World) (duration : Z) (s s' : proc t) (fuel : nat) :
  causal w ->
  attack_type (self s) = "connection"%string ->
  start fuel w duration s = Some (Py.Normal s') ->
  (operations_count (self s')
   <= batch_size (rate (self s)) * Z.max 0 duration)%Z /\
  (operations_count (self s') <= 10 * Z.max 0 duration)%Z.
Proof.
  intros Hw Htype. unfold start. dd_simpl. rewrite !Htype, String.eqb_refl.
  unfold _flood_connections.
  set (s0 := emit (Log INFO (DDoSStarting "connection"))
               (update (set_operations_count 0) (update (set_running true) s))).
  destruct (while _ _ _ fuel 0 s0) as [r |] eqn:Hl; [| discriminate].
  assert (Hinv : throughput_inv (clock s0) duration (rate (self s)) s0).
  { split; [reflexivity |]. exists 0%Z. unfold s0. dd_simpl.
    repeat apply conj; try lia. change (inject_Z 0) with 0%Q. lra. }
  pose proof (while_inv (observe w) (test (clock s0) duration)
                (connection_cycle w)
                (throughput_inv (clock s0) duration (rate (self s)))
                (fun _ => True)
                (fun n s1 => throughput_inv_observe w _ _ _ n s1)
                (fun n s1 s1' H1 Ht B =>
                   throughput_inv_cycle w _ _ _ n s1 s1' Hw H1 Ht B)
                (fun _ _ _ _ _ _ _ => I)
                fuel 0%nat s0 r Hinv Hl) as HI.
  destruct r as [s2 | e s2]; [| discriminate].
  destruct HI as [(_ & k & Hk & Ho & _) _].
  intros H. injection H as <-. dd_simpl.
  assert (Hb : (0 <= batch_size (rate (self s)) <= 10)%Z)
    by (unfold batch_size; lia).
  split; nia.
Qed.

(** X7: [start] never clears the run flag itself.  When no other thread
    calls [stop], it returns normally with the flag still up, whatever the
    attack type, and also when the duration ran out. *)
Theorem start_leaves_the_flag_up
    (w : World) (duration : Z) (s : proc t) (fuel : nat)
    (r : Py.completion (proc t)) :
  (forall n, stop_req w n = false) ->
  start fuel w duration s = Some r ->
  exists s', r = Py.Normal s' /\ running (self s') = true.
Proof. exact (start_flag_up w duration s fuel r). Qed.

(** X10: an attack type other than "connection" and "publish" is not
    refused when the attack is built.  [start] then logs the unknown type
    and its 0 operations and returns, without a single client call. *)
Theorem start_with_unknown_type_does_nothing
    (w : World) (duration : Z) (s : proc t) (fuel : nat) :
  attack_type (self s) <> "connection"%string ->
  attack_type (self s) <> "publish"%string ->
  exists s',
    start fuel w duration s = Some (Py.Normal s') /\
    out s' = out s ++ [Log INFO (DDoSStarting (attack_type (self s)));
                       Log ERROR (DDoSUnknownType (attack_type (self s)));
                       Log INFO (DDoSFinished 0)] /\
    operations_count (self s') = 0%Z /\
    clients (self s') = clients (self s) /\
    clock s' = clock s.
Proof.
  intros H1 H2. unfold start. dd_simpl.
  apply String.eqb_neq in H1, H2. rewrite H1, H2.
  eexists. split; [reflexivity |]. dd_simpl.
  rewrite <- !app_assoc. repeat apply conj; reflexivity.
Qed.

(** X11: a turn of the publish loop stops publishing at the first publish
    call that raises.  Either all [pool * topics] calls are made and
    counted and the turn sleeps its second, or a call raised: the calls
    made before it are counted, one error is logged as the last thing of
    the turn, and the turn does not sleep. *)
Theorem publish_cycle_stops_at_first_failure
    (w : World) (base_clients : list client_id) (topics : list string)
    (n : nat) (s : proc t) :
  exists s' evs,
    publish_cycle w base_clients topics n s = Py.Normal s' /\
    out s' = out s ++ evs /\
    (count is_publish evs <= List.length base_clients * List.length topics)%nat /\
    ((count is_publish evs = (List.length base_clients * List.length topics)%nat /\
      operations_count (self s')
      = (operations_count (self s)
         + Z.of_nat (List.length base_clients * List.length topics))%Z /\
      count is_sleep evs = 1%nat /\ count is_publish_error evs = 0%nat /\
      (clock s' == clock s + busy w n + (1 + oversleep w n))%Q) \/
     ((1 <= count is_publish evs)%nat /\
      operations_count (self s')
      = (operations_count (self s) + Z.of_nat (count is_publish evs) - 1)%Z /\
      count is_sleep evs = 0%nat /\ count is_publish_error evs = 1%nat /\
      (clock s' == clock s + busy w n)%Q /\
      exists before, evs = before ++ [Log ERROR PubFloodError])).
Proof. exact (publish_cycle_count w base_clients topics n s). Qed.

(** X12: with a duration that is not positive neither flood enters its
    loop.  [start] returns with the counter at 0 and without a publish; in
    connection mode it attempts no connection at all, while in publish mode
    it still connects its pool and releases it. *)
Theorem start_without_time_floods_nothing
    (w : World) (duration : Z) (s : proc t) (fuel : nat) :
  causal w ->
  (duration <= 0)%Z ->
  exists s' evs,
    start (S fuel) w duration s = Some (Py.Normal s') /\
    out s' = out s ++ evs /\
    operations_count (self s') = 0%Z /\
    count is_publish evs = 0%nat /\
    (attack_type (self s) = "connection"%string -> count is_connect evs = 0%nat) /\
    (attack_type (self s) = "publish"%string ->
     exists before,
       evs = before ++ flat_map (release_events w) (pool w s)
                    ++ [Log INFO (DDoSFinished 0)]).
Proof.
  intros (Hst & _) Hd. unfold start. dd_simpl.
  set (s0 := emit (Log INFO (DDoSStarting (attack_type (self s))))
               (update (set_operations_count 0) (update (set_running true) s))).
  assert (Hout0 : out s0 = out s ++ [Log INFO (DDoSStarting (attack_type (self s)))])
    by reflexivity.
  assert (Hops0 : operations_count (self s0) = 0%Z) by reflexivity.
  assert (Hclk0 : clock s0 = clock s) by reflexivity.
  assert (Hpool : pool w s0 = pool w s).
  { unfold pool.
    destruct (base_attempts_effect w (Py.range 5) [] s0) as (H1 & _).
    destruct (base_attempts_effect w (Py.range 5) [] s) as (H1' & _).
    cbv zeta in *. congruence. }
  clearbody s0.
  rewrite Zle_Qle in Hd. change (inject_Z 0) with 0%Q in Hd.
  destruct (attack_type (self s) =? "connection")%string eqn:Ec.
  { unfold _flood_connections. rewrite while_exit.
    - destruct (observe_trace w 0 s0) as (evs & Ho & Hp & Hcn & Hops & _).
      eexists. exists ([Log INFO (DDoSStarting (attack_type (self s)))] ++ evs
                       ++ [Log INFO (DDoSFinished 0)]).
      split; [rewrite Hops, Hops0; reflexivity |]. dd_simpl.
      rewrite Ho, Hout0, Hops, Hops0, <- !app_assoc, !count_app, Hp, Hcn.
      repeat apply conj; try reflexivity.
      intros E. apply String.eqb_eq in Ec. rewrite Ec in E. discriminate E.
    - unfold test. rewrite flood_observe_clock. apply andb_false_iff. right.
      apply Qltb_false. lra. }
  destruct (attack_type (self s) =? "publish")%string eqn:Ep.
  { unfold _flood_publish.
    destruct (base_attempts_effect w (Py.range 5) [] s0) as (H1 & H2 & H3 & H4).
    cbv zeta in *. unfold pool in Hpool.
    destruct (fold_left (base_attempt w) (Py.range 5) ([], s0)) as [bc s1].
    cbn [fst snd] in *. fold (pool w s) in Hpool.
    destruct bc as [| c bc].
    - eexists.
      exists ([Log INFO (DDoSStarting (attack_type (self s)))]
              ++ flat_map (setup_events w) (Py.range 5)
              ++ [Log ERROR PubFloodNoConnections; Log INFO (DDoSFinished 0)]).
      dd_simpl. rewrite H2, Hops0. split; [reflexivity |]. dd_simpl.
      rewrite H4, Hout0, H2, Hops0, <- !app_assoc, !count_app, no_publish_in_setup.
      repeat apply conj; try reflexivity.
      + intros E. apply String.eqb_neq in Ec. contradiction.
      + intros _. rewrite <- Hpool. cbn [flat_map app].
        exists (Log INFO (DDoSStarting (attack_type (self s)))
                  :: flat_map (setup_events w) (Py.range 5)
                  ++ [Log ERROR PubFloodNoConnections]).
        cbn [app]. now rewrite <- app_assoc.
    - unfold publish_loop. rewrite while_exit.
      + destruct (observe_trace w 0 (advance (startup w) s1))
          as (evs & Ho & Hp & _ & Hops & _).
        destruct (cleanup_effect w (c :: bc) (observe w 0 (advance (startup w) s1)))
          as (Hs & _ & Hco).
        cbv zeta in Hs, Hco.
        eexists.
        exists ([Log INFO (DDoSStarting (attack_type (self s)))]
                ++ flat_map (setup_events w) (Py.range 5) ++ evs
                ++ flat_map (release_events w) (c :: bc)
                ++ [Log INFO (DDoSFinished 0)]).
        rewrite Hs, Hops. dd_simpl. rewrite H2, Hops0.
        split; [reflexivity |]. dd_simpl.
        rewrite Hco, Ho. dd_simpl.
        rewrite H4, Hout0, Hs, Hops. dd_simpl.
        rewrite H2, Hops0, <- !app_assoc, !count_app, no_publish_in_setup, Hp,
          no_publish_in_release.
        repeat apply conj; try reflexivity.
        * intros E. apply String.eqb_neq in Ec. contradiction.
        * intros _. rewrite <- Hpool.
          exists (Log INFO (DDoSStarting (attack_type (self s)))
                    :: flat_map (setup_events w) (Py.range 5) ++ evs).
          cbn [app]. now rewrite <- !app_assoc.
      + unfold test. rewrite flood_observe_clock. apply andb_false_iff. right.
        apply Qltb_false. dd_simpl. rewrite H3, Hclk0. lra. }
  eexists. exists [Log INFO (DDoSStarting (attack_type (self s)));
                   Log ERROR (DDoSUnknownType (attack_type (self s)));
                   Log INFO (DDoSFinished 0)].
  dd_simpl. rewrite Hops0. split; [reflexivity |]. dd_simpl.
  rewrite Hout0, Hops0, <- !app_assoc.
  repeat apply conj; try reflexivity.
  intros E. apply String.eqb_neq in Ep. contradiction.
Qed.
End DDoSExtra.

Module ManagerExtra.
Import SimulationManager SimulationProps SimulationFacts ManagerExtraProps.

Lemma choice_member {A : Type} (l : list A) (d : A) (r : Z) :
  l <> [] -> In (Py.choice l d r) l.
Proof.
  intros Hl. unfold Py.choice. apply nth_In.
  assert (0 < Z.of_nat (List.length l))%Z.
  { destruct l; [contradiction | cbn [List.length]; lia]. }
  pose proof (Z.mod_pos_bound r (Z.of_nat (List.length l)) ltac:(lia)). lia.
Qed.

Lemma create_device_effect (w : World) (s : proc t) (i : nat) :
  exists d,
    well_formed_device (config (self s)) d /\
    devices (self (create_device w s i)) = devices (self s) ++ [d] /\
    config (self (create_device w s i)) = config (self s) /\
    out (create_device w s i) = out s.
Proof.
  unfold create_device. sm_simpl. eexists.
  split; [| repeat apply conj; reflexivity].
  unfold well_formed_device, IoTDevice.init.
  cbn [IoTDevice.type IoTDevice.hardware IoTDevice.running IoTDevice.broker
       IoTDevice.port IoTDevice.id].
  repeat apply conj; try reflexivity.
  - apply choice_member. discriminate.
  - apply choice_member. discriminate.
  - exists i. reflexivity.
Qed.

Lemma create_all_effect (w : World) (l : list nat) :
  forall s,
    exists new,
      devices (self (fold_left (create_device w) l s)) = devices (self s) ++ new /\
      List.length new = List.length l /\
      Forall (well_formed_device (config (self s))) new /\
      config (self (fold_left (create_device w) l s)) = config (self s) /\
      out (fold_left (create_device w) l s) = out s.
Proof.
  induction l as [| i l IH]; intros s; cbn [fold_left].
  - exists []. rewrite app_nil_r. repeat apply conj; auto.
  - destruct (create_device_effect w s i) as (d & Hd & Hds & Hc & Ho).
    destruct (IH (create_device w s i)) as (new & H1 & H2 & H3 & H4 & H5).
    exists (d :: new). rewrite H1, Hds, H4, Hc, H5, Ho, <- app_assoc.
    repeat apply conj; try reflexivity.
    + cbn [List.length]. now rewrite H2.
    + constructor; [exact Hd | now rewrite Hc in H3].
Qed.

(** X18: [create_devices] appends as many devices as the configuration
    asks for (5 when the key is absent, none for a negative number), each
    with its flag up, a category and a hardware label from the fixed lists,
    the configured broker and port and the identity [category_index]; it
    logs the number asked for and the number of devices it then holds. *)
Theorem create_devices_populates (w : World) (s : proc t) :
  let count := Py.get (c_devices (config (self s))) 5%Z in
  exists new,
    devices (self (create_devices w s)) = devices (self s) ++ new /\
    List.length new = Z.to_nat count /\
    Forall (well_formed_device (config (self s))) new /\
    out (create_devices w s)
    = out s ++ [Log INFO (SimCreating count);
                Log INFO (SimCreated (List.length (devices (self s))
                                      + Z.to_nat count))].
Proof.
  cbv zeta. unfold create_devices. sm_simpl.
  set (s0 := emit _ s).
  destruct (create_all_effect w
              (Py.range (Py.get (c_devices (config (self s))) 5%Z)) s0)
    as (new & H1 & H2 & H3 & _ & H5).
  exists new. sm_simpl. rewrite H1, H5.
  unfold Py.range in H2. rewrite length_seq in H2.
  subst s0. sm_simpl.
  repeat apply conj; try assumption; try reflexivity.
  rewrite length_app, H2, <- app_assoc. reflexivity.
Qed.

(** X19: [start_devices] gives every device a thread of its own.  The
    threads it appends to [device_threads] are, in the order of the
    devices, daemon threads that have been started and whose target is
    the [start] of that device; the devices are left as they are.  Nothing
    records what was started: a second call starts every device again. *)
Theorem start_devices_one_thread_each (s : proc t) :
  let started :=
    map (fun d => mkThread (DeviceStart (IoTDevice.id d)) None true true)
        (devices (self s)) in
  device_threads (self (start_devices s)) = device_threads (self s) ++ started /\
  devices (self (start_devices s)) = devices (self s) /\
  out (start_devices s) = out s ++ [Log INFO SimStartingDevices] /\
  device_threads (self (start_devices (start_devices s)))
  = device_threads (self s) ++ started ++ started.
Proof.
  assert (H : forall (l : list IoTDevice.t) (s1 : proc t),
             let s2 := fold_left
                         (fun s (device : IoTDevice.t) =>
                            let thread :=
                              Thread (DeviceStart (IoTDevice.id device)) None in
                            let thread := set_daemon true thread in
                            update (fun m =>
                              set_device_threads
                                (device_threads m ++ [thread_start thread]) m) s)
                         l s1 in
             device_threads (self s2)
             = device_threads (self s1)
               ++ map (fun d => mkThread (DeviceStart (IoTDevice.id d)) None true true) l /\
             devices (self s2) = devices (self s1) /\ out s2 = out s1).
  { induction l as [| d l IH]; intros s1; cbn [fold_left map].
    - now rewrite app_nil_r.
    - match goal with |- context [fold_left ?f l ?x] =>
        destruct (IH x) as (H1 & H2 & H3) end.
      cbv zeta in *. rewrite H1, H2, H3. sm_simpl.
      rewrite <- app_assoc. repeat apply conj; reflexivity. }
  assert (H1 : forall s1 : proc t,
             device_threads (self (start_devices s1))
             = device_threads (self s1)
               ++ map (fun d => mkThread (DeviceStart (IoTDevice.id d)) None true true)
                      (devices (self s1)) /\
             devices (self (start_devices s1)) = devices (self s1) /\
             out (start_devices s1) = out s1 ++ [Log INFO SimStartingDevices]).
  { intros s1. unfold start_devices. set (s0 := emit _ s1).
    destruct (H (devices (self s0)) s0) as (E1 & E2 & E3).
    cbv zeta in *. rewrite E1, E2, E3. repeat apply conj; reflexivity. }
  cbv zeta. destruct (H1 s) as (E1 & E2 & E3).
  destruct (H1 (start_devices s)) as (F1 & _).
  repeat apply conj; try assumption.
  rewrite F1, E1, E2, <- app_assoc. reflexivity.
Qed.

(** X20: with the dictionary that [main] builds from the command line, an
    attack that is not enabled is not built at all (the manager is left as
    it is), and an enabled one is built from the broker, port, username and
    rate of the command line, with its flag down, and handed a duration of
    60 seconds whatever the total duration is: the two duration keys are
    never set. *)
Theorem cli_attacks_last_sixty_seconds (args : Args) (s : proc t) :
  config (self s) = main_config args ->
  start_bruteforce_attack s
  = (if a_bruteforce args
     then update (fun m =>
            set_attack_threads
              (attack_threads m
               ++ [(mkThread AttackStart (Some 60%Z) true true,
                    Brute (BruteForceAttack.mk (a_broker args) (a_port args)
                             (a_bruteforce_username args)
                             (a_bruteforce_rate args) false 0))]) m)
            (emit (Log INFO SimConfiguringBrute) s)
     else s) /\
  start_ddos_attack s
  = (if a_ddos args
     then update (fun m =>
            set_attack_threads
              (attack_threads m
               ++ [(mkThread AttackStart (Some 60%Z) true true,
                    Flood (DDoSAttack.mk (a_broker args) (a_port args)
                             (a_ddos_type args) (a_ddos_rate args)
                             false [] 0))]) m)
            (emit (Log INFO (SimConfiguringDDoS (a_ddos_type args))) s)
     else s).
Proof.
  intros Hc. unfold start_bruteforce_attack, start_ddos_attack.
  rewrite Hc. unfold main_config.
  cbn [c_broker c_port c_bruteforce c_bruteforce_rate c_bruteforce_username
       c_bruteforce_duration c_ddos c_ddos_type c_ddos_rate c_ddos_duration
       Py.get].
  split; [destruct (a_bruteforce args) | destruct (a_ddos args)]; reflexivity.
Qed.

Lemma stop_devices_cons (d : IoTDevice.t) (ds : list IoTDevice.t) (s : proc t) :
  stop_devices (d :: ds) s
  = (IoTDevice.set_running false d
       :: fst (stop_devices ds (mkProc (self s) (clock s)
                                       (out s ++ device_stop_events d))),
     snd (stop_devices ds (mkProc (self s) (clock s)
                                  (out s ++ device_stop_events d)))).
Proof.
  cbn [stop_devices]. unfold call, IoTDevice.stop, device_stop_events.
  cbn [self clock out update emit IoTDevice.client IoTDevice.set_running].
  rewrite <- app_assoc. cbn [app].
  now destruct (stop_devices ds _).
Qed.

Lemma stop_devices_effect (ds : list IoTDevice.t) :
  forall s : proc t,
    fst (stop_devices ds s) = map (IoTDevice.set_running false) ds /\
    self (snd (stop_devices ds s)) = self s /\
    clock (snd (stop_devices ds s)) = clock s /\
    out (snd (stop_devices ds s)) = out s ++ flat_map device_stop_events ds.
Proof.
  induction ds as [| d ds IH]; intros s.
  - cbn [stop_devices map flat_map fst snd]. now rewrite app_nil_r.
  - rewrite stop_devices_cons. cbn [fst snd map flat_map].
    destruct (IH (mkProc (self s) (clock s) (out s ++ device_stop_events d)))
      as (H1 & H2 & H3 & H4).
    rewrite H1, H2, H3, H4. cbn [self clock out].
    rewrite <- app_assoc. repeat apply conj; reflexivity.
Qed.

Lemma stop_attack_effect (w : World) (entry : thread * attack) (s : proc t) :
  fst (fst (stop_attack w entry s)) = fst entry /\
  attack_running (snd (fst (stop_attack w entry s))) = false /\
  attack_clients (snd (fst (stop_attack w entry s))) = [] /\
  self (snd (stop_attack w entry s)) = self s /\
  clock (snd (stop_attack w entry s)) = clock s /\
  out (snd (stop_attack w entry s)) = out s ++ attack_stop_events w entry.
Proof.
  destruct entry as [th [a | a]]; unfold stop_attack, call, attack_stop_events.
  - cbn. rewrite app_nil_r. repeat apply conj; reflexivity.
  - destruct (DDoSFacts.stop_effect w (mkProc a (clock s) (out s)))
      as (_ & _ & Hr & Hc & Ho).
    cbn [fst snd self clock out attack_running attack_clients] in *.
    rewrite Hr, Hc, Ho. repeat apply conj; reflexivity.
Qed.

Lemma stop_attacks_effect (w : World) (l : list (thread * attack)) :
  forall s : proc t,
    map fst (fst (stop_attacks w l s)) = map fst l /\
    Forall (fun e => attack_running (snd e) = false /\ attack_clients (snd e) = [])
           (fst (stop_attacks w l s)) /\
    self (snd (stop_attacks w l s)) = self s /\
    clock (snd (stop_attacks w l s)) = clock s /\
    out (snd (stop_attacks w l s)) = out s ++ flat_map (attack_stop_events w) l.
Proof.
  induction l as [| entry l IH]; intros s; cbn [stop_attacks map flat_map].
  - cbn [fst snd]. rewrite app_nil_r. repeat apply conj; auto.
  - destruct (stop_attack_effect w entry s) as (E1 & E2 & E3 & E4 & E5 & E6).
    destruct (stop_attack w entry s) as [entry' s1]. cbn [fst snd] in *.
    destruct (IH s1) as (H1 & H2 & H3 & H4 & H5).
    destruct (stop_attacks w l s1) as [rest s2]. cbn [fst snd map] in *.
    rewrite H1, H3, H4, H5, E1, E4, E5, E6, <- app_assoc.
    repeat apply conj; try reflexivity.
    constructor; auto.
Qed.

(** What the first [stop] of a running manager does. *)
Lemma manager_stop_effect (w : World) (s : proc t) :
  running (self s) = true ->
  devices (self (stop w s)) = map (IoTDevice.set_running false) (devices (self s)) /\
  map fst (attack_threads (self (stop w s))) = map fst (attack_threads (self s)) /\
  Forall (fun e => attack_running (snd e) = false /\ attack_clients (snd e) = [])
         (attack_threads (self (stop w s))) /\
  running (self (stop w s)) = false /\
  config (self (stop w s)) = config (self s) /\
  clock (stop w s) = clock s /\
  out (stop w s)
  = out s ++ [Log INFO SimStopping]
          ++ flat_map device_stop_events (devices (self s))
          ++ flat_map (attack_stop_events w) (attack_threads (self s))
          ++ [Log INFO SimStopped].
Proof.
  intros Hr. unfold stop. rewrite Hr. cbn [negb].
  set (s0 := emit (Log INFO SimStopping) s).
  destruct (stop_devices_effect (devices (self s0)) s0) as (D1 & D2 & D3 & D4).
  destruct (stop_devices (devices (self s0)) s0) as [ds s1]. cbn [fst snd] in *.
  destruct (stop_attacks_effect w (attack_threads (self (update (set_devices ds) s1)))
              (update (set_devices ds) s1)) as (A1 & A2 & A3 & A4 & A5).
  destruct (stop_attacks w _ _) as [ats s2]. cbn [fst snd] in *.
  sm_simpl. rewrite A3, A4, A5 in *. sm_simpl. rewrite D2, D3, D4 in *.
  subst s0. sm_simpl. rewrite <- !app_assoc.
  repeat apply conj; try reflexivity; assumption.
Qed.

(** X21: the first [stop] of a running manager stops every device, then
    every attack, each once and in the order they are held, between the two
    log lines: afterwards every device and attack has its flag down and no
    flood retains a client.  The clock is not touched: [stop] signals, it
    does not wait. *)
Theorem stop_signals_devices_then_attacks (w : World) (s : proc t) :
  running (self s) = true ->
  devices (self (stop w s)) = map (IoTDevice.set_running false) (devices (self s)) /\
  map fst (attack_threads (self (stop w s))) = map fst (attack_threads (self s)) /\
  Forall (fun e => attack_running (snd e) = false /\ attack_clients (snd e) = [])
         (attack_threads (self (stop w s))) /\
  running (self (stop w s)) = false /\
  config (self (stop w s)) = config (self s) /\
  clock (stop w s) = clock s /\
  out (stop w s)
  = out s ++ [Log INFO SimStopping]
          ++ flat_map device_stop_events (devices (self s))
          ++ flat_map (attack_stop_events w) (attack_threads (self s))
          ++ [Log INFO SimStopped].
Proof. exact (manager_stop_effect w s). Qed.

(** What a fired timer does to the manager: an attack more at most. *)
Lemma invoke_effect (s : proc t) (tm : timer) :
  config (self (invoke s tm)) = config (self s) /\
  running (self (invoke s tm)) = running (self s) /\
  timers (self (invoke s tm)) = timers (self s) /\
  devices (self (invoke s tm)) = devices (self s) /\
  clock (invoke s tm) = clock s /\
  exists new,
    attack_threads (self (invoke s tm)) = attack_threads (self s) ++ new /\
    (List.length new <= 1)%nat.
Proof.
  unfold invoke, start_bruteforce_attack, start_ddos_attack.
  destruct (function tm).
  - destruct (negb (Py.get (c_bruteforce (config (self s))) false)); sm_simpl;
      repeat apply conj; try reflexivity.
    + exists []. split; [now rewrite app_nil_r | cbn; lia].
    + eexists. split; [reflexivity |]. cbn. lia.
  - destruct (negb (Py.get (c_ddos (config (self s))) false)); sm_simpl;
      repeat apply conj; try reflexivity.
    + exists []. split; [now rewrite app_nil_r | cbn; lia].
    + eexists. split; [reflexivity |]. cbn. lia.
Qed.

Lemma invoke_all_effect (l : list timer) :
  forall s : proc t,
    config (self (fold_left invoke l s)) = config (self s) /\
    running (self (fold_left invoke l s)) = running (self s) /\
    timers (self (fold_left invoke l s)) = timers (self s) /\
    devices (self (fold_left invoke l s)) = devices (self s) /\
    clock (fold_left invoke l s) = clock s /\
    exists new,
      attack_threads (self (fold_left invoke l s)) = attack_threads (self s) ++ new /\
      (List.length new <= List.length l)%nat.
Proof.
  induction l as [| tm l IH]; intros s; cbn [fold_left].
  - repeat apply conj; try reflexivity. exists [].
    split; [now rewrite app_nil_r | cbn; lia].
  - destruct (invoke_effect s tm) as (E1 & E2 & E3 & E4 & E5 & new1 & E6 & E7).
    destruct (IH (invoke s tm)) as (H1 & H2 & H3 & H4 & H5 & new2 & H6 & H7).
    rewrite H1, H2, H3, H4, H5, H6, E1, E2, E3, E4, E5, E6.
    repeat apply conj; try reflexivity.
    exists (new1 ++ new2). rewrite <- app_assoc, length_app.
    split; [reflexivity |]. cbn [List.length]. lia.
Qed.

Lemma observe_effect (n : nat) (s : proc t) :
  config (self (observe n s)) = config (self s) /\
  running (self (observe n s)) = running (self s) /\
  devices (self (observe n s)) = devices (self s) /\
  clock (observe n s) = clock s /\
  timers (self (observe n s))
  = filter (fun tm => negb (expired (clock s) tm)) (timers (self s)) /\
  exists new,
    attack_threads (self (observe n s)) = attack_threads (self s) ++ new /\
    (List.length new
     <= List.length (filter (expired (clock s)) (timers (self s))))%nat.
Proof.
  unfold observe.
  match goal with |- context [fold_left invoke ?l ?x] =>
    destruct (invoke_all_effect l x) as (H1 & H2 & H3 & H4 & H5 & new & H6 & H7) end.
  rewrite H1, H2, H3, H4, H5, H6. sm_simpl.
  repeat apply conj; try reflexivity. now exists new.
Qed.

Lemma monitor_effect (w : World) (st et : Q) (n : nat) (s : proc t) :
  match monitor w st et n s with
  | Py.Normal s' =>
      self s' = self s /\
      (clock s' == clock s + busy w n + (1 + oversleep w n))%Q
  | Py.Raised e s' =>
      e = Py.KeyboardInterrupt /\ self s' = self s /\ clock s' = clock s
  end.
Proof.
  unfold monitor, sleep. change (Py.Qltb 1 0) with false. cbv iota.
  destruct ((Py.int (clock s - st) mod 30 =? 0)%Z
            && (Py.int (clock s - st) >? 0)%Z);
    destruct (interrupt w n); sm_simpl; repeat apply conj; reflexivity.
Qed.

Lemma monitor_inv_observe (cfg : Config) (base : nat) (started : list timer)
    (floor : Q) (n : nat) (s : proc t) :
  monitor_inv cfg base started floor s ->
  monitor_inv cfg base started floor (observe n s).
Proof.
  intros (Hc & Hr & Hf & Hb & Hl & Hin & Hdue).
  destruct (observe_effect n s) as (E1 & E2 & _ & E4 & E5 & new & E6 & E7).
  pose proof (filter_length (expired (clock s)) (timers (self s))) as Hsplit.
  unfold monitor_inv. rewrite E1, E2, E4, E5, E6, length_app.
  repeat apply conj; try assumption; try lia.
  - intros tm Htm. apply filter_In in Htm as [Htm _]. auto.
  - intros Hnew.
    destruct (Nat.lt_ge_cases base (List.length (attack_threads (self s))))
      as [Hold | Hold]; [auto |].
    assert (Hfired : filter (expired (clock s)) (timers (self s)) <> []).
    { intros E. rewrite E in E7. cbn [List.length] in E7. lia. }
    destruct (filter (expired (clock s)) (timers (self s))) as [| tm l] eqn:Ef;
      [contradiction |].
    assert (Htm : In tm (filter (expired (clock s)) (timers (self s))))
      by (rewrite Ef; now left).
    apply filter_In in Htm as [Htm Hexp].
    exists tm. split; [auto |]. unfold expired in Hexp.
    now apply Qle_bool_iff in Hexp.
Qed.

Lemma monitor_inv_monitor (w : World) (cfg : Config) (base : nat)
    (started : list timer) (floor st et : Q) (n : nat) (s : proc t) :
  causal w ->
  monitor_inv cfg base started floor s ->
  match monitor w st et n s with
  | Py.Normal s' =>
      monitor_inv cfg base started floor s' /\ (clock s + 1 <= clock s')%Q
  | Py.Raised e s' =>
      e = Py.KeyboardInterrupt /\ monitor_inv cfg base started floor s'
  end.
Proof.
  intros (_ & _ & Hw) (Hc & Hr & Hf & Hb & Hl & Hin & Hdue).
  destruct (Hw n) as [Hbusy Hov].
  pose proof (monitor_effect w st et n s) as H.
  destruct (monitor w st et n s) as [s' | e s'].
  - destruct H as (Hs & Hclk). unfold monitor_inv. rewrite Hs, Hclk.
    repeat apply conj; try assumption; try lra.
    intros Hnew. destruct (Hdue Hnew) as (tm & Htm & Hd).
    exists tm. split; [exact Htm | lra].
  - destruct H as (He & Hs & Hclk). split; [exact He |].
    unfold monitor_inv. rewrite Hs, Hclk. repeat apply conj; assumption.
Qed.

Lemma create_devices_state (w : World) (s : proc t) :
  attack_threads (self (create_devices w s)) = attack_threads (self s) /\
  running (self (create_devices w s)) = running (self s).
Proof.
  unfold create_devices. sm_simpl.
  set (s0 := emit _ s).
  assert (H : attack_threads (self s0) = attack_threads (self s) /\
              running (self s0) = running (self s)) by (split; reflexivity).
  clearbody s0. revert s0 H.
  induction (Py.range (Py.get (c_devices (config (self s))) 5%Z))
    as [| i l IH]; intros s0 H; cbn [fold_left]; [exact H |].
  apply IH. unfold create_device. sm_simpl. exact H.
Qed.

Lemma start_devices_state (s : proc t) :
  attack_threads (self (start_devices s)) = attack_threads (self s) /\
  running (self (start_devices s)) = running (self s).
Proof.
  unfold start_devices.
  set (s0 := emit _ s).
  assert (H : attack_threads (self s0) = attack_threads (self s) /\
              running (self s0) = running (self s)) by (split; reflexivity).
  generalize (devices (self s0)). clearbody s0. intros l. revert s0 H.
  induction l as [| d l IH]; intros s0 H; cbn [fold_left]; [exact H |].
  apply IH. sm_simpl. exact H.
Qed.

Lemma launch_state (w : World) (s : proc t) :
  attack_threads (self (launch w s)) = attack_threads (self s) /\
  running (self (launch w s)) = true.
Proof.
  unfold launch. sm_simpl.
  set (s0 := emit _ (update (set_running true) s)).
  destruct (create_devices_state w s0) as (H1 & H2).
  destruct (start_devices_state (create_devices w s0)) as (H3 & H4).
  rewrite H3, H4, H1, H2. split; reflexivity.
Qed.

Lemma schedule_attacks_state (duration : Z) (s : proc t) :
  attack_threads (self (schedule_attacks duration s)) = attack_threads (self s) /\
  running (self (schedule_attacks duration s)) = running (self s) /\
  config (self (schedule_attacks duration s)) = config (self s) /\
  clock (schedule_attacks duration s) = clock s.
Proof.
  unfold schedule_attacks, timer_start.
  destruct (Py.get (c_bruteforce (config (self s))) false); sm_simpl;
    destruct (Py.get (c_ddos (config (self s))) false); sm_simpl;
    repeat apply conj; reflexivity.
Qed.

(** The state in which [run] enters its monitoring loop. *)
Lemma monitor_inv_at_entry (w : World) (s : proc t) :
  causal w ->
  let duration := Py.get (c_duration (config (self s))) 300%Z in
  let s1 := schedule_attacks duration (launch w s) in
  monitor_inv (config (self s)) (List.length (attack_threads (self s)))
              (timers (self s1)) (clock s + 10) s1.
Proof.
  intros (Hs & Ho & _) duration s1.
  destruct (launch_keeps w s) as (Lc & _ & Lclk).
  destruct (launch_state w s) as (La & Lr).
  destruct (schedule_attacks_state duration (launch w s)) as (Sa & Sr & Sc & Sclk).
  unfold monitor_inv. fold s1 in Sa, Sr, Sc, Sclk.
  rewrite Sa, Sr, Sc, Sclk, La, Lr, Lc, Lclk.
  repeat apply conj; try reflexivity; try lia; try lra; auto.
Qed.

(** What the monitoring loop of [run] is left with. *)
Lemma monitor_loop_exit (w : World) (cfg : Config) (base : nat)
    (started : list timer) (floor st et : Q) (fuel : nat) (s1 : proc t)
    (r : Py.completion (proc t)) :
  causal w ->
  monitor_inv cfg base started floor s1 ->
  while observe (fun s => Py.Qltb (clock s) et && running (self s))
        (monitor w st et) fuel 0 s1 = Some r ->
  match r with
  | Py.Normal s2 => monitor_inv cfg base started floor s2
  | Py.Raised e s2 =>
      e = Py.KeyboardInterrupt /\ monitor_inv cfg base started floor s2
  end.
Proof.
  intros Hw Hinv Hl.
  pose proof (while_inv observe
                (fun s => Py.Qltb (clock s) et && running (self s))
                (monitor w st et)
                (monitor_inv cfg base started floor)
                (fun s2 => monitor_inv cfg base started floor s2)
                (monitor_inv_observe cfg base started floor)) as HI.
  assert (HN : forall n s2 s2', monitor_inv cfg base started floor s2 ->
                 Py.Qltb (clock s2) et && running (self s2) = true ->
                 monitor w st et n s2 = Py.Normal s2' ->
                 monitor_inv cfg base started floor s2').
  { intros n s2 s2' H2 _ B.
    pose proof (monitor_inv_monitor w cfg base started floor st et n s2 Hw H2) as H.
    rewrite B in H. apply H. }
  assert (HR : forall n s2 e s2', monitor_inv cfg base started floor s2 ->
                 Py.Qltb (clock s2) et && running (self s2) = true ->
                 monitor w st et n s2 = Py.Raised e s2' ->
                 monitor_inv cfg base started floor s2').
  { intros n s2 e s2' H2 _ B.
    pose proof (monitor_inv_monitor w cfg base started floor st et n s2 Hw H2) as H.
    rewrite B in H. apply H. }
  specialize (HI HN HR fuel 0%nat s1 r Hinv Hl).
  destruct r as [s2 | e s2]; [apply HI |].
  split; [| exact HI].
  (* the only exception of a turn is the interrupt *)
  clear HI HN HR Hinv. revert s1 Hl. generalize 0%nat.
  induction fuel as [| fuel IH]; intros n s1 Hl; [discriminate |].
  cbn [while] in Hl.
  destruct (Py.Qltb (clock (observe n s1)) et && running (self (observe n s1)));
    [| discriminate].
  pose proof (monitor_effect w st et n (observe n s1)) as H.
  destruct (monitor w st et n (observe n s1)) as [s3 | e3 s3].
  - exact (IH _ _ Hl).
  - injection Hl as -> _. apply H.
Qed.

(** X22: [run] comes to an end and ends stopped.  In a world where time
    does not run backwards it returns within one turn of the monitoring
    loop per second of the total duration, normally even when the loop was
    interrupted, never earlier than 10 seconds after it began, and with the
    manager, every device and every attack stopped and "stopped" as the
    last line of its trace. *)
Theorem run_returns_stopped (w : World) (s : proc t) (fuel : nat) :
  causal w ->
  (Py.get (c_duration (config (self s))) 300 <= Z.of_nat fuel)%Z ->
  exists s',
    run (S fuel) w s = Some (Py.Normal s') /\
    running (self s') = false /\
    Forall (fun d => IoTDevice.running d = false) (devices (self s')) /\
    Forall (fun e => attack_running (snd e) = false /\ attack_clients (snd e) = [])
           (attack_threads (self s')) /\
    (exists tr, out s' = tr ++ [Log INFO SimStopped]) /\
    (10 <= clock s' - clock s)%Q.
Proof.
  intros Hw Hfuel. unfold run.
  set (duration := Py.get (c_duration (config (self s))) 300%Z) in *.
  set (s1 := schedule_attacks duration (launch w s)).
  pose proof (monitor_inv_at_entry w s Hw) as Hinv. cbv zeta in Hinv.
  fold duration in Hinv. fold s1 in Hinv.
  set (cfg := config (self s)) in *.
  set (base := List.length (attack_threads (self s))) in *.
  set (started := timers (self s1)) in *.
  assert (Hret : exists r,
             while observe
                   (fun s2 => Py.Qltb (clock s2) (clock s + inject_Z duration)
                              && running (self s2))
                   (monitor w (clock s) (clock s + inject_Z duration))
                   (S fuel) 0 s1 = Some r).
  { apply while_total with (P := monitor_inv cfg base started (clock s + 10))
                           (T := (clock s + inject_Z duration)%Q) (delta := 1%Q).
    - intros s2 Ht. apply andb_prop in Ht as [Ht _]. now apply Qltb_true in Ht.
    - intros n s2 H2. split; [now apply monitor_inv_observe |].
      destruct (observe_effect n s2) as (_ & _ & _ & E & _). rewrite E. lra.
    - intros n s2 s2' H2 _ B.
      pose proof (monitor_inv_monitor w cfg base started (clock s + 10)
                    (clock s) (clock s + inject_Z duration) n s2 Hw H2) as H.
      rewrite B in H. exact H.
    - exact Hinv.
    - destruct Hinv as (_ & _ & Hf & _). rewrite Zle_Qle in Hfuel. lra. }
  destruct Hret as [r Hr]. rewrite Hr.
  pose proof (monitor_loop_exit w cfg base started (clock s + 10) (clock s)
                (clock s + inject_Z duration) (S fuel) s1 r Hw Hinv Hr) as Hexit.
  assert (Hfinal : forall s2,
             monitor_inv cfg base started (clock s + 10) s2 ->
             running (self (stop w s2)) = false /\
             Forall (fun d => IoTDevice.running d = false) (devices (self (stop w s2))) /\
             Forall (fun e => attack_running (snd e) = false /\
                              attack_clients (snd e) = [])
                    (attack_threads (self (stop w s2))) /\
             (exists tr, out (stop w s2) = tr ++ [Log INFO SimStopped]) /\
             (10 <= clock (stop w s2) - clock s)%Q).
  { intros s2 (_ & Hrun & Hf & _).
    destruct (manager_stop_effect w s2 Hrun) as (Hd & _ & Ha & Hdown & _ & Hclk & Hout).
    repeat apply conj; try assumption.
    - rewrite Hd. apply Forall_forall. intros d Hin.
      apply in_map_iff in Hin as (d0 & <- & _). reflexivity.
    - eexists. rewrite Hout, !app_assoc. reflexivity.
    - rewrite Hclk. lra. }
  destruct r as [s2 | e s2].
  - eexists. split; [reflexivity |]. now apply Hfinal.
  - destruct Hexit as [-> Hexit].
    eexists. split; [reflexivity |]. apply Hfinal.
    destruct Hexit as (H1 & H2 & H3 & H4 & H5 & H6 & H7).
    repeat apply conj; assumption.
Qed.

(** X23: [run] starts an attack only through one of its timers, and each
    timer starts one attack at most.  From a manager without attacks and
    pending timers, [run] ends with no more attacks than timers it started,
    two at most, and with none at all unless the clock reached the due time
    of one of them. *)
Theorem run_starts_attacks_only_when_due
    (w : World) (s s' : proc t) (fuel : nat) :
  causal w ->
  attack_threads (self s) = [] ->
  timers (self s) = [] ->
  run fuel w s = Some (Py.Normal s') ->
  let started := started_timers (config (self s)) (clock (launch w s)) in
  (List.length (attack_threads (self s')) <= List.length started)%nat /\
  (List.length started <= 2)%nat /\
  (attack_threads (self s') <> [] ->
   exists tm, In tm started /\ (due tm <= clock s')%Q).
Proof.
  intros Hw Ha Ht. unfold run.
  set (duration := Py.get (c_duration (config (self s))) 300%Z) in *.
  set (s1 := schedule_attacks duration (launch w s)).
  pose proof (monitor_inv_at_entry w s Hw) as Hinv. cbv zeta in Hinv.
  fold duration in Hinv. fold s1 in Hinv.
  assert (Hst : timers (self s1)
                = started_timers (config (self s)) (clock (launch w s))).
  { unfold s1. destruct (launch_keeps w s) as (Lc & Lt & _).
    rewrite schedule_attacks_timers by (now rewrite Lc).
    now rewrite Lt, Lc, Ht. }
  rewrite Hst, Ha in Hinv. cbn [List.length] in Hinv.
  set (started := started_timers (config (self s)) (clock (launch w s))) in *.
  destruct (while _ _ _ fuel 0 s1) as [r |] eqn:Hl; [| discriminate].
  pose proof (monitor_loop_exit w _ _ _ _ _ _ fuel s1 r Hw Hinv Hl) as Hexit.
  assert (Hfinal : forall s2,
             monitor_inv (config (self s)) 0 started (clock s + 10) s2 ->
             (List.length (attack_threads (self (stop w s2)))
              <= List.length started)%nat /\
             (attack_threads (self (stop w s2)) <> [] ->
              exists tm, In tm started /\ (due tm <= clock (stop w s2))%Q)).
  { intros s2 (_ & Hrun & _ & _ & Hlen & _ & Hdue).
    destruct (manager_stop_effect w s2 Hrun) as (_ & Hm & _ & _ & _ & Hclk & _).
    assert (Hsame : List.length (attack_threads (self (stop w s2)))
                    = List.length (attack_threads (self s2))).
    { rewrite <- (length_map fst), Hm. apply length_map. }
    rewrite Hsame, Hclk. split; [lia |].
    intros Hne. apply Hdue.
    destruct (attack_threads (self (stop w s2))); [contradiction |].
    cbn [List.length] in Hsame. lia. }
  assert (Htwo : (List.length started <= 2)%nat).
  { unfold started, started_timers.
    destruct (Py.get (c_bruteforce (config (self s))) false);
      destruct (Py.get (c_ddos (config (self s))) false); cbn; lia. }
  cbv zeta. destruct r as [s2 | e s2].
  - intros H. injection H as <-.
    destruct (Hfinal s2 Hexit) as [H1 H2]. auto.
  - destruct Hexit as [-> Hexit].
    intros H. injection H as <-.
    assert (Hinv' : monitor_inv (config (self s)) 0 started (clock s + 10)
                                (emit (Log INFO SimInterrupted) s2)).
    { destruct Hexit as (H1 & H2 & H3 & H4 & H5 & H6 & H7).
      repeat apply conj; assumption. }
    destruct (Hfinal _ Hinv') as [H1 H2]. auto.
Qed.
End ManagerExtra.

(** The rate limit on a 1-second attack of 49 tries per second: the sleep
    is shorter than [1 / 49] and the attack tries 50 logins. *)
Lemma start_is_rate_limited_witness :
  causal (calm 7) /\
  (0 < BruteForceAttack.rate (self eager_attack))%Z /\
  (1 * BruteForceAttack.rate (self eager_attack) < 2 ^ 53)%Z /\
  exists s',
    BruteForceAttack.start 60 (calm 7) 1 eager_attack = Some s' /\
    BruteForceAttack.password_attempts (self s') = 50%Z /\
    (BruteForceAttack.password_attempts (self s')
     <= Z.max 0 (1 * BruteForceAttack.rate (self eager_attack)) + 1)%Z.
Proof.
  assert (Hw : causal (calm 7)).
  { repeat split; intros; unfold Qle; simpl; lia. }
  assert (Hr : (0 < BruteForceAttack.rate (self eager_attack))%Z)
    by (simpl; lia).
  assert (Hs : (1 * BruteForceAttack.rate (self eager_attack) < 2 ^ 53)%Z)
    by (simpl; lia).
  repeat (split; [assumption |]).
  destruct (BruteForceAttack.start 60 (calm 7) 1 eager_attack) as [s' |] eqn:E;
    [| vm_compute in E; discriminate E].
  exists s'. split; [reflexivity |]. split.
  - assert (Hc : option_map (fun s => BruteForceAttack.password_attempts (self s))
                   (BruteForceAttack.start 60 (calm 7) 1 eager_attack)
                 = Some 50%Z) by (vm_compute; reflexivity).
    rewrite E in Hc. cbn [option_map] in Hc. now injection Hc.
  - exact (proj2 (proj2 (proj2
             (BruteForceExtra.start_is_rate_limited
                (calm 7) 1 eager_attack s' 60 Hw Hr E))) Hs).
Defined.

(** The attack of rate 0 in a calm world. *)
Lemma start_with_rate_zero_tries_once_witness :
  BruteForceAttack.rate (self stalled_attack) = 0%Z /\
  (0 < 60)%Z /\ stop_req (calm 7) 0 = false /\
  exists s',
    BruteForceAttack.start 1 (calm 7) 60 stalled_attack = Some s' /\
    BruteForceAttack.password_attempts (self s') = 1%Z.
Proof.
  assert (Hr : BruteForceAttack.rate (self stalled_attack) = 0%Z) by reflexivity.
  assert (Hd : (0 < 60)%Z) by lia.
  assert (Hs : stop_req (calm 7) 0 = false) by reflexivity.
  repeat (split; [assumption |]).
  destruct (BruteForceExtra.start_with_rate_zero_tries_once
              (calm 7) 60 stalled_attack 0 Hr Hd Hs) as (s' & H1 & H2 & _).
  exists s'. split; assumption.
Defined.

(** An attack that is given no time. *)
Lemma start_without_time_tries_nothing_witness :
  (0 <= 0)%Z /\
  exists s',
    BruteForceAttack.start 1 (calm 7) 0 example_attack = Some s' /\
    BruteForceAttack.password_attempts (self s') = 0%Z.
Proof.
  assert (Hd : (0 <= 0)%Z) by lia.
  split; [exact Hd |].
  destruct (BruteForceExtra.start_without_time_tries_nothing
              (calm 7) 0 example_attack 0 Hd) as (s' & H1 & H2 & _).
  exists s'. split; assumption.
Defined.

(** The first cycle of the default connection flood: 5 clients. *)
Lemma connection_cycle_retains_established_witness :
  exists s',
    DDoSAttack.connection_cycle (calm 7) 0 fast_flood = Py.Normal s' /\
    List.length (DDoSAttack.clients (self s')) = 5%nat /\
    DDoSAttack.operations_count (self s') = 5%Z.
Proof.
  destruct (DDoSAttack.connection_cycle (calm 7) 0 fast_flood)
    as [s' | e s'] eqn:E.
  - exists s'. split; [reflexivity |].
    destruct (DDoSExtra.connection_cycle_retains_established
                (calm 7) 0 fast_flood s' E) as (H1 & H2 & _).
    cbv zeta in H1, H2. split.
    + rewrite H1. vm_compute. reflexivity.
    + rewrite H2. vm_compute. reflexivity.
  - vm_compute in E. discriminate E.
Defined.

(** The default connection flood for 2 seconds: 10 connections at most. *)
Lemma connection_flood_is_throttled_witness :
  causal (calm 7) /\
  DDoSAttack.attack_type (self fast_flood) = "connection"%string /\
  exists s',
    DDoSAttack.start 5 (calm 7) 2 fast_flood = Some (Py.Normal s') /\
    (DDoSAttack.operations_count (self s') <= 10)%Z.
Proof.
  assert (Hw : causal (calm 7)).
  { repeat split; intros; unfold Qle; simpl; lia. }
  assert (Ht : DDoSAttack.attack_type (self fast_flood) = "connection"%string)
    by reflexivity.
  split; [exact Hw |]. split; [exact Ht |].
  destruct (DDoSAttack.start 5 (calm 7) 2 fast_flood) as [[s' | e s'] |] eqn:E.
  - exists s'. split; [reflexivity |].
    exact (proj1 (DDoSExtra.connection_flood_is_throttled
                    (calm 7) 2 fast_flood s' 5 Hw Ht E)).
  - vm_compute in E. discriminate E.
  - vm_compute in E. discriminate E.
Defined.

(** The default connection flood when nobody stops it. *)
Lemma start_leaves_the_flag_up_witness :
  (forall n, stop_req (calm 7) n = false) /\
  exists s',
    DDoSAttack.start 5 (calm 7) 2 fast_flood = Some (Py.Normal s') /\
    DDoSAttack.running (self s') = true.
Proof.
  assert (Hq : forall n, stop_req (calm 7) n = false) by (intros n; reflexivity).
  split; [exact Hq |].
  destruct (DDoSAttack.start 5 (calm 7) 2 fast_flood) as [r |] eqn:E.
  - destruct (DDoSExtra.start_leaves_the_flag_up
                (calm 7) 2 fast_flood 5 r Hq E) as (s' & -> & Hup).
    exists s'. split; [reflexivity | exact Hup].
  - vm_compute in E. discriminate E.
Defined.

(** A flood of type "subscribe". *)
Lemma start_with_unknown_type_does_nothing_witness :
  DDoSAttack.attack_type (self odd_flood) <> "connection"%string /\
  DDoSAttack.attack_type (self odd_flood) <> "publish"%string /\
  exists s',
    DDoSAttack.start 0 (calm 7) 60 odd_flood = Some (Py.Normal s') /\
    DDoSAttack.operations_count (self s') = 0%Z.
Proof.
  assert (H1 : DDoSAttack.attack_type (self odd_flood) <> "connection"%string)
    by (simpl; discriminate).
  assert (H2 : DDoSAttack.attack_type (self odd_flood) <> "publish"%string)
    by (simpl; discriminate).
  split; [exact H1 |]. split; [exact H2 |].
  destruct (DDoSExtra.start_with_unknown_type_does_nothing
              (calm 7) 60 odd_flood 0 H1 H2) as (s' & Hs & _ & Hops & _).
  exists s'. split; assumption.
Defined.

(** A publish flood that is given no time. *)
Lemma start_without_time_floods_nothing_witness :
  causal (calm 7) /\ (0 <= 0)%Z /\
  exists s' evs,
    DDoSAttack.start 1 (calm 7) 0 publish_flood = Some (Py.Normal s') /\
    out s' = out publish_flood ++ evs /\
    DDoSAttack.operations_count (self s') = 0%Z /\
    count is_publish evs = 0%nat.
Proof.
  assert (Hw : causal (calm 7)).
  { repeat split; intros; unfold Qle; simpl; lia. }
  assert (Hd : (0 <= 0)%Z) by lia.
  split; [exact Hw |]. split; [exact Hd |].
  destruct (DDoSExtra.start_without_time_floods_nothing
              (calm 7) 0 publish_flood 0 Hw Hd)
    as (s' & evs & H1 & H2 & H3 & H4 & _).
  exists s', evs. repeat split; assumption.
Defined.

(** A device that is stopped before its third loop test. *)
Lemma start_always_ends_with_stop_witness :
  exists s',
    IoTDevice.start 5 (halted 7) fresh_device = Some s' /\
    IoTDevice.running (self s') = false.
Proof.
  destruct (IoTDevice.start 5 (halted 7) fresh_device) as [s' |] eqn:E.
  - exists s'. split; [reflexivity |].
    exact (proj1 (DeviceExtra.start_always_ends_with_stop
                    (halted 7) 5 fresh_device s' E)).
  - vm_compute in E. discriminate E.
Defined.

(** A device that cannot reach its broker. *)
Lemma start_without_connection_publishes_nothing_witness :
  setup_connect_ok (unreachable 7) 0 = false /\
  exists s',
    IoTDevice.start 0 (unreachable 7) fresh_device = Some s' /\
    IoTDevice.running (self s') = false.
Proof.
  assert (Hc : setup_connect_ok (unreachable 7) 0 = false) by reflexivity.
  split; [exact Hc |].
  destruct (DeviceExtra.start_without_connection_publishes_nothing
              (unreachable 7) 0 fresh_device Hc) as (s' & H1 & H2 & _).
  exists s'. split; assumption.
Defined.

(** The two publishes of the halted device are 3 seconds apart. *)
Lemma start_spaces_its_publishes_witness :
  causal (halted 7) /\
  exists s' tr,
    IoTDevice.start 5 (halted 7) fresh_device = Some s' /\
    out s' = out fresh_device ++ tr /\
    (3 * (inject_Z (Z.of_nat (count is_publish tr)) - 1)
     <= clock s' - clock fresh_device)%Q.
Proof.
  assert (Hw : causal (halted 7)).
  { repeat split; intros; unfold Qle; simpl; lia. }
  split; [exact Hw |].
  destruct (IoTDevice.start 5 (halted 7) fresh_device) as [s' |] eqn:E.
  - destruct (DeviceExtra.start_spaces_its_publishes
                (halted 7) 5 fresh_device s' Hw E) as (tr & H1 & H2).
    exists s', tr. repeat split; assumption.
  - vm_compute in E. discriminate E.
Defined.

(** The attacks of scenario B. *)
Lemma cli_attacks_last_sixty_seconds_witness :
  SimulationManager.config (self SimulationProps.scenario_b)
  = SimulationManager.main_config
      (SimulationManager.mkArgs "localhost" 1883 40 2 true 20 "admin" true
                                "publish" 50) /\
  map (fun e => SimulationManager.args (fst e))
      (SimulationManager.attack_threads
         (self (SimulationManager.start_bruteforce_attack
                  SimulationProps.scenario_b)))
  = [Some 60%Z].
Proof.
  assert (Hc : SimulationManager.config (self SimulationProps.scenario_b)
               = SimulationManager.main_config
                   (SimulationManager.mkArgs "localhost" 1883 40 2 true 20
                                             "admin" true "publish" 50))
    by reflexivity.
  split; [exact Hc |].
  rewrite (proj1 (ManagerExtra.cli_attacks_last_sixty_seconds _ _ Hc)).
  reflexivity.
Defined.

(** Stopping the manager of scenario B once it is launched. *)
Lemma stop_signals_devices_then_attacks_witness :
  SimulationManager.running
    (self (SimulationManager.launch (calm 0) SimulationProps.scenario_b)) = true /\
  SimulationManager.running
    (self (SimulationManager.stop (calm 0)
             (SimulationManager.launch (calm 0) SimulationProps.scenario_b)))
  = false.
Proof.
  assert (Hr : SimulationManager.running
                 (self (SimulationManager.launch (calm 0)
                          SimulationProps.scenario_b)) = true)
    by (vm_compute; reflexivity).
  split; [exact Hr |].
  exact (proj1 (proj2 (proj2 (proj2
           (ManagerExtra.stop_signals_devices_then_attacks (calm 0) _ Hr))))).
Defined.

(** Scenario B runs to its end. *)
Lemma run_returns_stopped_witness :
  causal (calm 0) /\
  (Py.get
     (SimulationManager.c_duration
        (SimulationManager.config (self SimulationProps.scenario_b))) 300
   <= Z.of_nat 40)%Z /\
  exists s',
    SimulationManager.run 41 (calm 0) SimulationProps.scenario_b
    = Some (Py.Normal s') /\
    SimulationManager.running (self s') = false.
Proof.
  assert (Hw : causal (calm 0)).
  { repeat split; intros; unfold Qle; simpl; lia. }
  assert (Hf : (Py.get
                  (SimulationManager.c_duration
                     (SimulationManager.config (self SimulationProps.scenario_b)))
                  300 <= Z.of_nat 40)%Z) by (simpl; lia).
  split; [exact Hw |]. split; [exact Hf |].
  destruct (ManagerExtra.run_returns_stopped
              (calm 0) SimulationProps.scenario_b 40 Hw Hf) as (s' & H1 & H2 & _).
  exists s'. split; assumption.
Defined.

(** Scenario B starts its two attacks, no more. *)
Lemma run_starts_attacks_only_when_due_witness :
  causal (calm 0) /\
  SimulationManager.attack_threads (self SimulationProps.scenario_b) = [] /\
  SimulationManager.timers (self SimulationProps.scenario_b) = [] /\
  exists s',
    SimulationManager.run 41 (calm 0) SimulationProps.scenario_b
    = Some (Py.Normal s') /\
    (List.length (SimulationManager.attack_threads (self s')) <= 2)%nat.
Proof.
  assert (Hw : causal (calm 0)).
  { repeat split; intros; unfold Qle; simpl; lia. }
  assert (Ha : SimulationManager.attack_threads (self SimulationProps.scenario_b)
               = []) by reflexivity.
  assert (Ht : SimulationManager.timers (self SimulationProps.scenario_b) = [])
    by reflexivity.
  repeat (split; [assumption |]).
  destruct (SimulationManager.run 41 (calm 0) SimulationProps.scenario_b)
    as [[s' | e s'] |] eqn:E.
  - exists s'. split; [reflexivity |].
    destruct (ManagerExtra.run_starts_attacks_only_when_due
                (calm 0) SimulationProps.scenario_b s' 41 Hw Ha Ht E)
      as (H1 & H2 & _).
    cbv zeta in H1, H2. lia.
  - vm_compute in E. discriminate E.
  - vm_compute in E. discriminate E.
Defined.
